(** * Ping-Gamify backend: progress tracking, catalog cascades, badges, groups

    A shallow embedding of the route handlers of the Express/Mongoose backend
    (routes/progress.js, routes/skills.js, routes/courses.js, routes/groups.js)
    and of the methods of the Progress model, together with the properties
    the specification states about them.

    Conventions of the embedding:
    - a MongoDB collection is the list of its documents in natural order;
      [findOne] returns the first match, [find] all matches in order;
    - an ObjectId is a natural number; only well-formed ids are modelled;
    - a JavaScript Number is an IEEE-754 binary64 value ([spec_float] with
      precision 53 and maximal exponent 1024), so that [/], [*], [+] and
      [Math.round] round exactly as the interpreter does;
    - [new Date()] and the ObjectId of a freshly constructed document are
      supplied by the environment of the request;
    - a handler is a function from the store to a response and a new store. *)

From Stdlib Require Import String ZArith List Bool Arith Lia SpecFloat.
Import ListNotations.

Set Implicit Arguments.

(* ===================================================================== *)
(** ** JavaScript numbers *)
(* ===================================================================== *)

Module JS.

Definition Number := spec_float.

Definition prec : Z := 53.
Definition emax : Z := 1024.

  (** The Number denoted by an integer literal or an array length. *)
Definition of_Z (z : Z) : Number := binary_normalize prec emax z 0 false.
Definition of_nat (n : nat) : Number := of_Z (Z.of_nat n).

Definition add : Number -> Number -> Number := SFadd prec emax.
Definition mul : Number -> Number -> Number := SFmul prec emax.
Definition div : Number -> Number -> Number := SFdiv prec emax.

Definition ltb : Number -> Number -> bool := SFltb.
Definition leb : Number -> Number -> bool := SFleb.

  (** [!x] for a Number: zero (of either sign) and NaN are falsy. *)
Definition falsy (x : Number) : bool :=
    match x with
    | S754_zero _ | S754_nan => true
    | _ => false
    end.

  (** [Math.round]: the integer nearest to [x], ties going towards
      +infinity; NaN, the infinities and the zeros are returned as they
      are, and a negative argument rounding to zero gives -0. *)
Definition Math_round (x : Number) : Number :=
    match x with
    | S754_finite s m (Zneg p) =>
        let d := Z.pow_pos 2 p in
        let q := (Z.pos m / d)%Z in
        let r := (Z.pos m mod d)%Z in
        if s then
          let k := (q + (if (d <? 2 * r)%Z then 1 else 0))%Z in
          if (k =? 0)%Z then S754_zero true else of_Z (- k)
        else
          let k := (q + (if (d <=? 2 * r)%Z then 1 else 0))%Z in
          if (k =? 0)%Z then S754_zero false else of_Z k
    | _ => x
    end.

  (** Structural equality of two Numbers (it tells +0 from -0). *)
Definition same (x y : Number) : bool :=
    match x, y with
    | S754_zero a, S754_zero b => Bool.eqb a b
    | S754_infinity a, S754_infinity b => Bool.eqb a b
    | S754_nan, S754_nan => true
    | S754_finite a m e, S754_finite b n f =>
        Bool.eqb a b && Pos.eqb m n && Z.eqb e f
    | _, _ => false
    end.

End JS.

(* ===================================================================== *)
(** ** Documents *)
(* ===================================================================== *)

Definition ObjectId := nat.
Definition Date := nat.

(** An element of [taskProgress.studentUploads]. *)
Record Upload := {
  url : string;
  originalName : string;
  uploadedAt : Date
}.

(** taskProgressSchema; a path without a value is [None]. *)
Record TaskProgress := {
  tp_task : ObjectId;
  completed : bool;
  completedAt : option Date;
  coachRating : option JS.Number;
  coachFeedback : string;
  coachRatedAt : option Date;
  submittedForReview : bool;
  submittedAt : option Date;
  studentUploads : list Upload;
  reviewed : bool;
  approved : option bool;
  reviewedAt : option Date;
  reviewFeedback : string
}.

(** progressSchema. *)
Record Progress := {
  progress_id : ObjectId;
  progress_user : ObjectId;
  progress_course : ObjectId;
  completedTasks : list ObjectId;
  taskProgress : list TaskProgress;
  totalTasks : nat;
  completedTasksCount : nat;
  averageRating : JS.Number;
  lastActivity : Date
}.

(* ===================================================================== *)
(** ** Methods of the Progress model *)
(* ===================================================================== *)

(** progressSchema.methods.getCompletionPercentage *)
Definition getCompletionPercentage (this : Progress) : JS.Number :=
  if totalTasks this =? 0 then JS.of_Z 0
  else JS.Math_round
         (JS.mul (JS.div (JS.of_nat (completedTasksCount this))
                         (JS.of_nat (totalTasks this)))
                 (JS.of_Z 100)).

(** [tp.coachRating !== null] *)
Definition isRated (tp : TaskProgress) : bool :=
  match coachRating tp with Some _ => true | None => false end.

(** The right operand of [sum + tp.coachRating]; [null] counts as 0. *)
Definition ratingOperand (tp : TaskProgress) : JS.Number :=
  match coachRating tp with Some r => r | None => JS.of_Z 0 end.

(** progressSchema.methods.getAverageRating *)
Definition getAverageRating (this : Progress) : JS.Number :=
  let ratedTasks := filter isRated (taskProgress this) in
  if length ratedTasks =? 0 then JS.of_Z 0
  else
    let totalRating :=
      fold_left (fun sum tp => JS.add sum (ratingOperand tp)) ratedTasks (JS.of_Z 0) in
    JS.div
      (JS.Math_round
         (JS.mul (JS.div totalRating (JS.of_nat (length ratedTasks))) (JS.of_Z 10)))
      (JS.of_Z 10).

(* ===================================================================== *)
(** ** Catalog, accounts and the store *)
(* ===================================================================== *)

Inductive Role := RoleStudent | RoleCoach.

(** userSchema.  Left out: the credentials, [group] and [section]; the
    link [studentProfile], which is written at registration and read by
    no handler (the badge block finds the profile by name); and the
    stamps [createdAt] and [updatedAt] that Mongoose keeps, which no
    handler reads. *)
Record User := {
  user_id : ObjectId;
  user_name : string;
  user_email : string;
  user_role : Role;
  enrolledCourses : list ObjectId
}.

(** studentSchema: the profile that holds the badges. *)
Record Student := {
  student_id : ObjectId;
  student_name : string;
  student_badges : list ObjectId
}.

(** badgeSchema. *)
Record Badge := {
  badge_id : ObjectId;
  badge_title : string;
  criteria : string
}.

(** taskSchema. *)
Record Task := {
  task_id : ObjectId;
  task_title : string;
  contentUrls : list string;
  task_skill : ObjectId;
  deadline : option Date
}.

(** skillSchema. *)
Record Skill := {
  skill_id : ObjectId;
  skill_title : string;
  skill_course : ObjectId;
  skill_tasks : list ObjectId
}.

(** courseSchema ([description] and the stamps [createdAt] and
    [updatedAt], which no handler reads, left out). *)
Record Course := {
  course_id : ObjectId;
  course_name : string;
  course_coach : ObjectId;
  course_students : list ObjectId;
  course_skills : list ObjectId
}.

(** The collections the progress, skills and courses routers work on. *)
Record DB := {
  users : list User;
  students : list Student;
  badges : list Badge;
  courses : list Course;
  skills : list Skill;
  tasks : list Task;
  progresses : list Progress
}.

(** What a request gets from its surroundings: the clock and the ObjectId
    a document constructed by the handler receives. *)
Record Env := {
  now : Date;
  newId : ObjectId
}.

(* ===================================================================== *)
(** ** Mongoose operations *)
(* ===================================================================== *)

Module Mongoose.

Section Collection.
Variable D : Type.
Variable idOf : D -> ObjectId.

    (** [Model.findById(id)] *)
Definition findById (c : list D) (id : ObjectId) : option D :=
      find (fun d => idOf d =? id) c.

    (** [Model.updateOne(filter, update)] and [doc.save()] of a loaded
        document: the first document matching is replaced. *)
Fixpoint updateOne (f : D -> bool) (g : D -> D) (c : list D) : list D :=
      match c with
      | [] => []
      | d :: c' => if f d then g d :: c' else d :: updateOne f g c'
      end.

    (** [doc.save()]: a document constructed by the handler is inserted,
        a loaded one is written back under its [_id]. *)
Definition save (isNew : bool) (d : D) (c : list D) : list D :=
      if isNew then c ++ [d]
      else updateOne (fun x => idOf x =? idOf d) (fun _ => d) c.

    (** [Model.deleteOne(filter)] and [doc.deleteOne()]: the first
        document matching is removed. *)
Fixpoint deleteOne (f : D -> bool) (c : list D) : list D :=
      match c with
      | [] => []
      | d :: c' => if f d then c' else d :: deleteOne f c'
      end.

    (** [Model.deleteMany(filter)] *)
Definition deleteMany (f : D -> bool) (c : list D) : list D :=
      filter (fun d => negb (f d)) c.

    (** [Model.updateMany(filter, update)] *)
Definition updateMany (f : D -> bool) (g : D -> D) (c : list D) : list D :=
      map (fun d => if f d then g d else d) c.

    (** [query.populate(path)] on an array of references: every id is
        replaced by the document it names, and an id that names no
        document is dropped from the populated array. *)
Definition populate (c : list D) (ids : list ObjectId) : list D :=
      flat_map (fun id => match findById c id with
                          | Some d => [d]
                          | None => []
                          end) ids.
End Collection.

  (** [array.includes(id)] on an array of ObjectIds. *)
Definition includes (id : ObjectId) (a : list ObjectId) : bool :=
    existsb (fun x => x =? id) a.

  (** [{ $pull: { path: id } }]: every occurrence of the id is removed. *)
Definition pull (id : ObjectId) (a : list ObjectId) : list ObjectId :=
    filter (fun x => negb (x =? id)) a.

End Mongoose.
Import Mongoose.

(** Field updates of the documents the handlers write. *)
Definition setCounts (p : Progress) (done total : nat) : Progress :=
  {| progress_id := progress_id p; progress_user := progress_user p;
     progress_course := progress_course p;
     completedTasks := completedTasks p; taskProgress := taskProgress p;
     totalTasks := total; completedTasksCount := done;
     averageRating := averageRating p; lastActivity := lastActivity p |}.

Definition setCompletedTasks (p : Progress) (l : list ObjectId) : Progress :=
  {| progress_id := progress_id p; progress_user := progress_user p;
     progress_course := progress_course p;
     completedTasks := l; taskProgress := taskProgress p;
     totalTasks := totalTasks p; completedTasksCount := completedTasksCount p;
     averageRating := averageRating p; lastActivity := lastActivity p |}.

Definition setTaskProgress (p : Progress) (l : list TaskProgress) : Progress :=
  {| progress_id := progress_id p; progress_user := progress_user p;
     progress_course := progress_course p;
     completedTasks := completedTasks p; taskProgress := l;
     totalTasks := totalTasks p; completedTasksCount := completedTasksCount p;
     averageRating := averageRating p; lastActivity := lastActivity p |}.

Definition setAverageRating (p : Progress) (r : JS.Number) : Progress :=
  {| progress_id := progress_id p; progress_user := progress_user p;
     progress_course := progress_course p;
     completedTasks := completedTasks p; taskProgress := taskProgress p;
     totalTasks := totalTasks p; completedTasksCount := completedTasksCount p;
     averageRating := r; lastActivity := lastActivity p |}.

Definition setProgresses (db : DB) (l : list Progress) : DB :=
  {| users := users db; students := students db; badges := badges db;
     courses := courses db; skills := skills db; tasks := tasks db;
     progresses := l |}.

Definition setStudents (db : DB) (l : list Student) : DB :=
  {| users := users db; students := l; badges := badges db;
     courses := courses db; skills := skills db; tasks := tasks db;
     progresses := progresses db |}.

Definition setUsers (db : DB) (l : list User) : DB :=
  {| users := l; students := students db; badges := badges db;
     courses := courses db; skills := skills db; tasks := tasks db;
     progresses := progresses db |}.

Definition setCourses (db : DB) (l : list Course) : DB :=
  {| users := users db; students := students db; badges := badges db;
     courses := l; skills := skills db; tasks := tasks db;
     progresses := progresses db |}.

Definition setSkills (db : DB) (l : list Skill) : DB :=
  {| users := users db; students := students db; badges := badges db;
     courses := courses db; skills := l; tasks := tasks db;
     progresses := progresses db |}.

Definition setTasks (db : DB) (l : list Task) : DB :=
  {| users := users db; students := students db; badges := badges db;
     courses := courses db; skills := skills db; tasks := l;
     progresses := progresses db |}.

(** The document [new Progress({ user, course, completedTasks: [] })]
    with the defaults of the schema. *)
Definition newProgress (env : Env) (userId courseId : ObjectId) : Progress :=
  {| progress_id := newId env; progress_user := userId;
     progress_course := courseId;
     completedTasks := []; taskProgress := [];
     totalTasks := 0; completedTasksCount := 0;
     averageRating := JS.of_Z 0; lastActivity := now env |}.

(** The subdocument a taskProgress array makes of the plain object
    [{ task: taskId, studentUploads: [] }]: the paths given are copied and
    the others take the defaults of taskProgressSchema. *)
Definition castTaskProgress (taskId : ObjectId) (uploads : list Upload) : TaskProgress :=
  {| tp_task := taskId; completed := false; completedAt := None;
     coachRating := None; coachFeedback := ""; coachRatedAt := None;
     submittedForReview := false; submittedAt := None;
     studentUploads := uploads;
     reviewed := false; approved := None; reviewedAt := None;
     reviewFeedback := "" |}.

(** [Progress.findOne({ user, course })] *)
Definition findProgress (db : DB) (userId courseId : ObjectId) : option Progress :=
  find (fun p => (progress_user p =? userId) && (progress_course p =? courseId))
       (progresses db).

(** [Skill.find({ course }).populate('tasks')]: the skills of the course,
    each with the Task documents its [tasks] array names. *)
Definition skillsWithTasks (db : DB) (courseId : ObjectId) : list (Skill * list Task) :=
  map (fun skill => (skill, populate task_id (tasks db) (skill_tasks skill)))
      (filter (fun skill => skill_course skill =? courseId) (skills db)).

(** [skills.flatMap(skill => skill.tasks.map(task => task._id))] *)
Definition allTasks (db : DB) (courseId : ObjectId) : list ObjectId :=
  flat_map (fun st => map task_id (snd st)) (skillsWithTasks db courseId).

(* ===================================================================== *)
(** ** Requests and responses *)
(* ===================================================================== *)

(** A file as multer hands it to the handler ([upload.array] passes at
    most ten of them). *)
Record File := {
  filename : string;
  originalname : string
}.

(** The JSON bodies the handlers send. *)
Inductive Body :=
| Message (message : string)
| CompleteTaskBody (progress : Progress) (newBadges : list Badge)
| ProgressBody (progress : Progress) (populatedCompleted : list Task)
| EmptyProgressBody (completed : list Task) (count total : nat)
| SubmitTaskBody (message : string) (progress : Progress)
| SubmissionsBody (found : list Progress)
| StudentTasksBody (rows : list (Task * Skill * option TaskProgress))
    (completed : list ObjectId) (count total : nat)
| RateTaskBody (message : string) (entry : TaskProgress)
| StudentProgressBody (student : option User) (count total : nat)
    (completionPercentage rating : JS.Number) (activity : Date)
    (entries : list TaskProgress) (catalog : list (Skill * list Task)).

Record Response := {
  status : nat;
  body : Body
}.

Definition reply (code : nat) (b : Body) : Response :=
  {| status := code; body := b |}.

(** The failure kinds of the specification and the status codes that
    carry them. *)
Inductive ErrorKind := NotFound | Unauthorized | Validation | ServerFault.

Definition errorKind (r : Response) : option ErrorKind :=
  if status r =? 400 then Some Validation
  else if (status r =? 401) || (status r =? 403) then Some Unauthorized
  else if status r =? 404 then Some NotFound
  else if status r =? 500 then Some ServerFault
  else None.

(** Modelled from the spec: the [coach] middleware of authMiddleware.js,
    which is not among the sources.  A role-gated operation fails with an
    authorization error when the role of the caller is not coach; the
    handler runs otherwise. *)
Definition coach (reqUser : User) (db : DB) (handler : Response * DB) : Response * DB :=
  match user_role reqUser with
  | RoleCoach => handler
  | RoleStudent => (reply 403 (Message "Not authorized as a coach"), db)
  end.

(** [array.findIndex(tp => tp.task.toString() === taskId)], with the
    element found. *)
Fixpoint findTaskProgress (taskId : ObjectId) (l : list TaskProgress) : option (nat * TaskProgress) :=
  match l with
  | [] => None
  | tp :: l' =>
      if tp_task tp =? taskId then Some (0, tp)
      else match findTaskProgress taskId l' with
           | Some (i, x) => Some (S i, x)
           | None => None
           end
  end.

(** Assignment through [array[i]]. *)
Fixpoint updateAt (A : Type) (i : nat) (f : A -> A) (l : list A) : list A :=
  match l, i with
  | [], _ => []
  | x :: l', 0 => f x :: l'
  | x :: l', S j => x :: updateAt j f l'
  end.

(* ===================================================================== *)
(** ** routes/progress.js *)
(* ===================================================================== *)

(** [Progress.aggregate([{ $match: { user } }, { $unwind: '$completedTasks' },
    { $group: { _id: null, count: { $sum: 1 } } }])] read as
    [completedCount[0]?.count || 0]: one unit per element of the
    [completedTasks] of every record of the user. *)
Definition completedCount (db : DB) (userId : ObjectId) : nat :=
  list_sum (map (fun p => length (completedTasks p))
                (filter (fun p => progress_user p =? userId) (progresses db))).

(** [Student.findOne({ name: req.user.name })] *)
Definition findStudent (db : DB) (reqUser : User) : option Student :=
  find (fun s => String.eqb (student_name s) (user_name reqUser)) (students db).

(** [Badge.findOne({ criteria: 'Complete 5 tasks' })] *)
Definition findBadge (db : DB) : option Badge :=
  find (fun b => String.eqb (criteria b) "Complete 5 tasks") (badges db).

Definition pushBadge (badge : Badge) (student : Student) : Student :=
  {| student_id := student_id student;
     student_name := student_name student;
     student_badges := student_badges student ++ [badge_id badge] |}.

(** The badge block of POST /progress/complete-task; it runs on the store
    the progress document has been saved to, and yields [newBadges]. *)
Definition awardBadges (db : DB) (reqUser : User) : list Badge * DB :=
  match findStudent db reqUser with
  | Some student =>
      let totalCompleted := completedCount db (user_id reqUser) in
      match findBadge db with
      | Some badge =>
          if (5 <=? totalCompleted) && negb (includes (badge_id badge) (student_badges student))
          then
            ([badge],
             setStudents db (save student_id false (pushBadge badge student) (students db)))
          else ([], db)
      | None => ([], db)
      end
  | None => ([], db)
  end.

(** POST /progress/complete-task *)
Definition completeTask (env : Env) (db : DB) (reqUser : User)
    (taskId courseId : ObjectId) : Response * DB :=
  let userId := user_id reqUser in
  let '(progress, isNew) :=
    match findProgress db userId courseId with
    | Some p => (p, false)
    | None => (newProgress env userId courseId, true)
    end in
  let progress :=
    if includes taskId (completedTasks progress) then progress
    else setCompletedTasks progress (completedTasks progress ++ [taskId]) in
  let progress :=
    setCounts progress (length (completedTasks progress)) (length (allTasks db courseId)) in
  let db := setProgresses db (save progress_id isNew progress (progresses db)) in
  let '(newBadges, db) := awardBadges db reqUser in
  (reply 201 (CompleteTaskBody progress newBadges), db).

(** GET /progress/:courseId *)
Definition getProgress (db : DB) (reqUser : User) (courseId : ObjectId) : Response * DB :=
  match findProgress db (user_id reqUser) courseId with
  | Some progress =>
      (* .populate('completedTasks'): the array the handler sees *)
      let populated := populate task_id (tasks db) (completedTasks progress) in
      let progress := setCounts progress (length populated) (length (allTasks db courseId)) in
      (reply 200 (ProgressBody progress populated),
       setProgresses db (save progress_id false progress (progresses db)))
  | None => (reply 200 (EmptyProgressBody [] 0 0), db)
  end.

(** What the variable [tp] of POST /progress/submit-task refers to: the
    subdocument [find] returned, or the plain object the handler built.
    [taskProgress.push(tp)] stores a subdocument cast from the plain
    object; [tp] itself keeps naming the plain object. *)
Record PlainTaskProgress := {
  plain_task : ObjectId;
  plain_studentUploads : list Upload;
  plain_submittedForReview : option bool;
  plain_submittedAt : option Date
}.

Inductive TpRef :=
| Subdocument (index : nat)
| PlainObject (obj : PlainTaskProgress).

Definition pushUpload (u : Upload) (tp : TaskProgress) : TaskProgress :=
  {| tp_task := tp_task tp; completed := completed tp; completedAt := completedAt tp;
     coachRating := coachRating tp; coachFeedback := coachFeedback tp;
     coachRatedAt := coachRatedAt tp;
     submittedForReview := submittedForReview tp; submittedAt := submittedAt tp;
     studentUploads := studentUploads tp ++ [u];
     reviewed := reviewed tp; approved := approved tp; reviewedAt := reviewedAt tp;
     reviewFeedback := reviewFeedback tp |}.

Definition markSubmitted (at_ : Date) (tp : TaskProgress) : TaskProgress :=
  {| tp_task := tp_task tp; completed := completed tp; completedAt := completedAt tp;
     coachRating := coachRating tp; coachFeedback := coachFeedback tp;
     coachRatedAt := coachRatedAt tp;
     submittedForReview := true; submittedAt := Some at_;
     studentUploads := studentUploads tp;
     reviewed := reviewed tp; approved := approved tp; reviewedAt := reviewedAt tp;
     reviewFeedback := reviewFeedback tp |}.

(** A write through [tp]: it reaches the document only when [tp] is one
    of its subdocuments. *)
Definition writeTp (ref : TpRef) (onDoc : TaskProgress -> TaskProgress)
    (onPlain : PlainTaskProgress -> PlainTaskProgress)
    (progress : Progress) : Progress * TpRef :=
  match ref with
  | Subdocument i =>
      (setTaskProgress progress (updateAt i onDoc (taskProgress progress)), ref)
  | PlainObject obj => (progress, PlainObject (onPlain obj))
  end.

Definition uploadOf (env : Env) (file : File) : Upload :=
  {| url := "uploads/" ++ filename file;
     originalName := originalname file;
     uploadedAt := now env |}.

(** The same two writes on the plain object. *)
Definition pushPlainUpload (u : Upload) (obj : PlainTaskProgress) : PlainTaskProgress :=
  {| plain_task := plain_task obj;
     plain_studentUploads := plain_studentUploads obj ++ [u];
     plain_submittedForReview := plain_submittedForReview obj;
     plain_submittedAt := plain_submittedAt obj |}.

Definition markPlainSubmitted (at_ : Date) (obj : PlainTaskProgress) : PlainTaskProgress :=
  {| plain_task := plain_task obj;
     plain_studentUploads := plain_studentUploads obj;
     plain_submittedForReview := Some true;
     plain_submittedAt := Some at_ |}.

(** The body of [req.files.forEach]: [tp.studentUploads.push({...})]. *)
Definition addFile (env : Env) (st : Progress * TpRef) (file : File) : Progress * TpRef :=
  writeTp (snd st) (pushUpload (uploadOf env file)) (pushPlainUpload (uploadOf env file))
          (fst st).

(** POST /progress/submit-task *)
Definition submitTask (env : Env) (db : DB) (reqUser : User)
    (taskId courseId : ObjectId) (files : list File) : Response * DB :=
  let userId := user_id reqUser in
  if length files =? 0 then
    (reply 400 (Message "At least one file is required."), db)
  else
    let '(progress, isNew) :=
      match findProgress db userId courseId with
      | Some p => (p, false)
      | None => (newProgress env userId courseId, true)
      end in
    (* Find or create the taskProgress entry *)
    let '(progress, tp) :=
      match findTaskProgress taskId (taskProgress progress) with
      | Some (i, _) => (progress, Subdocument i)
      | None =>
          (setTaskProgress progress
             (taskProgress progress ++ [castTaskProgress taskId []]),
           PlainObject {| plain_task := taskId; plain_studentUploads := [];
                          plain_submittedForReview := None;
                          plain_submittedAt := None |})
      end in
    (* Add uploaded files *)
    let '(progress, tp) := fold_left (addFile env) files (progress, tp) in
    let '(progress, tp) :=
      writeTp tp (markSubmitted (now env)) (markPlainSubmitted (now env)) progress in
    (reply 201 (SubmitTaskBody "Files uploaded and submitted for review." progress),
     setProgresses db (save progress_id isNew progress (progresses db))).

(** GET /progress/submissions/:courseId *)
Definition getSubmissions (db : DB) (reqUser : User) (courseId : ObjectId) : Response * DB :=
  match findById course_id (courses db) courseId with
  | Some course =>
      if course_coach course =? user_id reqUser then
        (reply 200 (SubmissionsBody
                      (filter (fun p => progress_course p =? courseId) (progresses db))),
         db)
      else (reply 403 (Message "Not authorized"), db)
  | None => (reply 403 (Message "Not authorized"), db)
  end.

(** PATCH /progress/:courseId/mark-seen.  [seenByStudent] is not a path of
    taskProgressSchema: the assignment stays on the loaded object and
    [save] has nothing to write. *)
Definition markSeen (db : DB) (reqUser : User) (courseId : ObjectId) : Response * DB :=
  match findProgress db (user_id reqUser) courseId with
  | None => (reply 404 (Message "Progress not found"), db)
  | Some _ => (reply 200 (Message "Marked as seen"), db)
  end.

(** GET /progress/:courseId/student/:studentId *)
Definition getStudentTasks (db : DB) (reqUser : User)
    (courseId studentId : ObjectId) : Response * DB :=
  coach reqUser db
    (let rows :=
       flat_map (fun st => map (fun task => (task, fst st)) (snd st))
                (skillsWithTasks db courseId) in
     let progress := findProgress db studentId courseId in
     (* taskProgressMap: a later entry of a task replaces an earlier one *)
     let entryOf (task : Task) : option TaskProgress :=
       match progress with
       | Some p => find (fun tp => tp_task tp =? task_id task) (rev (taskProgress p))
       | None => None
       end in
     (reply 200
        (StudentTasksBody
           (map (fun r => (fst r, snd r, entryOf (fst r))) rows)
           (match progress with Some p => completedTasks p | None => [] end)
           (match progress with Some p => completedTasksCount p | None => 0 end)
           (length rows)),
      db)).

(* ===================================================================== *)
(** ** routes/skills.js *)
(* ===================================================================== *)

Definition pullTask (taskId : ObjectId) (s : Skill) : Skill :=
  {| skill_id := skill_id s; skill_title := skill_title s;
     skill_course := skill_course s;
     skill_tasks := pull taskId (skill_tasks s) |}.

Definition pullSkill (skillId : ObjectId) (c : Course) : Course :=
  {| course_id := course_id c; course_name := course_name c;
     course_coach := course_coach c; course_students := course_students c;
     course_skills := pull skillId (course_skills c) |}.

(** DELETE /skills/:skillId *)
Definition deleteSkill (db : DB) (reqUser : User) (skillId : ObjectId) : Response * DB :=
  coach reqUser db
    match findById skill_id (skills db) skillId with
    | None => (reply 404 (Message "Skill not found"), db)
    | Some skill =>
        match findById course_id (courses db) (skill_course skill) with
        | None => (reply 401 (Message "User not authorized"), db)
        | Some course =>
            if negb (course_coach course =? user_id reqUser) then
              (reply 401 (Message "User not authorized"), db)
            else
              (* Remove tasks associated with the skill *)
              let db := setTasks db (deleteMany (fun t => task_skill t =? skillId) (tasks db)) in
              (* Remove skill from course's skills array *)
              let db := setCourses db
                          (updateOne (fun c => course_id c =? skill_course skill)
                                     (pullSkill skillId) (courses db)) in
              (* Delete the skill *)
              let db := setSkills db
                          (deleteOne (fun s => skill_id s =? skill_id skill) (skills db)) in
              (reply 200 (Message "Skill and associated tasks deleted successfully"), db)
        end
    end.

(** DELETE /skills/tasks/:taskId (the content files it unlinks live in
    the blob store, outside the store modelled here). *)
Definition deleteTask (db : DB) (reqUser : User) (taskId : ObjectId) : Response * DB :=
  coach reqUser db
    match findById task_id (tasks db) taskId with
    | None => (reply 404 (Message "Task not found"), db)
    | Some task =>
        match findById skill_id (skills db) (task_skill task) with
        | None =>
            (* If the skill doesn't exist, the task is orphaned, so just delete it *)
            (reply 200 (Message "Task deleted (skill not found)"),
             setTasks db (deleteOne (fun t => task_id t =? task_id task) (tasks db)))
        | Some skill =>
            match findById course_id (courses db) (skill_course skill) with
            | None => (reply 401 (Message "User not authorized"), db)
            | Some course =>
                if negb (course_coach course =? user_id reqUser) then
                  (reply 401 (Message "User not authorized"), db)
                else
                  (* Remove task from skill's tasks array *)
                  let db := setSkills db
                              (updateOne (fun s => skill_id s =? task_skill task)
                                         (pullTask taskId) (skills db)) in
                  (* Delete the task *)
                  let db := setTasks db
                              (deleteOne (fun t => task_id t =? task_id task) (tasks db)) in
                  (reply 200 (Message "Task deleted successfully"), db)
            end
        end
    end.

(* ===================================================================== *)
(** ** routes/courses.js *)
(* ===================================================================== *)

Definition pullCourse (courseId : ObjectId) (u : User) : User :=
  {| user_id := user_id u; user_name := user_name u; user_email := user_email u;
     user_role := user_role u;
     enrolledCourses := pull courseId (enrolledCourses u) |}.

(** DELETE /courses/:id *)
Definition deleteCourse (db : DB) (reqUser : User) (id : ObjectId) : Response * DB :=
  coach reqUser db
    match findById course_id (courses db) id with
    | None => (reply 404 (Message "Course not found"), db)
    | Some course =>
        if negb (course_coach course =? user_id reqUser) then
          (reply 401 (Message "Not authorized to delete this course"), db)
        else
          (* Remove course from all enrolled students *)
          let db := setUsers db
                      (updateMany (fun u => includes (course_id course) (enrolledCourses u))
                                  (pullCourse (course_id course)) (users db)) in
          (* Delete associated skills and their tasks *)
          let found := filter (fun s => skill_course s =? course_id course) (skills db) in
          let db := setTasks db
                      (fold_left (fun ts skill =>
                                    deleteMany (fun t => task_skill t =? skill_id skill) ts)
                                 found (tasks db)) in
          let db := setSkills db
                      (deleteMany (fun s => skill_course s =? course_id course) (skills db)) in
          (* Delete progress records for this course *)
          let db := setProgresses db
                      (deleteMany (fun p => progress_course p =? course_id course)
                                  (progresses db)) in
          (* Delete the course *)
          let db := setCourses db (deleteOne (fun c => course_id c =? id) (courses db)) in
          (reply 200 (Message "Course deleted successfully"), db)
    end.

(** [!rating || rating < 1 || rating > 5]; a body without a rating has
    [undefined] there. *)
Definition invalidRating (rating : option JS.Number) : bool :=
  match rating with
  | None => true
  | Some r => JS.falsy r || JS.ltb r (JS.of_Z 1) || JS.ltb (JS.of_Z 5) r
  end.

(** The four assignments of POST /courses/:id/rate-task to the entry. *)
Definition rate (rating : option JS.Number) (feedback : string) (at_ : Date)
    (tp : TaskProgress) : TaskProgress :=
  {| tp_task := tp_task tp; completed := completed tp; completedAt := completedAt tp;
     coachRating := rating; coachFeedback := feedback;
     coachRatedAt := Some at_;
     submittedForReview := false; submittedAt := submittedAt tp;
     studentUploads := studentUploads tp;
     reviewed := reviewed tp; approved := approved tp; reviewedAt := reviewedAt tp;
     reviewFeedback := reviewFeedback tp |}.

(** POST /courses/:id/rate-task *)
Definition rateTask (env : Env) (db : DB) (reqUser : User) (id : ObjectId)
    (studentId taskId : ObjectId) (rating : option JS.Number)
    (feedback : option string) : Response * DB :=
  coach reqUser db
    (if invalidRating rating then
       (reply 400 (Message "Rating must be between 1 and 5"), db)
     else
       match findById course_id (courses db) id with
       | None => (reply 404 (Message "Course not found"), db)
       | Some course =>
           if negb (course_coach course =? user_id reqUser) then
             (reply 401 (Message "Not authorized to rate tasks in this course"), db)
           else
             match findProgress db studentId id with
             | None => (reply 404 (Message "Student progress not found"), db)
             | Some progress =>
                 match findTaskProgress taskId (taskProgress progress) with
                 | None => (reply 404 (Message "Task progress not found"), db)
                 | Some (taskProgressIndex, tp) =>
                     (* feedback || '' *)
                     let text := match feedback with Some s => s | None => ""%string end in
                     let progress :=
                       setTaskProgress progress
                         (updateAt taskProgressIndex (rate rating text (now env))
                                   (taskProgress progress)) in
                     (* Recalculate average rating *)
                     let progress := setAverageRating progress (getAverageRating progress) in
                     (reply 200 (RateTaskBody "Task rated successfully"
                                   (rate rating text (now env) tp)),
                      setProgresses db (save progress_id false progress (progresses db)))
                 end
             end
       end).

(** GET /courses/:id/student/:studentId/progress *)
Definition getStudentProgress (db : DB) (reqUser : User)
    (id studentId : ObjectId) : Response * DB :=
  coach reqUser db
    match findById course_id (courses db) id with
    | None => (reply 404 (Message "Course not found"), db)
    | Some course =>
        if negb (course_coach course =? user_id reqUser) then
          (reply 401 (Message "Not authorized"), db)
        else
          match findProgress db studentId id with
          | None => (reply 404 (Message "Student progress not found"), db)
          | Some progress =>
              (reply 200
                 (StudentProgressBody
                    (findById user_id (users db) (progress_user progress))
                    (completedTasksCount progress)
                    (totalTasks progress)
                    (getCompletionPercentage progress)
                    (getAverageRating progress)
                    (lastActivity progress)
                    (taskProgress progress)
                    (skillsWithTasks db id)),
               db)
          end
    end.

(** The requests of the three routers that reach a Progress document. *)
Inductive Request :=
| CompleteTask (taskId courseId : ObjectId)
| GetProgress (courseId : ObjectId)
| SubmitTask (taskId courseId : ObjectId) (files : list File)
| GetSubmissions (courseId : ObjectId)
| MarkSeen (courseId : ObjectId)
| GetStudentTasks (courseId studentId : ObjectId)
| RateTask (id studentId taskId : ObjectId) (rating : option JS.Number)
    (feedback : option string)
| GetStudentProgress (id studentId : ObjectId)
| DeleteSkill (skillId : ObjectId)
| DeleteTask (taskId : ObjectId)
| DeleteCourse (id : ObjectId).

Definition handle (env : Env) (db : DB) (reqUser : User) (r : Request) : Response * DB :=
  match r with
  | CompleteTask taskId courseId => completeTask env db reqUser taskId courseId
  | GetProgress courseId => getProgress db reqUser courseId
  | SubmitTask taskId courseId files => submitTask env db reqUser taskId courseId files
  | GetSubmissions courseId => getSubmissions db reqUser courseId
  | MarkSeen courseId => markSeen db reqUser courseId
  | GetStudentTasks courseId studentId => getStudentTasks db reqUser courseId studentId
  | RateTask id studentId taskId rating feedback =>
      rateTask env db reqUser id studentId taskId rating feedback
  | GetStudentProgress id studentId => getStudentProgress db reqUser id studentId
  | DeleteSkill skillId => deleteSkill db reqUser skillId
  | DeleteTask taskId => deleteTask db reqUser taskId
  | DeleteCourse id => deleteCourse db reqUser id
  end.

(* ===================================================================== *)
(** ** routes/groups.js *)
(* ===================================================================== *)

(** An element of [group.invitations]. *)
Record Invitation := {
  inv_user : ObjectId;
  inv_status : string;
  invitedBy : ObjectId;
  invitedAt : Date
}.

(** groupSchema (the video list and the stamps [createdAt] and
    [updatedAt], which no handler reads, left out). *)
Record Group := {
  group_id : ObjectId;
  group_name : string;
  creator : ObjectId;
  members : list ObjectId;
  group_coach : option ObjectId;
  invitations : list Invitation
}.

(** What [group.save()] can throw, sent back as [err.message]. *)
Inductive SaveError := ValidationError | DuplicateKeyError.

Inductive GroupBody :=
| GroupMessage (message : string)
| GroupDocument (group : Group)
| GroupFailure (err : SaveError).

Record GroupResponse := {
  group_status : nat;
  group_body : GroupBody
}.

Definition groupReply (code : nat) (b : GroupBody) : GroupResponse :=
  {| group_status := code; group_body := b |}.

Definition groupErrorKind (r : GroupResponse) : option ErrorKind :=
  if group_status r =? 400 then Some Validation
  else if (group_status r =? 401) || (group_status r =? 403) then Some Unauthorized
  else if group_status r =? 404 then Some NotFound
  else if group_status r =? 500 then Some ServerFault
  else None.

Definition setMembers (g : Group) (l : list ObjectId) : Group :=
  {| group_id := group_id g; group_name := group_name g; creator := creator g;
     members := l; group_coach := group_coach g; invitations := invitations g |}.

Definition setCoach (g : Group) (c : option ObjectId) : Group :=
  {| group_id := group_id g; group_name := group_name g; creator := creator g;
     members := members g; group_coach := c; invitations := invitations g |}.

Definition setInvitations (g : Group) (l : list Invitation) : Group :=
  {| group_id := group_id g; group_name := group_name g; creator := creator g;
     members := members g; group_coach := group_coach g; invitations := l |}.

(** [group.coach && group.coach.toString() === id] *)
Definition isCoachOf (g : Group) (id : ObjectId) : bool :=
  match group_coach g with
  | Some c => c =? id
  | None => false
  end.

(** POST /groups/create; [name] is required and unique. *)
Definition createGroup (env : Env) (groups : list Group) (reqUser : User)
    (name : string) : GroupResponse * list Group :=
  let group := {| group_id := newId env; group_name := name;
                  creator := user_id reqUser; members := [user_id reqUser];
                  group_coach := None; invitations := [] |} in
  if String.eqb name "" then (groupReply 400 (GroupFailure ValidationError), groups)
  else if existsb (fun g => String.eqb (group_name g) name) groups then
    (groupReply 400 (GroupFailure DuplicateKeyError), groups)
  else (groupReply 201 (GroupDocument group), save group_id true group groups).

(** POST /groups/:groupId/invite *)
Definition invite (env : Env) (groups : list Group) (reqUser : User)
    (groupId userId : ObjectId) : GroupResponse * list Group :=
  match findById group_id groups groupId with
  | None => (groupReply 404 (GroupMessage "Group not found"), groups)
  | Some group =>
      if negb (includes (user_id reqUser) (members group)) then
        (groupReply 403 (GroupMessage "Only group members can invite"), groups)
      else
        let group := setInvitations group
                       (invitations group ++
                        [{| inv_user := userId; inv_status := "pending";
                            invitedBy := user_id reqUser; invitedAt := now env |}]) in
        (groupReply 200 (GroupMessage "Invitation sent"),
         save group_id false group groups)
  end.

(** [invitations.find(inv => inv.user.toString() === id)], by position. *)
Fixpoint findInvitation (userId : ObjectId) (l : list Invitation) : option nat :=
  match l with
  | [] => None
  | inv :: l' =>
      if inv_user inv =? userId then Some 0
      else match findInvitation userId l' with
           | Some i => Some (S i)
           | None => None
           end
  end.

Definition setStatus (newStatus : string) (inv : Invitation) : Invitation :=
  {| inv_user := inv_user inv; inv_status := newStatus;
     invitedBy := invitedBy inv; invitedAt := invitedAt inv |}.

(** POST /groups/:groupId/respond; the [status] of the body must be one
    of the enum values of the schema for [save] to accept it. *)
Definition respond (groups : list Group) (reqUser : User) (groupId : ObjectId)
    (newStatus : string) : GroupResponse * list Group :=
  match findById group_id groups groupId with
  | None => (groupReply 404 (GroupMessage "Group not found"), groups)
  | Some group =>
      match findInvitation (user_id reqUser) (invitations group) with
      | None => (groupReply 404 (GroupMessage "Invitation not found"), groups)
      | Some i =>
          let group := setInvitations group
                         (updateAt i (setStatus newStatus) (invitations group)) in
          let group := if String.eqb newStatus "accepted"
                       then setMembers group (members group ++ [user_id reqUser])
                       else group in
          if String.eqb newStatus "pending" || String.eqb newStatus "accepted"
             || String.eqb newStatus "declined"
          then (groupReply 200 (GroupMessage ("Invitation " ++ newStatus)),
                save group_id false group groups)
          else (groupReply 400 (GroupFailure ValidationError), groups)
      end
  end.

(** POST /groups/:groupId/assign-coach *)
Definition assignCoach (groups : list Group) (reqUser : User)
    (groupId coachId : ObjectId) : GroupResponse * list Group :=
  match findById group_id groups groupId with
  | None => (groupReply 404 (GroupMessage "Group not found"), groups)
  | Some group =>
      if negb (creator group =? user_id reqUser) then
        (groupReply 403 (GroupMessage "Only the group creator can assign a coach"), groups)
      else
        (groupReply 200 (GroupMessage "Coach assigned"),
         save group_id false (setCoach group (Some coachId)) groups)
  end.

(** POST /groups/:groupId/remove-member *)
Definition removeMember (groups : list Group) (reqUser : User)
    (groupId memberId : ObjectId) : GroupResponse * list Group :=
  match findById group_id groups groupId with
  | None => (groupReply 404 (GroupMessage "Group not found"), groups)
  | Some group =>
      if negb (creator group =? user_id reqUser) && negb (isCoachOf group (user_id reqUser))
      then
        (groupReply 403 (GroupMessage "Only the creator or coach can remove members"), groups)
      else
        let group := setMembers group
                       (filter (fun m => negb (m =? memberId)) (members group)) in
        (groupReply 200 (GroupMessage "Member removed"),
         save group_id false group groups)
  end.

(** POST /groups/:groupId/leave *)
Definition leave (groups : list Group) (reqUser : User)
    (groupId : ObjectId) : GroupResponse * list Group :=
  match findById group_id groups groupId with
  | None => (groupReply 404 (GroupMessage "Group not found"), groups)
  | Some group =>
      if creator group =? user_id reqUser then
        (groupReply 403 (GroupMessage "Creator cannot leave the group"), groups)
      else
        let group := setMembers group
                       (filter (fun m => negb (m =? user_id reqUser)) (members group)) in
        (groupReply 200 (GroupMessage "Left group"),
         save group_id false group groups)
  end.

(** POST /groups/:groupId/remove-coach *)
Definition removeCoach (groups : list Group) (reqUser : User)
    (groupId : ObjectId) : GroupResponse * list Group :=
  match findById group_id groups groupId with
  | None => (groupReply 404 (GroupMessage "Group not found"), groups)
  | Some group =>
      if negb (creator group =? user_id reqUser) then
        (groupReply 403 (GroupMessage "Only the creator can remove the coach"), groups)
      else
        (groupReply 200 (GroupMessage "Coach removed"),
         save group_id false (setCoach group None) groups)
  end.

(** DELETE /groups/:groupId *)
Definition deleteGroup (groups : list Group) (reqUser : User)
    (groupId : ObjectId) : GroupResponse * list Group :=
  match findById group_id groups groupId with
  | None => (groupReply 404 (GroupMessage "Group not found"), groups)
  | Some group =>
      if negb (creator group =? user_id reqUser) then
        (groupReply 403 (GroupMessage "Only the creator can delete the group"), groups)
      else
        (groupReply 200 (GroupMessage "Group deleted"),
         deleteOne (fun g => group_id g =? group_id group) groups)
  end.

(** POST /groups/:groupId/join *)
Definition join (groups : list Group) (reqUser : User)
    (groupId : ObjectId) : GroupResponse * list Group :=
  match findById group_id groups groupId with
  | None => (groupReply 404 (GroupMessage "Group not found"), groups)
  | Some group =>
      if includes (user_id reqUser) (members group)
         || isCoachOf group (user_id reqUser)
         || (creator group =? user_id reqUser)
      then (groupReply 400 (GroupMessage "Already a member/coach/creator"), groups)
      else
        (groupReply 200 (GroupMessage "Joined group"),
         save group_id false (setMembers group (members group ++ [user_id reqUser])) groups)
  end.

(** The membership requests of the groups router. *)
Inductive GroupRequest :=
| Create (name : string)
| Invite (groupId userId : ObjectId)
| Respond (groupId : ObjectId) (newStatus : string)
| AssignCoach (groupId coachId : ObjectId)
| RemoveMember (groupId memberId : ObjectId)
| Leave (groupId : ObjectId)
| RemoveCoach (groupId : ObjectId)
| DeleteGroup (groupId : ObjectId)
| Join (groupId : ObjectId).

Definition handleGroup (env : Env) (groups : list Group) (reqUser : User)
    (r : GroupRequest) : GroupResponse * list Group :=
  match r with
  | Create name => createGroup env groups reqUser name
  | Invite groupId userId => invite env groups reqUser groupId userId
  | Respond groupId newStatus => respond groups reqUser groupId newStatus
  | AssignCoach groupId coachId => assignCoach groups reqUser groupId coachId
  | RemoveMember groupId memberId => removeMember groups reqUser groupId memberId
  | Leave groupId => leave groups reqUser groupId
  | RemoveCoach groupId => removeCoach groups reqUser groupId
  | DeleteGroup groupId => deleteGroup groups reqUser groupId
  | Join groupId => join groups reqUser groupId
  end.

(** A session: the requests served one after the other, each with its
    caller and its environment. *)
Fixpoint serveGroups (groups : list Group)
    (session : list (Env * User * GroupRequest)) : list Group :=
  match session with
  | [] => groups
  | (env, reqUser, r) :: rest =>
      serveGroups (snd (handleGroup env groups reqUser r)) rest
  end.

Fixpoint serve (db : DB) (session : list (Env * User * Request)) : DB :=
  match session with
  | [] => db
  | (env, reqUser, r) :: rest => serve (snd (handle env db reqUser r)) rest
  end.

(* ===================================================================== *)
(** ** Vocabulary of the properties *)
(* ===================================================================== *)

(** [Math.round] of the exact quotient [num / den], for [0 < den]: the
    nearest integer, a tie going up. *)
Definition roundHalfUp (num den : Z) : Z := ((2 * num + den) / (2 * den))%Z.

(** The ratings the rated entries of a record carry, in order. *)
Definition ratedValues (p : Progress) : list JS.Number :=
  map ratingOperand (filter isRated (taskProgress p)).

Definition sumZ (l : list Z) : Z := fold_right Z.add 0%Z l.

(** A record with the given derived counts and nothing else. *)
Definition progressWithCounts (done total : nat) : Progress :=
  {| progress_id := 0; progress_user := 0; progress_course := 0;
     completedTasks := []; taskProgress := [];
     totalTasks := total; completedTasksCount := done;
     averageRating := JS.of_Z 0; lastActivity := 0 |}.

(** An entry a coach has rated with a whole number of stars. *)
Definition ratedEntry (taskId : ObjectId) (stars : Z) : TaskProgress :=
  rate (Some (JS.of_Z stars)) "" 0 (castTaskProgress taskId []).

(** A record with the given entries and nothing else. *)
Definition progressWithEntries (l : list TaskProgress) : Progress :=
  setTaskProgress (progressWithCounts 0 0) l.

(** The averaging arithmetic of [getAverageRating] on [n] whole ratings
    of sum [s]: the rounded tenths are [roundHalfUp]. *)
Definition tenthsExact (s n : nat) : bool :=
  JS.same (JS.Math_round
             (JS.mul (JS.div (JS.of_nat s) (JS.of_nat n)) (JS.of_Z 10)))
          (JS.of_Z (roundHalfUp (10 * Z.of_nat s) (Z.of_nat n))).

(** The largest number of rated entries the exhaustive check of the
    ties of the averaging arithmetic covers. *)
Definition maxRated : nat := 100.

(** The largest length of a JavaScript array, 2^32 - 1: the derived
    counts and the number of rated entries are array lengths. *)
Definition maxArrayLength : Z := 4294967295%Z.

(** The shift record [mrs] of the rounding functions locates the rational
    [N / G]: its mantissa is the integer part, its round and sticky bits
    tell where the fraction lies with respect to one half. *)
Definition located (mrs : shr_record) (N G : Z) : Prop :=
  (0 < G /\ 0 <= shr_m mrs /\
   0 <= N - shr_m mrs * G < G /\
   shr_r mrs = (G <=? 2 * (N - shr_m mrs * G)) /\
   shr_s mrs = negb (N - shr_m mrs * G =? 0) && negb (2 * (N - shr_m mrs * G) =? G))%Z.

(** The counts a response reports: [completedTasksCount] and
    [totalTasks] (named [completedTasks] and [totalTasks] in the coach's
    report). *)
Definition reportedCounts (r : Response) : option (nat * nat) :=
  match body r with
  | CompleteTaskBody progress _ => Some (completedTasksCount progress, totalTasks progress)
  | ProgressBody progress _ => Some (completedTasksCount progress, totalTasks progress)
  | EmptyProgressBody _ count total => Some (count, total)
  | SubmitTaskBody _ progress => Some (completedTasksCount progress, totalTasks progress)
  | StudentTasksBody _ _ count total => Some (count, total)
  | StudentProgressBody _ count total _ _ _ _ _ => Some (count, total)
  | _ => None
  end.

(** A small store: coach 10 owns course 1, whose skill 2 holds task 3;
    student 20 is enrolled; the badge of five completed tasks exists. *)
Definition coach10 : User :=
  {| user_id := 10; user_name := "Carla"; user_email := "carla@example.org";
     user_role := RoleCoach; enrolledCourses := [] |}.

Definition student20 : User :=
  {| user_id := 20; user_name := "Sam"; user_email := "sam@example.org";
     user_role := RoleStudent; enrolledCourses := [1] |}.

Definition task3 : Task :=
  {| task_id := 3; task_title := "Warm-up"; contentUrls := ["uploads/warmup.pdf"%string];
     task_skill := 2; deadline := None |}.

Definition skill2 : Skill :=
  {| skill_id := 2; skill_title := "Serve"; skill_course := 1; skill_tasks := [3] |}.

Definition course1 : Course :=
  {| course_id := 1; course_name := "Table tennis"; course_coach := 10;
     course_students := [20]; course_skills := [2] |}.

Definition badge5 : Badge :=
  {| badge_id := 50; badge_title := "Five done"; criteria := "Complete 5 tasks" |}.

Definition profile20 : Student :=
  {| student_id := 21; student_name := "Sam"; student_badges := [] |}.

Definition store0 : DB :=
  {| users := [coach10; student20]; students := [profile20]; badges := [badge5];
     courses := [course1]; skills := [skill2]; tasks := [task3];
     progresses := [] |}.

Definition env0 : Env := {| now := 1000; newId := 100 |}.

Definition homework : File :=
  {| filename := "1-homework.pdf"; originalname := "homework.pdf" |}.

(** The store after student 20 has completed task 3 and submitted a file
    for it: their record lists the task in [completedTasks] and has a
    [taskProgress] entry for it. *)
Definition store1 : DB :=
  serve store0
    [(env0, student20, CompleteTask 3 1);
     (env0, student20, SubmitTask 3 1 [homework])].

(** A Progress record refers to a task when it lists it as completed or
    holds a [taskProgress] entry for it. *)
Definition refersTo (p : Progress) (taskId : ObjectId) : Prop :=
  In taskId (completedTasks p) \/ exists tp, In tp (taskProgress p) /\ tp_task tp = taskId.

(** A rating lies in the interval [1, 5]; a missing rating does not. *)
Definition inRange (rating : option JS.Number) : bool :=
  match rating with
  | Some r => JS.leb (JS.of_Z 1) r && JS.leb r (JS.of_Z 5)
  | None => false
  end.

(** A Number of the runtime is a double in canonical form. *)
Definition isDouble (x : JS.Number) : bool := valid_binary JS.prec JS.emax x.

(** A rating the handler lets through and the schema accepts: a double in
    [1, 5]. *)
Definition validRating (r : JS.Number) : Prop :=
  isDouble r = true /\ inRange (Some r) = true.

(** The value of a positive double, times 2^52: a whole number for every
    double from 1 upwards. *)
Definition exact52 (x : JS.Number) : Z :=
  match x with
  | S754_finite false m e => (Z.pos m * 2 ^ (e + 52))%Z
  | _ => 0%Z
  end.

(** The sum of the values of a list of doubles, times 2^52. *)
Definition sum52 (rs : list JS.Number) : Z := sumZ (map exact52 rs).

(** A bound on the entries of a record, 2^20: a MongoDB document holds at
    most 16 MiB and an entry of [taskProgress] takes more than 16 bytes
    (its [_id] and its [task] are 12 bytes each). *)
Definition maxEntries : Z := 1048576%Z.

(** The double nearest to [k / 10], as the literal of a rating with one
    decimal denotes it. *)
Definition tenth (k : Z) : JS.Number := JS.div (JS.of_Z k) (JS.of_Z 10).

(** An entry a coach has rated with the given Number. *)
Definition ratedWith (taskId : ObjectId) (r : JS.Number) : TaskProgress :=
  rate (Some r) "" 0 (castTaskProgress taskId []).

(** Four rated entries: 2.1, 1, 1 and 2.1 stars. *)
Definition fourRatings : Progress :=
  progressWithEntries
    [ratedWith 1 (tenth 21); ratedWith 2 (tenth 10); ratedWith 3 (tenth 10);
     ratedWith 4 (tenth 21)].

(** [feedback || ''] *)
Definition feedbackText (feedback : option string) : string :=
  match feedback with Some s => s | None => ""%string end.

(** The store after student 20 has submitted a file for task 3 twice:
    the second submission found the entry of the first. *)
Definition store2 : DB :=
  serve store0
    [(env0, student20, SubmitTask 3 1 [homework]);
     (env0, student20, SubmitTask 3 1 [homework])].

(** The store after student 20 has completed five tasks of course 1
    (only task 3 is in the catalog; the handler does not look the task
    up). *)
Definition store5 : DB :=
  serve store0
    [(env0, student20, CompleteTask 3 1);
     (env0, student20, CompleteTask 4 1);
     (env0, student20, CompleteTask 5 1);
     (env0, student20, CompleteTask 6 1);
     (env0, student20, CompleteTask 7 1)].

(** Three accounts and a group: user 1 creates it, user 2 joins, and the
    creator makes user 3 its coach. *)
Definition ana : User :=
  {| user_id := 1; user_name := "Ana"; user_email := "ana@example.org";
     user_role := RoleStudent; enrolledCourses := [] |}.

Definition ben : User :=
  {| user_id := 2; user_name := "Ben"; user_email := "ben@example.org";
     user_role := RoleStudent; enrolledCourses := [] |}.

Definition cleo : User :=
  {| user_id := 3; user_name := "Cleo"; user_email := "cleo@example.org";
     user_role := RoleCoach; enrolledCourses := [] |}.

Definition team : list Group :=
  serveGroups []
    [(env0, ana, Create "Team");
     (env0, ben, Join 100);
     (env0, ana, AssignCoach 100 3)].

(** The store after student 20 has completed task 3, ready for the
    deletion of course 1. *)
Definition store3 : DB :=
  serve store0 [(env0, student20, CompleteTask 3 1)].

(** The requests whose handlers construct a Progress document. *)
Definition createsLazily (r : Request) : bool :=
  match r with
  | CompleteTask _ _ | SubmitTask _ _ _ => true
  | _ => false
  end.

(** A record of the new store continues a record of the old one: same
    document, same user, same course. *)
Definition continues (old : list Progress) (p : Progress) : Prop :=
  exists p0, In p0 old /\ progress_id p0 = progress_id p /\
             progress_user p0 = progress_user p /\
             progress_course p0 = progress_course p.

(* ===================================================================== *)
(** ** Express routing *)
(* ===================================================================== *)

Module Express.

Inductive Method := GET | POST | PUT | PATCH | DELETE.

Definition sameMethod (a b : Method) : bool :=
  match a, b with
  | GET, GET | POST, POST | PUT, PUT | PATCH, PATCH | DELETE, DELETE => true
  | _, _ => false
  end.

(** A segment of a route path: literal text or a named parameter. *)
Inductive Segment :=
| Lit (text : string)
| Param (name : string).

(** Route paths are matched without regard to the case of ASCII letters
    (the [caseSensitive] option of the router is off by default). *)
Definition lowerAscii (c : Ascii.ascii) : Ascii.ascii :=
  let n := Ascii.nat_of_ascii c in
  if (65 <=? n) && (n <=? 90) then Ascii.ascii_of_nat (n + 32) else c.

Fixpoint lower (s : string) : string :=
  match s with
  | EmptyString => EmptyString
  | String c s' => String (lowerAscii c) (lower s')
  end.

(** The match of a request path, given by its segments, against a route
    path, with the parameters it captures; a parameter takes one whole
    non-empty segment. *)
Fixpoint matchPath (pattern : list Segment) (path : list string)
    : option (list (string * string)) :=
  match pattern, path with
  | [], [] => Some []
  | Lit text :: pattern', seg :: path' =>
      if String.eqb (lower text) (lower seg) then matchPath pattern' path' else None
  | Param name :: pattern', seg :: path' =>
      if String.eqb seg "" then None
      else match matchPath pattern' path' with
           | Some params => Some ((name, seg) :: params)
           | None => None
           end
  | _, _ => None
  end.

(** [router.METHOD(path, ...handlers)]: the routes of a router in the
    order of their declaration, each with the handler it ends in. *)
Definition Router (H : Type) : Type := list (Method * list Segment * H).

(** The route that answers a request: the first one declared whose
    method and path match (no handler of these routers passes the
    request on with [next()]). *)
Fixpoint dispatch (H : Type) (router : Router H) (m : Method) (path : list string)
    : option (H * list (string * string)) :=
  match router with
  | [] => None
  | (m', pattern, h) :: router' =>
      if sameMethod m' m then
        match matchPath pattern path with
        | Some params => Some (h, params)
        | None => dispatch router' m path
        end
      else dispatch router' m path
  end.

End Express.
Import Express.

(** The handlers of routes/groups.js. *)
Inductive GroupRoute :=
| RouteCreate | RouteInvite | RouteRespond | RouteSearchUsers | RouteAssignCoach
| RouteUploadVideo | RouteAll | RouteDetails | RouteMy | RouteInvitations
| RouteRemoveMember | RouteLeave | RouteRemoveCoach | RouteDeleteGroup | RouteJoin
| RouteDeleteVideo.

(** The routes of routes/groups.js, as declared. *)
Definition groupsRouter : Router GroupRoute :=
  [ (POST, [Lit "create"], RouteCreate);
    (POST, [Param "groupId"; Lit "invite"], RouteInvite);
    (POST, [Param "groupId"; Lit "respond"], RouteRespond);
    (GET, [Lit "search-users"], RouteSearchUsers);
    (POST, [Param "groupId"; Lit "assign-coach"], RouteAssignCoach);
    (POST, [Param "groupId"; Lit "upload-video"], RouteUploadVideo);
    (GET, [Lit "all"], RouteAll);
    (GET, [Param "groupId"], RouteDetails);
    (GET, [Lit "my"], RouteMy);
    (GET, [Lit "invitations"], RouteInvitations);
    (POST, [Param "groupId"; Lit "remove-member"], RouteRemoveMember);
    (POST, [Param "groupId"; Lit "leave"], RouteLeave);
    (POST, [Param "groupId"; Lit "remove-coach"], RouteRemoveCoach);
    (DELETE, [Param "groupId"], RouteDeleteGroup);
    (POST, [Param "groupId"; Lit "join"], RouteJoin);
    (DELETE, [Param "groupId"; Lit "video"; Param "videoId"], RouteDeleteVideo) ].

(* ===================================================================== *)
(** ** routes/courses.js: enrolment *)
(* ===================================================================== *)

Definition setCourseStudents (c : Course) (l : list ObjectId) : Course :=
  {| course_id := course_id c; course_name := course_name c;
     course_coach := course_coach c; course_students := l;
     course_skills := course_skills c |}.

Definition setEnrolledCourses (u : User) (l : list ObjectId) : User :=
  {| user_id := user_id u; user_name := user_name u; user_email := user_email u;
     user_role := user_role u; enrolledCourses := l |}.

(** POST /courses/:id/enroll *)
Definition enroll (db : DB) (reqUser : User) (id : ObjectId) : Response * DB :=
  match findById course_id (courses db) id,
        findById user_id (users db) (user_id reqUser) with
  | Some course, Some user =>
      (* Prevent coach from enrolling as a student in their own course *)
      if course_coach course =? user_id user then
        (reply 400 (Message "Coach cannot enroll as a student in their own course"), db)
      (* Check if user is already enrolled *)
      else if includes (course_id course) (enrolledCourses user) then
        (reply 400 (Message "Already enrolled in this course"), db)
      else
        (* Add student to course's student list *)
        let db :=
          if negb (includes (user_id user) (course_students course)) then
            setCourses db
              (save course_id false
                    (setCourseStudents course (course_students course ++ [user_id user]))
                    (courses db))
          else db in
        (* Add course to student's enrolled list *)
        let db :=
          setUsers db
            (save user_id false
                  (setEnrolledCourses user (enrolledCourses user ++ [course_id course]))
                  (users db)) in
        (reply 200 (Message "Enrolled successfully"), db)
  | _, _ => (reply 404 (Message "Course or User not found"), db)
  end.

(** POST /courses/:id/unenroll *)
Definition unenroll (db : DB) (reqUser : User) (id : ObjectId) : Response * DB :=
  match findById course_id (courses db) id,
        findById user_id (users db) (user_id reqUser) with
  | Some course, Some user =>
      (* Remove student from course's student list *)
      let db :=
        setCourses db
          (save course_id false
                (setCourseStudents course
                   (filter (fun studentId => negb (studentId =? user_id user))
                           (course_students course)))
                (courses db)) in
      (* Remove course from student's enrolled list *)
      let db :=
        setUsers db
          (save user_id false
                (setEnrolledCourses user
                   (filter (fun courseId => negb (courseId =? course_id course))
                           (enrolledCourses user)))
                (users db)) in
      (reply 200 (Message "Unenrolled successfully"), db)
  | _, _ => (reply 404 (Message "Course or User not found"), db)
  end.

(** What GET /courses/:id sends: an error, or the course with its skills
    and their tasks populated. *)
Inductive CourseView :=
| CourseError (code : nat) (message : string)
| CourseDocument (course : Course) (catalog : list (Skill * list Task)).

(** GET /courses/:id; reading [user.enrolledCourses] of a caller who has
    no User document throws, which the handler turns into status 500. *)
Definition getCourse (db : DB) (reqUser : User) (id : ObjectId) : CourseView :=
  match findById course_id (courses db) id with
  | None => CourseError 404 "Course not found"
  | Some course =>
      match findById user_id (users db) (user_id reqUser) with
      | None => CourseError 500 "Server Error"
      | Some user =>
          let isEnrolled := includes (course_id course) (enrolledCourses user) in
          let isCoach := course_coach course =? user_id reqUser in
          if negb isEnrolled && negb isCoach then
            CourseError 403 "You must be enrolled in this course to view it"
          else
            CourseDocument course
              (map (fun skill => (skill, populate task_id (tasks db) (skill_tasks skill)))
                   (populate skill_id (skills db) (course_skills course)))
      end
  end.

(** The two sides of an enrolment are in step: a user is among the
    students of a course exactly when the course is among the enrolled
    courses of the user. *)
Definition inStep (db : DB) : Prop :=
  forall (courseId userId : ObjectId) (course : Course) (user : User),
    findById course_id (courses db) courseId = Some course ->
    findById user_id (users db) userId = Some user ->
    includes userId (course_students course) = includes courseId (enrolledCourses user).

(** A course without students, and a store that holds it. *)
Definition course7 : Course :=
  {| course_id := 7; course_name := "Footwork"; course_coach := 10;
     course_students := []; course_skills := [] |}.

Definition store7 : DB :=
  {| users := [coach10; student20]; students := [profile20]; badges := [badge5];
     courses := [course1; course7]; skills := [skill2]; tasks := [task3];
     progresses := [] |}.

(* ===================================================================== *)
(** ** routes/students.js *)
(* ===================================================================== *)

(** What GET /students/:id/badges sends. *)
Inductive BadgesView :=
| BadgesError (code : nat) (message : string)
| BadgeList (earned : list Badge).

(** GET /students/:id/badges *)
Definition getStudentBadges (db : DB) (id : ObjectId) : BadgesView :=
  match findById student_id (students db) id with
  | None => BadgesError 404 "Student not found"
  | Some student => BadgeList (populate badge_id (badges db) (student_badges student))
  end.

(** The store after student 20 has completed four tasks: the next
    completion earns the badge. *)
Definition store4 : DB :=
  serve store0
    [(env0, student20, CompleteTask 3 1);
     (env0, student20, CompleteTask 4 1);
     (env0, student20, CompleteTask 5 1);
     (env0, student20, CompleteTask 6 1)].

(* ===================================================================== *)
(** ** scripts: syncCompletedTasksToTaskProgress *)
(* ===================================================================== *)

(** The subdocument the taskProgress array makes of
    [{ task: taskId, completed: true, completedAt: new Date(),
       studentUploads: [] }]. *)
Definition completedEntry (at_ : Date) (taskId : ObjectId) : TaskProgress :=
  {| tp_task := taskId; completed := true; completedAt := Some at_;
     coachRating := None; coachFeedback := ""; coachRatedAt := None;
     submittedForReview := false; submittedAt := None;
     studentUploads := [];
     reviewed := false; approved := None; reviewedAt := None;
     reviewFeedback := "" |}.

(** [tp.completed = true; tp.completedAt = new Date()] *)
Definition markCompleted (at_ : Date) (tp : TaskProgress) : TaskProgress :=
  {| tp_task := tp_task tp; completed := true; completedAt := Some at_;
     coachRating := coachRating tp; coachFeedback := coachFeedback tp;
     coachRatedAt := coachRatedAt tp;
     submittedForReview := submittedForReview tp; submittedAt := submittedAt tp;
     studentUploads := studentUploads tp;
     reviewed := reviewed tp; approved := approved tp; reviewedAt := reviewedAt tp;
     reviewFeedback := reviewFeedback tp |}.

(** The body of [for (const taskId of progress.completedTasks)], on the
    document and the flag [changed]. *)
Definition syncTask (env : Env) (st : Progress * bool) (taskId : ObjectId) : Progress * bool :=
  let '(progress, changed) := st in
  (* Check if taskProgress already has an entry for this task *)
  match findTaskProgress taskId (taskProgress progress) with
  | None =>
      (setTaskProgress progress
         (taskProgress progress ++ [completedEntry (now env) taskId]),
       true)
  | Some (i, tp) =>
      if negb (completed tp) then
        (setTaskProgress progress
           (updateAt i (markCompleted (now env)) (taskProgress progress)),
         true)
      else (progress, changed)
  end.

(** The body of [for (const progress of progresses)], on the collection
    and [updatedCount]. *)
Definition syncProgress (env : Env) (st : list Progress * nat) (progress : Progress)
    : list Progress * nat :=
  let '(stored, updatedCount) := st in
  let '(progress, changed) :=
    fold_left (syncTask env) (completedTasks progress) (progress, false) in
  if changed then (save progress_id false progress stored, S updatedCount)
  else (stored, updatedCount).

(** syncCompletedTasksToTaskProgress: the store it leaves and the number
    of documents it reports as updated. *)
Definition syncCompletedTasksToTaskProgress (env : Env) (db : DB) : DB * nat :=
  let '(stored, updatedCount) :=
    fold_left (syncProgress env) (progresses db) (progresses db, 0) in
  (setProgresses db stored, updatedCount).

(** The first entry of the task is marked completed. *)
Definition entryCompleted (l : list TaskProgress) (taskId : ObjectId) : Prop :=
  exists i tp, findTaskProgress taskId l = Some (i, tp) /\ completed tp = true.

(** A record whose completed task has no entry and whose entry of
    another task is not marked. *)
Definition unsynced : Progress :=
  {| progress_id := 60; progress_user := 20; progress_course := 1;
     completedTasks := [3; 4]; taskProgress := [castTaskProgress 4 []];
     totalTasks := 2; completedTasksCount := 2;
     averageRating := JS.of_Z 0; lastActivity := 0 |}.

Definition store6 : DB := setProgresses store0 [unsynced].

(* ===================================================================== *)
(** ** scripts: syncReferences *)
(* ===================================================================== *)

Definition setSkillTasks (s : Skill) (l : list ObjectId) : Skill :=
  {| skill_id := skill_id s; skill_title := skill_title s;
     skill_course := skill_course s; skill_tasks := l |}.

Definition setCourseSkills (c : Course) (l : list ObjectId) : Course :=
  {| course_id := course_id c; course_name := course_name c;
     course_coach := course_coach c; course_students := course_students c;
     course_skills := l |}.

(** The body of [for (const skill of skills)]. *)
Definition syncSkill (db : DB) (skill : Skill) : DB :=
  (* Sync tasks *)
  let found := filter (fun task => task_skill task =? skill_id skill) (tasks db) in
  setSkills db
    (save skill_id false (setSkillTasks skill (map task_id found)) (skills db)).

(** The body of [for (const course of courses)]. *)
Definition syncCourse (db : DB) (course : Course) : DB :=
  (* Sync skills *)
  let found := filter (fun skill => skill_course skill =? course_id course) (skills db) in
  let db :=
    setCourses db
      (save course_id false (setCourseSkills course (map skill_id found)) (courses db)) in
  fold_left syncSkill found db.

(** syncReferences: the store it leaves. *)
Definition syncReferences (db : DB) : DB :=
  fold_left syncCourse (courses db) db.

(** The references the script rebuilds: the skills of a course and the
    tasks of a skill, read from [skill.course] and [task.skill]. *)
Definition skillsOf (db : DB) (course : Course) : list ObjectId :=
  map skill_id (filter (fun skill => skill_course skill =? course_id course) (skills db)).

Definition tasksOf (db : DB) (skill : Skill) : list ObjectId :=
  map task_id (filter (fun task => task_skill task =? skill_id skill) (tasks db)).

(** The skill belongs to a course of the store. *)
Definition hasCourse (l : list Course) (skill : Skill) : bool :=
  existsb (fun course => skill_course skill =? course_id course) l.

(** The store when the outer loop has done the courses [done] and has
    the courses [todo] before it. *)
Definition syncedSoFar (db : DB) (done todo : list Course) : DB :=
  setSkills
    (setCourses db
       (map (fun course => setCourseSkills course (skillsOf db course)) done ++ todo))
    (map (fun skill => if hasCourse done skill
                       then setSkillTasks skill (tasksOf db skill) else skill)
         (skills db)).

(** A store whose references went stale: the course lists no skill and
    the skill a task that is gone. *)
Definition store8 : DB :=
  {| users := [coach10; student20]; students := [profile20]; badges := [badge5];
     courses := [setCourseSkills course1 []];
     skills := [setSkillTasks skill2 [9]]; tasks := [task3];
     progresses := [] |}.

(* ===================================================================== *)
(** ** Vocabulary of the further properties *)
(* ===================================================================== *)

(** Two documents agree on the paths the routes manage.  Mongoose also
    keeps a stamp [updatedAt] on every document and moves it at each save
    of a modified document; the records do not carry it, and it is not
    compared. *)
Definition sameGroup (g g' : Group) : Prop :=
  group_id g' = group_id g /\ group_name g' = group_name g /\
  creator g' = creator g /\ members g' = members g /\
  group_coach g' = group_coach g /\ invitations g' = invitations g.

Definition sameUser (u u' : User) : Prop :=
  user_id u' = user_id u /\ user_name u' = user_name u /\
  user_email u' = user_email u /\ user_role u' = user_role u /\
  enrolledCourses u' = enrolledCourses u.

Definition sameCourse (c c' : Course) : Prop :=
  course_id c' = course_id c /\ course_name c' = course_name c /\
  course_coach c' = course_coach c /\ course_students c' = course_students c /\
  course_skills c' = course_skills c.

(** The caller answers "accepted" [n] times in a row. *)
Fixpoint acceptRepeatedly (n : nat) (groups : list Group) (reqUser : User)
    (groupId : ObjectId) : list Group :=
  match n with
  | 0 => groups
  | S k => acceptRepeatedly k (snd (respond groups reqUser groupId "accepted")) reqUser groupId
  end.

(** What identifies a group and its owner. *)
Definition groupKey (g : Group) : ObjectId * string * ObjectId :=
  (group_id g, group_name g, creator g).

(** A user outside the sample group. *)
Definition dana : User :=
  {| user_id := 4; user_name := "Dana"; user_email := "dana@example.org";
     user_role := RoleStudent; enrolledCourses := [] |}.

(** A write to an entry that keeps its task, its completion, its rating
    and its review fields; the uploads and the submission fields may
    change. *)
Definition keepsReview (f : TaskProgress -> TaskProgress) : Prop :=
  forall tp,
    tp_task (f tp) = tp_task tp /\ completed (f tp) = completed tp /\
    coachRating (f tp) = coachRating tp /\
    reviewed (f tp) = reviewed tp /\ approved (f tp) = approved tp /\
    reviewedAt (f tp) = reviewedAt tp /\ reviewFeedback (f tp) = reviewFeedback tp.

(** How the handlers derive the Progress document they save from the
    document [p0] they loaded or constructed: complete-task and the
    progress read set the counts, the former after pushing a task that is
    not listed yet; submit-task pushes a fresh entry or writes the
    uploads of an entry; rate-task rates an entry and recomputes the
    average. *)
Inductive Saved (env : Env) (p0 : Progress) : Progress -> Prop :=
| SavedCounts (l : list ObjectId) (done total : nat) :
    l = completedTasks p0 \/
    (exists taskId, ~ In taskId (completedTasks p0) /\ l = completedTasks p0 ++ [taskId]) ->
    Saved env p0 (setCounts (setCompletedTasks p0 l) done total)
| SavedEntry (taskId : ObjectId) :
    Saved env p0 (setTaskProgress p0 (taskProgress p0 ++ [castTaskProgress taskId []]))
| SavedUploads (i : nat) (f : TaskProgress -> TaskProgress) :
    keepsReview f ->
    Saved env p0 (setTaskProgress p0 (updateAt i f (taskProgress p0)))
| SavedRating (i : nat) (rating : option JS.Number) (text : string) :
    Saved env p0
      (setAverageRating
         (setTaskProgress p0 (updateAt i (rate rating text (now env)) (taskProgress p0)))
         (getAverageRating
            (setTaskProgress p0
               (updateAt i (rate rating text (now env)) (taskProgress p0))))).

(** The review fields of an entry have the defaults of the schema. *)
Definition unreviewed (tp : TaskProgress) : Prop :=
  reviewed tp = false /\ approved tp = None /\ reviewedAt tp = None /\
  reviewFeedback tp = ""%string.

(* ===================================================================== *)
(** * Properties *)
(* ===================================================================== *)

(** Case analysis along the branches of a handler. *)
Ltac branches :=
  repeat match goal with
         | |- context [match ?x with _ => _ end] => destruct x
         end.

(** ** JavaScript numbers *)

Lemma same_eq (x y : JS.Number) : JS.same x y = true -> x = y.
Proof.
  destruct x as [a|a| |a m e], y as [b|b| |b n f]; simpl; try discriminate;
    try reflexivity.
  - intro H. apply Bool.eqb_prop in H. now subst.
  - intro H. apply Bool.eqb_prop in H. now subst.
  - intro H. apply andb_prop in H as [H He]. apply andb_prop in H as [Hs Hm].
    apply Bool.eqb_prop in Hs. apply Pos.eqb_eq in Hm. apply Z.eqb_eq in He.
    now subst.
Qed.

(** ** Double-precision arithmetic on whole numbers *)

Section Binary64.

Local Open Scope Z_scope.

(** [digits2_pos p] is the number of binary digits of [p]. *)
Lemma digits2_pos_bounds (p : positive) :
  2 ^ (Z.pos (digits2_pos p) - 1) <= Z.pos p < 2 ^ Z.pos (digits2_pos p).
Proof.
  induction p as [p IH|p IH|]; cbn [digits2_pos].
  - rewrite Pos2Z.inj_succ.
    replace (Z.succ (Z.pos (digits2_pos p)) - 1)
      with (Z.succ (Z.pos (digits2_pos p) - 1)) by lia.
    rewrite !Z.pow_succ_r by lia. lia.
  - rewrite Pos2Z.inj_succ.
    replace (Z.succ (Z.pos (digits2_pos p)) - 1)
      with (Z.succ (Z.pos (digits2_pos p) - 1)) by lia.
    rewrite !Z.pow_succ_r by lia. lia.
  - simpl. lia.
Qed.

Lemma digits2_pos_log2 (p : positive) :
  Z.pos (digits2_pos p) = Z.log2 (Z.pos p) + 1.
Proof.
  pose proof (digits2_pos_bounds p) as H.
  symmetry. apply Z.add_move_r. apply Z.log2_unique; [lia|].
  replace (Z.succ (Z.pos (digits2_pos p) - 1)) with (Z.pos (digits2_pos p)) by lia. exact H.
Qed.

Lemma digits_unique (p : positive) (d : Z) :
  2 ^ (d - 1) <= Z.pos p < 2 ^ d -> 0 < d -> Z.pos (digits2_pos p) = d.
Proof.
  intros H Hd. rewrite digits2_pos_log2.
  rewrite (Z.log2_unique (Z.pos p) (d - 1)); [lia|lia|].
  now replace (Z.succ (d - 1)) with d by lia.
Qed.

(** Shifting a mantissa to the left multiplies it by a power of two. *)
Lemma pos_iter_xO (p k : positive) :
  Z.pos (Pos.iter xO p k) = Z.pos p * 2 ^ Z.pos k.
Proof.
  induction k as [|k IH] using Pos.peano_ind.
  - simpl. lia.
  - rewrite Pos.iter_succ, Pos2Z.inj_xO, IH, Pos2Z.inj_succ, Z.pow_succ_r by lia. lia.
Qed.

Lemma iter_pos_iter (A : Type) (f : A -> A) (n : positive) (x : A) :
  iter_pos f n x = Pos.iter f x n.
Proof.
  revert x. induction n as [n IH|n IH|]; intro x; simpl.
  - rewrite !IH. rewrite <- !Pos.iter_swap. reflexivity.
  - now rewrite !IH.
  - reflexivity.
Qed.

(** The exponent of the last kept bit, away from the subnormal range. *)
Lemma fexp_eq (e : Z) : -1074 <= e - 53 -> fexp 53 1024 e = e - 53.
Proof. unfold fexp, emin. lia. Qed.

(** A shift to the right by one bit keeps the location, on a grid twice
    as coarse. *)
Lemma shr_1_located (mrs : shr_record) (N G : Z) :
  located mrs N G -> located (shr_1 mrs) N (2 * G).
Proof.
  destruct mrs as [m r s]. unfold located. cbn [shr_m shr_r shr_s].
  intros (HG & Hm & HF & Hr & Hs).
  assert (Hcase : shr_1 (Build_shr_record m r s) =
                  Build_shr_record (Z.div2 m) (Z.odd m) (r || s)).
  { destruct m as [|[p|p|]|p]; try reflexivity; exfalso; apply Hm; reflexivity. }
  rewrite Hcase. cbn [shr_m shr_r shr_s].
  pose proof (Z.div2_odd m) as Hm2.
  set (h := Z.div2 m) in *. set (F := N - m * G) in *.
  assert (HF' : N - h * (2 * G) = F + (if Z.odd m then G else 0)).
  { assert (Hmul : m * G = (2 * h + Z.b2z (Z.odd m)) * G) by (now rewrite <- Hm2).
    unfold F. destruct (Z.odd m); cbn [Z.b2z] in Hmul; lia. }
  rewrite HF'.
  assert (Hh : 0 <= h).
  { unfold h. destruct m as [|[p|p|]|p]; simpl; try lia; exfalso; apply Hm; reflexivity. }
  split; [lia|]. split; [exact Hh|].
  destruct (Z.odd m) eqn:Eodd.
  - split; [lia|]. split.
    + symmetry. apply Z.leb_le. lia.
    + subst r s.
      destruct (Z.eqb_spec F 0) as [E0|E0]; cbn [negb andb orb].
      * rewrite E0. replace (G <=? 2 * 0) with false by (symmetry; apply Z.leb_gt; lia).
        cbn [orb]. destruct (Z.eqb_spec (0 + G) 0); [lia|].
        destruct (Z.eqb_spec (2 * (0 + G)) (2 * G)); [reflexivity|lia].
      * destruct (Z.eqb_spec (F + G) 0); [lia|].
        destruct (Z.eqb_spec (2 * (F + G)) (2 * G)); [lia|]. cbn [negb andb].
        destruct (Z.leb_spec G (2 * F)); [reflexivity|].
        cbn [orb]. destruct (Z.eqb_spec (2 * F) G); [lia|reflexivity].
  - split; [lia|]. split.
    + symmetry. apply Z.leb_gt. lia.
    + subst r s. rewrite Z.add_0_r.
      destruct (Z.eqb_spec F 0) as [E0|E0]; cbn [negb andb orb].
      * rewrite E0. replace (G <=? 2 * 0) with false by (symmetry; apply Z.leb_gt; lia).
        reflexivity.
      * destruct (Z.eqb_spec (2 * F) (2 * G)); [lia|]. cbn [negb].
        destruct (Z.leb_spec G (2 * F)); [reflexivity|].
        cbn [orb]. destruct (Z.eqb_spec (2 * F) G); [lia|reflexivity].
Qed.

Lemma iter_shr_1_located (n : positive) (mrs : shr_record) (N G : Z) :
  located mrs N G -> located (iter_pos shr_1 n mrs) N (2 ^ Z.pos n * G).
Proof.
  intro H. rewrite iter_pos_iter.
  induction n as [|n IH] using Pos.peano_ind.
  - simpl Pos.iter. replace (2 ^ 1 * G) with (2 * G) by lia. now apply shr_1_located.
  - rewrite Pos.iter_succ, Pos2Z.inj_succ, Z.pow_succ_r by lia.
    replace (2 * 2 ^ Z.pos n * G) with (2 * (2 ^ Z.pos n * G)) by lia.
    now apply shr_1_located.
Qed.

(** An integer is located exactly on the unit grid. *)
Lemma located_of_loc_exact (m : Z) :
  0 <= m -> located (shr_record_of_loc m loc_Exact) m 1.
Proof.
  intro Hm. unfold located. cbn [shr_record_of_loc shr_m shr_r shr_s].
  replace (m - m * 1) with 0 by lia. cbn. repeat split; lia.
Qed.

(** Rounding to nearest even picks a grid point nearest to the located
    value, and the value itself when it is on the grid. *)
Lemma round_located (mrs : shr_record) (N G : Z) :
  located mrs N G ->
  let m' := round_nearest_even (shr_m mrs) (loc_of_shr_record mrs) in
  (m' = shr_m mrs \/ m' = shr_m mrs + 1) /\
  2 * Z.abs (m' * G - N) <= G /\
  (N = shr_m mrs * G -> m' = shr_m mrs).
Proof.
  destruct mrs as [m r s]. unfold located. cbn [shr_m shr_r shr_s].
  intros (HG & Hm & HF & Hr & Hs). set (F := N - m * G) in *.
  assert (HN : N = m * G + F) by (unfold F; lia).
  destruct (Z.leb_spec G (2 * F)) as [Hle|Hlt];
  destruct (Z.eqb_spec F 0) as [E0|E0];
  destruct (Z.eqb_spec (2 * F) G) as [Eh|Eh];
    cbn [negb andb] in Hs; subst r s; cbn [loc_of_shr_record round_nearest_even];
    try lia.
  destruct (Z.even m); lia.
Qed.

(** Truncation to 53 bits of a mantissa of at least 53 bits. *)
Lemma shr_fexp_located (mx : positive) (ex : Z) (lx : location) (N G : Z) :
  located (shr_record_of_loc (Z.pos mx) lx) N G ->
  53 <= Z.pos (digits2_pos mx) ->
  -1074 <= Z.pos (digits2_pos mx) + ex - 53 ->
  exists mrs,
    shr_fexp 53 1024 (Z.pos mx) ex lx = (mrs, ex + (Z.pos (digits2_pos mx) - 53)) /\
    located mrs N (2 ^ (Z.pos (digits2_pos mx) - 53) * G).
Proof.
  intros Hloc Hd Hrange. unfold shr_fexp. cbn [Zdigits2].
  rewrite fexp_eq by lia.
  replace (Z.pos (digits2_pos mx) + ex - 53 - ex) with (Z.pos (digits2_pos mx) - 53) by lia.
  destruct (Z.pos (digits2_pos mx) - 53) as [|n|n] eqn:En; [| |lia].
  - eexists. split; [cbn [shr]; now rewrite Z.add_0_r|].
    now rewrite Z.pow_0_r, Z.mul_1_l.
  - eexists. split; [reflexivity|]. now apply iter_shr_1_located.
Qed.

(** A mantissa of exactly 53 bits is not shifted. *)
Lemma shr_fexp_normal (p : positive) (e : Z) :
  2 ^ 52 <= Z.pos p < 2 ^ 53 -> -1074 <= e ->
  shr_fexp 53 1024 (Z.pos p) e loc_Exact =
  (Build_shr_record (Z.pos p) false false, e).
Proof.
  intros Hp He. unfold shr_fexp. cbn [Zdigits2].
  rewrite (@digits_unique p 53) by (simpl; lia).
  rewrite fexp_eq by lia.
  replace (53 + e - 53 - e) with 0 by lia. reflexivity.
Qed.

(** The mantissa 2^53, reached when rounding carries, is shifted once. *)
Lemma shr_fexp_carry (e : Z) :
  -1074 <= e + 1 ->
  shr_fexp 53 1024 (2 ^ 53) e loc_Exact =
  (Build_shr_record (2 ^ 52) false false, e + 1).
Proof.
  intros He. unfold shr_fexp.
  change (Zdigits2 (2 ^ 53)) with 54.
  rewrite fexp_eq by lia.
  replace (54 + e - 53 - e) with 1 by lia. reflexivity.
Qed.

(** Rounding a located value to 53 bits. *)
Lemma binary_round_aux_located (s : bool) (mx : positive) (ex : Z) (lx : location)
    (N G : Z) :
  located (shr_record_of_loc (Z.pos mx) lx) N G ->
  53 <= Z.pos (digits2_pos mx) ->
  -1074 <= Z.pos (digits2_pos mx) + ex - 53 ->
  Z.pos (digits2_pos mx) + ex - 53 + 1 <= 971 ->
  exists (m' : positive) (k : Z),
    binary_round_aux 53 1024 s (Z.pos mx) ex lx = S754_finite s m' (ex + k) /\
    2 ^ 52 <= Z.pos m' < 2 ^ 53 /\
    (k = Z.pos (digits2_pos mx) - 53 \/ k = Z.pos (digits2_pos mx) - 53 + 1) /\
    2 * Z.abs (Z.pos m' * (2 ^ k * G) - N) <= 2 ^ k * G /\
    (forall m0, N = m0 * (2 ^ (Z.pos (digits2_pos mx) - 53) * G) ->
                Z.pos m' = m0 /\ k = Z.pos (digits2_pos mx) - 53).
Proof.
  intros Hloc Hd Hlo Hhi.
  pose proof (digits2_pos_bounds mx) as Hmx.
  set (d := Z.pos (digits2_pos mx)) in *.
  destruct (@shr_fexp_located mx ex lx N G Hloc Hd Hlo) as (mrs & Hshr & Hmrs).
  fold d in Hshr, Hmrs.
  set (n := d - 53) in *. set (P := 2 ^ n) in *.
  assert (HP : 0 < P) by (apply Z.pow_pos_nonneg; lia).
  assert (HPd : 2 ^ (d - 1) = 2 ^ 52 * P /\ 2 ^ d = 2 ^ 53 * P).
  { unfold P, n. rewrite <- !Z.pow_add_r by lia. split; f_equal; lia. }
  destruct HPd as [HPd1 HPd2].
  (* the shifted mantissa is normal *)
  destruct Hloc as (HG & _ & HF0 & _). cbn [shr_record_of_loc shr_m] in HF0.
  assert (HF0' : 0 <= N - Z.pos mx * G < G).
  { destruct lx as [|[]]; exact HF0. }
  clear HF0.
  pose proof (@round_located _ _ _ Hmrs) as Hround. cbv zeta in Hround.
  destruct Hmrs as (HG' & Hm & HF & _).
  set (m := shr_m mrs) in *.
  assert (Hnormal : 2 ^ 52 <= m < 2 ^ 53).
  { split.
    - assert ((m + 1) * (P * G) > 2 ^ 52 * P * G) by nia.
      assert (m + 1 > 2 ^ 52) by nia. lia.
    - assert (m * (P * G) < 2 ^ 53 * P * G) by nia.
      nia. }
  set (m1 := round_nearest_even m (loc_of_shr_record mrs)) in *.
  destruct Hround as (Hm1 & Herr & Hexact).
  unfold binary_round_aux. rewrite Hshr.
  fold m. fold m1.
  assert (Hcases : m1 < 2 ^ 53 \/ m1 = 2 ^ 53) by lia.
  destruct Hcases as [Hlt|Heq].
  - destruct m1 as [|p1|p1] eqn:Em1; [lia| |lia].
    rewrite shr_fexp_normal by lia. cbn [shr_m].
    replace (ex + n <=? 1024 - 53) with true by (symmetry; apply Z.leb_le; lia).
    exists p1, n. split; [reflexivity|]. split; [lia|]. split; [now left|].
    split; [exact Herr|].
    intros m0 Hm0. split; [|reflexivity].
    assert (Hmm : m = m0) by nia. rewrite <- Hmm. apply Hexact.
    rewrite Hm0, Hmm. reflexivity.
  - rewrite Heq. rewrite shr_fexp_carry by lia. cbn [shr_m].
    change (2 ^ 52) with (Z.pos 4503599627370496).
    replace (ex + n + 1 <=? 1024 - 53) with true by (symmetry; apply Z.leb_le; lia).
    exists 4503599627370496%positive, (n + 1). split; [f_equal; lia|].
    split; [lia|]. split; [now right|]. split.
    + rewrite Z.pow_add_r by lia. fold P. rewrite Heq in Herr.
      change (2 ^ 1) with 2. change (Z.pos 4503599627370496) with (2 ^ 52).
      replace (2 ^ 52 * (P * 2 * G)) with (2 ^ 53 * (P * G)) by (change (2 ^ 53) with (2 * 2 ^ 52); ring).
      nia.
    + intros m0 Hm0. exfalso.
      assert (Hmm : m = m0) by nia.
      assert (m1 = m) by (apply Hexact; rewrite Hm0, Hmm; reflexivity).
      lia.
Qed.

(** The normal form of a positive integer below 2^53. *)
Lemma of_Z_normal (z : positive) :
  Z.pos z < 2 ^ 53 ->
  exists m : positive,
    JS.of_Z (Z.pos z) = S754_finite false m (Z.pos (digits2_pos z) - 53) /\
    Z.pos m = Z.pos z * 2 ^ (53 - Z.pos (digits2_pos z)) /\
    2 ^ 52 <= Z.pos m < 2 ^ 53.
Proof.
  intro Hz. pose proof (digits2_pos_bounds z) as Hb.
  set (d := Z.pos (digits2_pos z)) in *.
  assert (Hd : 1 <= d <= 53).
  { split; [unfold d; lia|].
    destruct (Z.le_gt_cases d 53) as [H|H]; [exact H|].
    assert (2 ^ 53 <= 2 ^ (d - 1)) by (apply Z.pow_le_mono_r; lia). lia. }
  unfold JS.of_Z, binary_normalize, binary_round. fold d.
  rewrite Z.add_0_r, fexp_eq by lia.
  unfold shl_align. rewrite Z.sub_0_r.
  assert (Haux : forall mz : positive,
            Z.pos mz = Z.pos z * 2 ^ (53 - d) ->
            exists m : positive,
              binary_round_aux JS.prec JS.emax false (Z.pos mz) (d - 53) loc_Exact =
                S754_finite false m (d - 53) /\
              Z.pos m = Z.pos z * 2 ^ (53 - d) /\ 2 ^ 52 <= Z.pos m < 2 ^ 53).
  { intros mz Hmz.
    assert (Hnormal : 2 ^ 52 <= Z.pos mz < 2 ^ 53).
    { rewrite Hmz. split.
      - replace (2 ^ 52) with (2 ^ (d - 1) * 2 ^ (53 - d))
          by (rewrite <- Z.pow_add_r by lia; f_equal; lia).
        apply Z.mul_le_mono_nonneg_r; [apply Z.pow_nonneg|]; lia.
      - replace (2 ^ 53) with (2 ^ d * 2 ^ (53 - d))
          by (rewrite <- Z.pow_add_r by lia; f_equal; lia).
        apply Z.mul_lt_mono_pos_r; [apply Z.pow_pos_nonneg|]; lia. }
    assert (Hdz : Z.pos (digits2_pos mz) = 53) by (apply digits_unique; simpl; lia).
    destruct (@binary_round_aux_located false mz (d - 53) loc_Exact (Z.pos mz) 1)
      as (m & k & Heq & Hm & _ & _ & Hexact).
    - apply located_of_loc_exact. lia.
    - lia.
    - lia.
    - lia.
    - destruct (Hexact (Z.pos mz)) as [Hm0 Hk].
      { rewrite Hdz. simpl. lia. }
      exists m. rewrite Hk, Hdz in Heq.
      replace (d - 53 + (53 - 53)) with (d - 53) in Heq by lia.
      split; [exact Heq|]. split; [lia|exact Hm]. }
  destruct (d - 53) as [|n|n] eqn:En.
  - apply Haux. replace (53 - d) with 0 by lia. simpl. lia.
  - lia.
  - apply Haux. rewrite pos_iter_xO. f_equal. f_equal. lia.
Qed.

(** The location the division computes is the location of the remainder. *)
Lemma new_location_located (q r m2 : Z) :
  0 <= q -> 0 <= r < m2 ->
  located (shr_record_of_loc q (new_location m2 r)) (q * m2 + r) m2.
Proof.
  intros Hq Hr. unfold located.
  assert (HF : forall l, shr_m (shr_record_of_loc q l) = q) by (intros [|[]]; reflexivity).
  rewrite HF. replace (q * m2 + r - q * m2) with r by lia.
  split; [lia|]. split; [exact Hq|]. split; [exact Hr|].
  assert (Hloc : new_location m2 r =
                 if r =? 0 then loc_Exact
                 else loc_Inexact (if 2 * r <? m2 then Lt
                                   else if 2 * r =? m2 then Eq else Gt)).
  { unfold new_location, new_location_even, new_location_odd.
    destruct (Z.even m2) eqn:Eev; cbv beta;
      change (IntDef.Z.eqb r Z0) with (r =? 0);
      (destruct (Z.eqb_spec r 0) as [E0|E0]; [reflexivity|]).
    - change (IntDef.Z.compare (IntDef.Z.mul (Z.pos 2) r) m2) with (2 * r ?= m2).
      destruct (Z.compare_spec (2 * r) m2) as [C|C|C];
        destruct (Z.ltb_spec (2 * r) m2); destruct (Z.eqb_spec (2 * r) m2);
        try reflexivity; lia.
    - assert (Hodd : 2 * r <> m2).
      { intro C. rewrite <- C, Z.even_mul in Eev. discriminate. }
      change (IntDef.Z.compare (IntDef.Z.add (IntDef.Z.mul (Z.pos 2) r) (Z.pos 1)) m2)
        with (2 * r + 1 ?= m2).
      destruct (Z.compare_spec (2 * r + 1) m2) as [C|C|C];
        destruct (Z.ltb_spec (2 * r) m2); destruct (Z.eqb_spec (2 * r) m2);
        try reflexivity; lia. }
  rewrite Hloc.
  destruct (Z.eqb_spec r 0) as [E0|E0].
  - cbn [shr_record_of_loc shr_r shr_s negb andb].
    split; [symmetry; apply Z.leb_gt; lia|reflexivity].
  - destruct (Z.ltb_spec (2 * r) m2) as [C|C];
      [|destruct (Z.eqb_spec (2 * r) m2) as [C'|C']];
      cbn [shr_record_of_loc shr_r shr_s negb andb].
    + split; [symmetry; apply Z.leb_gt; lia|].
      destruct (Z.eqb_spec (2 * r) m2); [lia|reflexivity].
    + split; [symmetry; apply Z.leb_le; lia|reflexivity].
    + split; [symmetry; apply Z.leb_le; lia|reflexivity].
Qed.

(** The number of digits of a mantissa between two powers of two. *)
Lemma digits_range (p : positive) (a b : Z) :
  0 <= a -> 2 ^ a <= Z.pos p < 2 ^ b -> a + 1 <= Z.pos (digits2_pos p) <= b.
Proof.
  intros Ha [Hlo Hhi]. rewrite digits2_pos_log2.
  assert (a <= Z.log2 (Z.pos p)).
  { rewrite <- (Z.log2_pow2 a) by lia. now apply Z.log2_le_mono. }
  assert (Z.log2 (Z.pos p) < b) by (apply Z.log2_lt_pow2; lia).
  lia.
Qed.

(** The quotient of two normal numbers. *)
Lemma div_normal (m1 m2 : positive) (e1 e2 : Z) :
  2 ^ 52 <= Z.pos m1 < 2 ^ 53 -> 2 ^ 52 <= Z.pos m2 < 2 ^ 53 ->
  -1074 <= e1 - e2 - 53 -> e1 - e2 - 53 + 2 <= 971 ->
  exists (m : positive) (j : Z),
    JS.div (S754_finite false m1 e1) (S754_finite false m2 e2) =
      S754_finite false m (e1 - e2 - 53 + j) /\
    2 ^ 52 <= Z.pos m < 2 ^ 53 /\ 0 <= j <= 2 /\
    2 * Z.abs (Z.pos m * (2 ^ j * Z.pos m2) - Z.pos m1 * 2 ^ 53) <= 2 ^ j * Z.pos m2.
Proof.
  intros H1 H2 Hlo Hhi.
  unfold JS.div, SFdiv, SFdiv_core_binary. cbn [Zdigits2 xorb].
  rewrite (@digits_unique m1 53), (@digits_unique m2 53) by (simpl; lia).
  replace (53 + e1 - (53 + e2)) with (e1 - e2) by lia.
  rewrite fexp_eq by lia.
  replace (Z.min (e1 - e2 - 53) (e1 - e2)) with (e1 - e2 - 53) by lia.
  replace (e1 - e2 - (e1 - e2 - 53)) with 53 by lia.
  change (IntDef.Z.shiftl (Z.pos m1) 53) with (Z.shiftl (Z.pos m1) 53).
  change IntDef.Z.div_eucl with Z.div_eucl.
  rewrite Z.shiftl_mul_pow2 by lia.
  pose proof (Z_div_mod (Z.pos m1 * 2 ^ 53) (Z.pos m2) ltac:(lia)) as Hdiv.
  destruct (Z.div_eucl (Z.pos m1 * 2 ^ 53) (Z.pos m2)) as [q r].
  destruct Hdiv as [Hq Hr].
  assert (Hqb : 2 ^ 52 <= q < 2 ^ 54).
  { set (A := 2 ^ 52) in *.
    replace (2 ^ 53) with (2 * A) in * by reflexivity.
    replace (2 ^ 54) with (4 * A) by reflexivity.
    assert (0 < A) by (unfold A; lia).
    split.
    - assert (Z.pos m2 * (q + 1) > A * Z.pos m2) by nia. nia.
    - assert (Z.pos m2 * q < 4 * A * Z.pos m2) by nia. nia. }
  destruct q as [|qp|qp]; [lia| |lia].
  pose proof (@digits_range qp 52 54 ltac:(lia) Hqb) as Hdq.
  destruct (@binary_round_aux_located false qp (e1 - e2 - 53) (new_location (Z.pos m2) r)
              (Z.pos qp * Z.pos m2 + r) (Z.pos m2))
    as (m & k & Heq & Hm & Hk & Herr & _).
  - apply new_location_located; lia.
  - lia.
  - lia.
  - lia.
  - exists m, k. split; [exact Heq|]. split; [exact Hm|]. split; [lia|].
    rewrite Hq. replace (Z.pos m2 * Z.pos qp + r) with (Z.pos qp * Z.pos m2 + r) by lia.
    exact Herr.
Qed.

(** The quotient of two positive integers. *)
Lemma div_of_Z (c t : positive) :
  Z.pos c < 2 ^ 50 -> Z.pos t < 2 ^ 50 ->
  exists (m : positive) (E : Z),
    JS.div (JS.of_Z (Z.pos c)) (JS.of_Z (Z.pos t)) = S754_finite false m (- E) /\
    2 ^ 52 <= Z.pos m < 2 ^ 53 /\ 0 < E <= 105 /\
    2 * Z.abs (Z.pos m * Z.pos t - Z.pos c * 2 ^ E) <= Z.pos t.
Proof.
  intros Hc Ht.
  destruct (@of_Z_normal c ltac:(lia)) as (m1 & -> & Hm1 & Hn1).
  destruct (@of_Z_normal t ltac:(lia)) as (m2 & -> & Hm2 & Hn2).
  pose proof (@digits_range c 0 50 ltac:(lia) ltac:(lia)) as Hdc.
  pose proof (@digits_range t 0 50 ltac:(lia) ltac:(lia)) as Hdt.
  set (dc := Z.pos (digits2_pos c)) in *. set (dt := Z.pos (digits2_pos t)) in *.
  destruct (@div_normal m1 m2 (dc - 53) (dt - 53) Hn1 Hn2 ltac:(lia) ltac:(lia))
    as (m & j & Heq & Hm & Hj & Herr).
  exists m, (- (dc - 53 - (dt - 53) - 53 + j)).
  split; [rewrite Heq; f_equal; lia|]. split; [exact Hm|]. split; [lia|].
  replace (- (dc - 53 - (dt - 53) - 53 + j)) with (53 - dc + dt - j) by lia.
  rewrite Hm1, Hm2 in Herr.
  set (a := 53 - dc) in *. set (b := 53 - dt) in *.
  assert (Ha : 0 < 2 ^ a) by (apply Z.pow_pos_nonneg; lia).
  assert (Hb : 0 < 2 ^ b) by (apply Z.pow_pos_nonneg; lia).
  assert (HJ : 0 < 2 ^ j) by (apply Z.pow_pos_nonneg; lia).
  assert (Hsplit : 2 ^ a * 2 ^ 53 = 2 ^ (53 - dc + dt - j) * (2 ^ j * 2 ^ b)).
  { rewrite <- !Z.pow_add_r by lia. f_equal. unfold a, b. lia. }
  set (U := 2 ^ (53 - dc + dt - j)) in *.
  assert (Hc2 : Z.pos c * 2 ^ a * 2 ^ 53 = Z.pos c * (U * (2 ^ j * 2 ^ b)))
    by (rewrite <- Hsplit; ring).
  rewrite Hc2 in Herr.
  replace (Z.pos m * (2 ^ j * (Z.pos t * 2 ^ b)) - Z.pos c * (U * (2 ^ j * 2 ^ b)))
    with ((2 ^ j * 2 ^ b) * (Z.pos m * Z.pos t - Z.pos c * U)) in Herr by ring.
  replace (2 ^ j * (Z.pos t * 2 ^ b)) with ((2 ^ j * 2 ^ b) * Z.pos t) in Herr by lia.
  set (W := 2 ^ j * 2 ^ b) in *.
  assert (HW : 0 < W) by (unfold W; apply Z.mul_pos_pos; assumption).
  rewrite Z.abs_mul, (Z.abs_eq W) in Herr by lia.
  apply (Z.mul_le_mono_pos_l _ _ W HW).
  change (2 ^ (a + dt - j)) with U.
  set (X := Z.abs (Z.pos m * Z.pos t - Z.pos c * U)) in *. lia.
Qed.

(** The product of two normal numbers. *)
Lemma mul_normal (m1 m2 : positive) (e1 e2 : Z) :
  2 ^ 52 <= Z.pos m1 < 2 ^ 53 -> 2 ^ 52 <= Z.pos m2 < 2 ^ 53 ->
  -1074 <= e1 + e2 + 52 -> e1 + e2 + 54 <= 971 ->
  exists (m : positive) (k : Z),
    JS.mul (S754_finite false m1 e1) (S754_finite false m2 e2) =
      S754_finite false m (e1 + e2 + k) /\
    2 ^ 52 <= Z.pos m < 2 ^ 53 /\ 52 <= k <= 54 /\
    2 * Z.abs (Z.pos m * 2 ^ k - Z.pos m1 * Z.pos m2) <= 2 ^ k.
Proof.
  intros H1 H2 Hlo Hhi.
  unfold JS.mul, SFmul. cbn [xorb].
  assert (Hp : 2 ^ 104 <= Z.pos (m1 * m2) < 2 ^ 106).
  { rewrite Pos2Z.inj_mul.
    change (2 ^ 104) with (2 ^ 52 * 2 ^ 52). change (2 ^ 106) with (2 ^ 53 * 2 ^ 53).
    set (A := 2 ^ 52) in *. set (B := 2 ^ 53) in *.
    assert (0 < A) by (unfold A; lia). assert (0 < B) by (unfold B; lia).
    split.
    - apply Z.mul_le_mono_nonneg; lia.
    - apply Z.mul_lt_mono_nonneg; lia. }
  pose proof (@digits_range (m1 * m2) 104 106 ltac:(lia) Hp) as Hd.
  destruct (@binary_round_aux_located false (m1 * m2) (e1 + e2) loc_Exact
              (Z.pos (m1 * m2)) 1)
    as (m & k & Heq & Hm & Hk & Herr & _).
  - apply located_of_loc_exact. lia.
  - lia.
  - lia.
  - lia.
  - exists m, k. split; [exact Heq|]. split; [exact Hm|]. split; [lia|].
    rewrite Z.mul_1_r, Pos2Z.inj_mul in Herr. exact Herr.
Qed.

(** A normal number times a small positive integer. *)
Lemma mul_of_Z (m : positive) (E : Z) (K : positive) :
  2 ^ 52 <= Z.pos m < 2 ^ 53 -> 0 < E <= 105 -> Z.pos K < 2 ^ 50 ->
  exists (m' : positive) (j : Z),
    JS.mul (S754_finite false m (- E)) (JS.of_Z (Z.pos K)) =
      S754_finite false m' (- E + j) /\
    2 ^ 52 <= Z.pos m' < 2 ^ 53 /\ 0 <= j /\
    2 * Z.abs (Z.pos m' * 2 ^ j - Z.pos m * Z.pos K) <= 2 ^ j.
Proof.
  intros Hm HE HK.
  destruct (@of_Z_normal K ltac:(lia)) as (mK & -> & HmK & HnK).
  pose proof (@digits_range K 0 50 ltac:(lia) ltac:(lia)) as HdK.
  set (dK := Z.pos (digits2_pos K)) in *.
  destruct (@mul_normal m mK (- E) (dK - 53) Hm HnK ltac:(lia) ltac:(lia))
    as (m' & k & Heq & Hm' & Hk & Herr).
  exists m', (dK - 53 + k). split; [rewrite Heq; f_equal; lia|].
  split; [exact Hm'|]. split; [lia|].
  rewrite HmK in Herr.
  set (s := 53 - dK) in *.
  assert (Hs : 0 < 2 ^ s) by (apply Z.pow_pos_nonneg; lia).
  assert (Hsplit : 2 ^ k = 2 ^ (dK - 53 + k) * 2 ^ s).
  { rewrite <- Z.pow_add_r by lia. f_equal. unfold s. lia. }
  rewrite Hsplit in Herr. set (J := 2 ^ (dK - 53 + k)) in *.
  replace (Z.pos m' * (J * 2 ^ s) - Z.pos m * (Z.pos K * 2 ^ s))
    with (2 ^ s * (Z.pos m' * J - Z.pos m * Z.pos K)) in Herr by ring.
  rewrite Z.abs_mul, (Z.abs_eq (2 ^ s)) in Herr by lia.
  apply (Z.mul_le_mono_pos_l _ _ (2 ^ s) Hs).
  set (X := Z.abs (Z.pos m' * J - Z.pos m * Z.pos K)) in *. lia.
Qed.

(** [Math.round] of a positive number with fraction bits. *)
Lemma Math_round_spec (m : positive) (E : Z) :
  0 < E ->
  exists kk : Z,
    JS.Math_round (S754_finite false m (- E)) = JS.of_Z kk /\
    0 <= kk /\ 2 * Z.abs (kk * 2 ^ E - Z.pos m) <= 2 ^ E.
Proof.
  intro HE. destruct E as [|p|p]; [lia| |lia].
  cbn [Z.opp JS.Math_round].
  change (Z.pow_pos 2 p) with (2 ^ Z.pos p).
  set (D := 2 ^ Z.pos p).
  assert (HD : 0 < D) by (apply Z.pow_pos_nonneg; lia).
  pose proof (Z.div_mod (Z.pos m) D ltac:(lia)) as Hdm.
  pose proof (Z.mod_pos_bound (Z.pos m) D HD) as Hr.
  pose proof (Z.div_pos (Z.pos m) D ltac:(lia) HD) as Hq.
  set (q := Z.pos m / D) in *. set (r := Z.pos m mod D) in *.
  exists (q + (if D <=? 2 * r then 1 else 0)). split; [|split].
  - destruct (Z.eqb_spec (q + (if D <=? 2 * r then 1 else 0)) 0) as [E0|E0];
      [rewrite E0|]; reflexivity.
  - destruct (D <=? 2 * r); lia.
  - destruct (Z.leb_spec D (2 * r)); lia.
Qed.

(** Aligning a mantissa on a smaller exponent. *)
Lemma shl_align_fst (m : positive) (e ez : Z) :
  ez <= e -> Z.pos (fst (shl_align m e ez)) = Z.pos m * 2 ^ (e - ez).
Proof.
  intro H. unfold shl_align.
  destruct (ez - e) as [|d|d] eqn:Ed; cbn [fst].
  - replace (e - ez) with 0 by lia. simpl. lia.
  - lia.
  - rewrite pos_iter_xO. f_equal. f_equal. lia.
Qed.

(** The sum of two positive integers is exact as long as it stays below
    2^53. *)
Lemma add_of_Z (a r : positive) :
  Z.pos a + Z.pos r < 2 ^ 53 ->
  JS.add (JS.of_Z (Z.pos a)) (JS.of_Z (Z.pos r)) = JS.of_Z (Z.pos a + Z.pos r).
Proof.
  intro Hz.
  destruct (@of_Z_normal a ltac:(lia)) as (ma & -> & Hma & Hna).
  destruct (@of_Z_normal r ltac:(lia)) as (mr & -> & Hmr & Hnr).
  change (Z.pos a + Z.pos r) with (Z.pos (a + r)) in *.
  destruct (@of_Z_normal (a + r) Hz) as (mz & -> & Hmz & Hnz).
  pose proof (digits2_pos_bounds a) as Hba.
  pose proof (digits2_pos_bounds r) as Hbr.
  pose proof (digits2_pos_bounds (a + r)) as Hbz.
  set (da := Z.pos (digits2_pos a)) in *.
  set (dr := Z.pos (digits2_pos r)) in *.
  set (dz := Z.pos (digits2_pos (a + r))) in *.
  assert (Hda : 1 <= da <= dz).
  { split; [unfold da; lia|].
    destruct (Z.le_gt_cases da dz) as [H|H]; [exact H|].
    assert (2 ^ dz <= 2 ^ (da - 1)) by (apply Z.pow_le_mono_r; lia).
    rewrite Pos2Z.inj_add in Hbz. lia. }
  assert (Hdr : 1 <= dr <= dz).
  { split; [unfold dr; lia|].
    destruct (Z.le_gt_cases dr dz) as [H|H]; [exact H|].
    assert (2 ^ dz <= 2 ^ (dr - 1)) by (apply Z.pow_le_mono_r; lia).
    rewrite Pos2Z.inj_add in Hbz. lia. }
  assert (Hdz : dz <= 53).
  { destruct (Z.le_gt_cases dz 53) as [H|H]; [exact H|].
    assert (2 ^ 53 <= 2 ^ (dz - 1)) by (apply Z.pow_le_mono_r; lia). lia. }
  unfold JS.add, SFadd. cbn [cond_Zopp].
  set (ez := Z.min (da - 53) (dr - 53)).
  rewrite !shl_align_fst by (unfold ez; lia).
  rewrite Hma, Hmr.
  assert (Hsum : Z.pos a * 2 ^ (53 - da) * 2 ^ (da - 53 - ez)
                 + Z.pos r * 2 ^ (53 - dr) * 2 ^ (dr - 53 - ez)
                 = Z.pos (a + r) * 2 ^ (- ez)).
  { rewrite <- !Z.mul_assoc, <- !Z.pow_add_r by (unfold ez; lia).
    replace (53 - da + (da - 53 - ez)) with (- ez) by lia.
    replace (53 - dr + (dr - 53 - ez)) with (- ez) by lia.
    rewrite Pos2Z.inj_add. ring. }
  rewrite Hsum.
  assert (HP : 0 < 2 ^ (- ez)) by (apply Z.pow_pos_nonneg; unfold ez; lia).
  destruct (Z.pos (a + r) * 2 ^ (- ez)) as [|M|M] eqn:EM; [lia| |lia].
  unfold binary_normalize, binary_round.
  assert (HdM : Z.pos (digits2_pos M) = dz - ez).
  { apply digits_unique; [|unfold ez; lia]. rewrite <- EM.
    replace (dz - ez - 1) with (dz - 1 + - ez) by lia.
    replace (dz - ez) with (dz + - ez) by lia.
    rewrite !Z.pow_add_r by (unfold ez; lia).
    split.
    - apply Z.mul_le_mono_nonneg_r; lia.
    - apply Z.mul_lt_mono_pos_r; lia. }
  rewrite HdM. replace (dz - ez + ez) with dz by lia.
  rewrite fexp_eq by lia.
  assert (Halign : shl_align M ez (dz - 53) = (M, ez)).
  { unfold shl_align. destruct (dz - 53 - ez) as [|d|d] eqn:Ed; try reflexivity.
    unfold ez in Ed. lia. }
  rewrite Halign.
  destruct (@binary_round_aux_located false M ez loc_Exact (Z.pos M) 1)
    as (m' & k & Heq & _ & _ & _ & Hexact).
  - apply located_of_loc_exact. lia.
  - rewrite HdM. unfold ez. lia.
  - rewrite HdM. lia.
  - rewrite HdM. lia.
  - destruct (Hexact (Z.pos mz)) as [Hm' Hk].
    { rewrite HdM, Hmz, <- EM, Z.mul_1_r, <- Z.mul_assoc, <- Z.pow_add_r
        by (unfold ez; lia).
      f_equal. f_equal. lia. }
    change JS.prec with 53; change JS.emax with 1024. rewrite Heq, Hk, HdM. f_equal; [congruence|lia].
Qed.

(** A half-unit error bound, scaled. *)
Lemma scale_half (p x y : Z) :
  0 <= p -> 2 * Z.abs x <= y -> 2 * Z.abs (p * x) <= p * y.
Proof.
  intros Hp H. rewrite Z.abs_mul, (Z.abs_eq p) by lia.
  replace (2 * (p * Z.abs x)) with (p * (2 * Z.abs x)) by ring.
  now apply Z.mul_le_mono_nonneg_l.
Qed.

(** Three roundings in a row, of a quotient, of its multiple and to an
    integer, still give an integer nearest to the exact multiple when the
    scale [U] of the quotient is large enough. *)
Lemma nearest_after_three_roundings (K c t m m' kk U U2 J : Z) :
  0 < t -> 0 < K -> 0 < U -> 0 <= J -> U = U2 * J ->
  2 * Z.abs (m * t - c * U) <= t ->
  2 * Z.abs (m' * J - m * K) <= J ->
  2 * Z.abs (kk * U2 - m') <= U2 ->
  (K + J) * t < U ->
  2 * Z.abs (K * c - kk * t) <= t.
Proof.
  intros Ht HK HU HJ HUJ Ha Hb Hd Hscale.
  assert (Hdec : (K * c - kk * t) * U =
                 K * (c * U - m * t) + t * (m * K - m' * J) + t * J * (m' - kk * U2)).
  { rewrite HUJ. ring. }
  assert (Ha' : 2 * Z.abs (c * U - m * t) <= t).
  { rewrite <- Z.abs_opp. now replace (- (c * U - m * t)) with (m * t - c * U) by ring. }
  assert (Hb' : 2 * Z.abs (m * K - m' * J) <= J).
  { rewrite <- Z.abs_opp. now replace (- (m * K - m' * J)) with (m' * J - m * K) by ring. }
  assert (Hd' : 2 * Z.abs (m' - kk * U2) <= U2).
  { rewrite <- Z.abs_opp. now replace (- (m' - kk * U2)) with (kk * U2 - m') by ring. }
  pose proof (@scale_half K _ _ ltac:(lia) Ha') as T1.
  pose proof (@scale_half t _ _ ltac:(lia) Hb') as T2.
  pose proof (@scale_half (t * J) _ _ ltac:(apply Z.mul_nonneg_nonneg; lia) Hd') as T3.
  replace (t * J * U2) with (t * U) in T3 by (rewrite HUJ; ring).
  pose proof (Z.abs_triangle (K * (c * U - m * t) + t * (m * K - m' * J))
                             (t * J * (m' - kk * U2))) as R1.
  pose proof (Z.abs_triangle (K * (c * U - m * t)) (t * (m * K - m' * J))) as R2.
  rewrite <- Hdec, Z.abs_mul, (Z.abs_eq U) in R1 by lia.
  set (X := Z.abs (K * c - kk * t)) in *.
  set (P1 := Z.abs (K * (c * U - m * t))) in *.
  set (P2 := Z.abs (t * (m * K - m' * J))) in *.
  set (P3 := Z.abs (t * J * (m' - kk * U2))) in *.
  set (P12 := Z.abs (K * (c * U - m * t) + t * (m * K - m' * J))) in *.
  clearbody X P1 P2 P3 P12.
  assert (Hsum : 2 * (X * U) <= K * t + t * J + t * U) by lia.
  assert (Hlt : (2 * X) * U < (t + 1) * U).
  { replace (2 * X * U) with (2 * (X * U)) by ring.
    replace ((t + 1) * U) with (t * U + U) by ring.
    replace ((K + J) * t) with (K * t + t * J) in Hscale by ring. lia. }
  apply Z.mul_lt_mono_pos_r in Hlt; [lia|exact HU].
Qed.

(** [Math.round((c / t) * K)] in double arithmetic is an integer nearest
    to [K * c / t]. *)
Lemma round_scaled_quotient (c t K : positive) :
  Z.pos c < 2 ^ 40 -> Z.pos t < 2 ^ 40 -> Z.pos K < 2 ^ 7 ->
  exists kk : Z,
    JS.Math_round (JS.mul (JS.div (JS.of_Z (Z.pos c)) (JS.of_Z (Z.pos t)))
                          (JS.of_Z (Z.pos K))) = JS.of_Z kk /\
    0 <= kk /\
    2 * Z.abs (Z.pos K * Z.pos c - kk * Z.pos t) <= Z.pos t.
Proof.
  intros Hc Ht HK.
  destruct (@div_of_Z c t ltac:(lia) ltac:(lia)) as (m & E & -> & Hm & HE & Ha).
  destruct (@mul_of_Z m E K Hm HE ltac:(lia)) as (m' & j & -> & Hm' & Hj & Hb).
  set (U := 2 ^ E) in *. set (J := 2 ^ j) in *.
  assert (HU : 0 < U) by (apply Z.pow_pos_nonneg; lia).
  assert (HJ : 0 < J) by (apply Z.pow_pos_nonneg; lia).
  set (A := 2 ^ 52) in *. replace (2 ^ 53) with (2 * A) in * by reflexivity.
  assert (HA : A = 4503599627370496) by reflexivity.
  assert (Hc' : Z.pos c < 1099511627776) by exact Hc.
  assert (HK' : Z.pos K < 128) by exact HK.
  (* the scale of the product: J <= 3 K *)
  assert (HJK : J <= 3 * Z.pos K).
  { assert (2 * (Z.pos m' * J) <= 2 * (Z.pos m * Z.pos K) + J) by lia.
    assert (2 * (A * J) <= 2 * (Z.pos m' * J)) by nia.
    assert (2 * (Z.pos m * Z.pos K) <= 4 * A * Z.pos K) by nia.
    nia. }
  (* the scale of the quotient: U is large *)
  assert (HUt : (Z.pos K + J) * Z.pos t < U).
  { assert (H1 : 2 * (Z.pos m * Z.pos t) <= 2 * (Z.pos c * U) + Z.pos t) by lia.
    assert (H2 : 2 * (A * Z.pos t) <= 2 * (Z.pos m * Z.pos t)) by nia.
    assert (H3 : (2 * A - 1) * Z.pos t <= 2 * Z.pos c * U) by lia.
    assert (H4 : (Z.pos K + J) * Z.pos t <= 4 * Z.pos K * Z.pos t) by nia.
    destruct (Z.lt_ge_cases (4 * Z.pos K * Z.pos t) U) as [|Hge]; [lia|].
    exfalso.
    assert (H5 : 2 * Z.pos c * U <= 2 * Z.pos c * (4 * Z.pos K * Z.pos t)) by nia.
    assert (H6 : (2 * A - 1) * Z.pos t <= (8 * Z.pos c * Z.pos K) * Z.pos t) by lia.
    assert (H7 : 2 * A - 1 <= 8 * Z.pos c * Z.pos K) by nia.
    assert (H8 : 8 * Z.pos c * Z.pos K < 8 * 1099511627776 * 128) by nia.
    lia. }
  assert (HjE : j < E).
  { assert (J < U) by nia. unfold J, U in *.
    apply (Z.pow_lt_mono_r_iff 2); lia. }
  replace (- E + j) with (- (E - j)) by lia.
  destruct (@Math_round_spec m' (E - j) ltac:(lia)) as (kk & -> & Hkk & Hcr).
  exists kk. split; [reflexivity|]. split; [exact Hkk|].
  apply (@nearest_after_three_roundings (Z.pos K) (Z.pos c) (Z.pos t) (Z.pos m) (Z.pos m')
           kk U (2 ^ (E - j)) J); try lia; try assumption.
  unfold U, J. rewrite <- Z.pow_add_r by lia. f_equal. lia.
Qed.

(** The same with a count [c] that may be zero. *)
Lemma round_scaled_quotient_whole (c t K : Z) :
  0 <= c < 2 ^ 40 -> 0 < t < 2 ^ 40 -> 0 < K < 2 ^ 7 ->
  exists kk : Z,
    JS.Math_round (JS.mul (JS.div (JS.of_Z c) (JS.of_Z t)) (JS.of_Z K)) = JS.of_Z kk /\
    0 <= kk /\
    2 * Z.abs (K * c - kk * t) <= t.
Proof.
  intros Hc Ht HK.
  destruct t as [|t|t]; [lia| |lia]. destruct K as [|K|K]; [lia| |lia].
  destruct c as [|c|c]; [| |lia].
  - exists 0.
    destruct (@of_Z_normal t ltac:(lia)) as (mt & -> & _).
    destruct (@of_Z_normal K ltac:(lia)) as (mK & -> & _).
    split; [reflexivity|]. lia.
  - apply round_scaled_quotient; lia.
Qed.

(** Adding a positive whole number to a whole partial sum is exact below
    2^53. *)
Lemma add_whole (acc r : Z) :
  0 <= acc -> 0 < r -> acc + r < 2 ^ 53 ->
  JS.add (JS.of_Z acc) (JS.of_Z r) = JS.of_Z (acc + r).
Proof.
  intros Hacc Hr Hsum.
  destruct r as [|r|r]; [lia| |lia]. destruct acc as [|acc|acc]; [| |lia].
  - rewrite Z.add_0_l.
    destruct (@of_Z_normal r ltac:(lia)) as (m & -> & _). reflexivity.
  - now apply add_of_Z.
Qed.

(** An integer nearest to a quotient is the quotient rounded half up, or
    the integer just below when the quotient is a tie. *)
Lemma nearest_roundHalfUp (num den k : Z) :
  0 < den -> 2 * Z.abs (num - k * den) <= den ->
  k = roundHalfUp num den \/
  (k + 1 = roundHalfUp num den /\ 2 * (num - k * den) = den).
Proof.
  intros Hden Hnear. unfold roundHalfUp.
  destruct (Z.eq_dec (2 * (num - k * den)) den) as [Htie|Hne].
  - right. split; [|exact Htie].
    replace (2 * num + den) with ((k + 1) * (2 * den)) by lia.
    rewrite Z.div_mul by lia. reflexivity.
  - left. apply (Z.div_unique_pos _ _ _ (2 * num + den - 2 * den * k)); lia.
Qed.

(** *** Ratings that are not whole numbers *)

Lemma one_finite : JS.of_Z 1 = S754_finite false 4503599627370496 (-52).
Proof. vm_compute. reflexivity. Qed.

Lemma five_finite : JS.of_Z 5 = S754_finite false 5629499534213120 (-50).
Proof. vm_compute. reflexivity. Qed.

(** [x <= y] on positive finite numbers. *)
Lemma SFleb_positive (m1 m2 : positive) (e1 e2 : Z) :
  SFleb (S754_finite false m1 e1) (S754_finite false m2 e2) = true ->
  e1 < e2 \/ (e1 = e2 /\ Z.pos m1 <= Z.pos m2).
Proof.
  unfold SFleb. cbn [SFcompare].
  change (Pos.compare_cont Eq m1 m2) with (m1 ?= m2)%positive.
  destruct (Z.compare_spec e1 e2); [|now left|discriminate].
  destruct (Pos.compare_spec m1 m2); try discriminate; intros _; right; split; lia.
Qed.

(** A valid rating is a normal number with exponent -52, -51 or -50. *)
Lemma rating_normal (r : JS.Number) :
  validRating r ->
  exists (m : positive) (e : Z),
    r = S754_finite false m e /\
    2 ^ 52 <= Z.pos m < 2 ^ 53 /\ -52 <= e <= -50 /\
    2 ^ 52 <= exact52 r <= 5 * 2 ^ 52.
Proof.
  intros [Hd Hr]. unfold inRange, JS.leb in Hr.
  apply andb_prop in Hr as [H1 H5].
  rewrite one_finite in H1. rewrite five_finite in H5.
  destruct r as [[]|[]| |[] m e]; try discriminate H1; try discriminate H5.
  apply SFleb_positive in H1, H5.
  unfold isDouble, valid_binary, bounded, canonical_mantissa in Hd.
  apply andb_prop in Hd as [Hc _]. apply Z.eqb_eq in Hc.
  assert (He : -52 <= e <= -50) by lia.
  unfold fexp, emin in Hc. change JS.prec with 53 in Hc. change JS.emax with 1024 in Hc.
  assert (Hdig : Z.pos (digits2_pos m) = 53) by lia.
  pose proof (digits2_pos_bounds m) as Hb. rewrite Hdig in Hb.
  change (2 ^ (53 - 1)) with (2 ^ 52) in Hb.
  exists m, e. split; [reflexivity|]. split; [exact Hb|]. split; [exact He|].
  cbn [exact52].
  assert (H52 : 2 ^ 52 = 4503599627370496) by reflexivity.
  assert (H53 : 2 ^ 53 = 9007199254740992) by reflexivity.
  rewrite H52 in Hb |- *. rewrite H53 in Hb.
  assert (Hcases : e = -52 \/ e = -51 \/ e = -50) by lia.
  destruct Hcases as [->|[-> | ->]].
  - change (2 ^ (-52 + 52)) with 1. lia.
  - change (2 ^ (-51 + 52)) with 2. lia.
  - change (2 ^ (-50 + 52)) with 4. lia.
Qed.

(** The sum of two normal numbers from 1 upwards, on the scale 2^-52. *)
Lemma add_normal (m1 m2 : positive) (e1 e2 : Z) :
  2 ^ 52 <= Z.pos m1 < 2 ^ 53 -> 2 ^ 52 <= Z.pos m2 < 2 ^ 53 ->
  -52 <= e1 <= 900 -> -52 <= e2 <= 900 ->
  exists (m : positive) (e : Z),
    JS.add (S754_finite false m1 e1) (S754_finite false m2 e2) = S754_finite false m e /\
    2 ^ 52 <= Z.pos m < 2 ^ 53 /\ -52 <= e /\
    2 * Z.abs (Z.pos m * 2 ^ (e + 52)
               - (Z.pos m1 * 2 ^ (e1 + 52) + Z.pos m2 * 2 ^ (e2 + 52))) <= 2 ^ (e + 52).
Proof.
  intros H1 H2 He1 He2.
  unfold JS.add, SFadd. cbn [cond_Zopp].
  set (ez := Z.min e1 e2).
  assert (Hez : -52 <= ez /\ ez <= e1 /\ ez <= e2 /\ (ez = e1 \/ ez = e2)) by (unfold ez; lia).
  clearbody ez. destruct Hez as (Hez0 & Hez1 & Hez2 & Hezc).
  rewrite !shl_align_fst by lia.
  set (a1 := 2 ^ (e1 - ez)). set (a2 := 2 ^ (e2 - ez)).
  assert (Ha1 : 0 < a1) by (apply Z.pow_pos_nonneg; lia).
  assert (Ha2 : 0 < a2) by (apply Z.pow_pos_nonneg; lia).
  set (ex := Z.max e1 e2 - ez).
  assert (Hex : 0 <= ex <= 952) by (unfold ex; lia).
  assert (Ha1x : a1 <= 2 ^ ex) by (apply Z.pow_le_mono_r; unfold ex; lia).
  assert (Ha2x : a2 <= 2 ^ ex) by (apply Z.pow_le_mono_r; unfold ex; lia).
  assert (Hone : a1 = 1 \/ a2 = 1).
  { destruct Hezc as [->| ->]; [left; unfold a1|right; unfold a2];
      rewrite Z.sub_diag; reflexivity. }
  assert (HX : 0 < 2 ^ ex) by (apply Z.pow_pos_nonneg; lia).
  assert (HMb : 2 ^ 52 <= Z.pos m1 * a1 + Z.pos m2 * a2 < 2 ^ (54 + ex)).
  { rewrite Z.pow_add_r by lia. change (2 ^ 54) with (2 * 2 ^ 53).
    set (A := 2 ^ 52) in *. set (B := 2 ^ 53) in *. set (X := 2 ^ ex) in *.
    clearbody A B X a1 a2. split.
    - destruct Hone as [->| ->]; nia.
    - assert (Z.pos m1 * a1 < B * X) by nia.
      assert (Z.pos m2 * a2 < B * X) by nia. lia. }
  destruct (Z.pos m1 * a1 + Z.pos m2 * a2) as [|M|M] eqn:EM; [lia| |lia].
  pose proof (@digits_range M 52 (54 + ex) ltac:(lia) HMb) as HdM.
  unfold binary_normalize, binary_round.
  set (dM := Z.pos (digits2_pos M)) in *.
  rewrite fexp_eq by lia.
  assert (Halign : shl_align M ez (dM + ez - 53) = (M, ez)).
  { unfold shl_align. destruct (dM + ez - 53 - ez) as [|d|d] eqn:Ed; try reflexivity. lia. }
  rewrite Halign.
  destruct (@binary_round_aux_located false M ez loc_Exact (Z.pos M) 1)
    as (m' & k & Heq & Hm' & Hk & Herr & _).
  - apply located_of_loc_exact. lia.
  - fold dM. lia.
  - fold dM. lia.
  - fold dM. unfold ex in HdM. clear - HdM He1 He2. lia.
  - fold dM in Hk.
    change JS.prec with 53. change JS.emax with 1024. rewrite Heq.
    exists m', (ez + k). split; [reflexivity|]. split; [exact Hm'|]. split; [lia|].
    rewrite Z.mul_1_r in Herr.
    assert (Hk0 : 0 <= k) by lia.
    replace (ez + k + 52) with (k + (ez + 52)) by lia.
    rewrite (Z.pow_add_r 2 k (ez + 52)) by lia.
    replace (e1 + 52) with ((e1 - ez) + (ez + 52)) by lia.
    replace (e2 + 52) with ((e2 - ez) + (ez + 52)) by lia.
    rewrite (Z.pow_add_r 2 (e1 - ez) (ez + 52)), (Z.pow_add_r 2 (e2 - ez) (ez + 52)) by lia.
    fold a1 a2.
    set (P := 2 ^ (ez + 52)).
    assert (HP : 0 < P) by (apply Z.pow_pos_nonneg; lia).
    replace (Z.pos m' * (2 ^ k * P) - (Z.pos m1 * (a1 * P) + Z.pos m2 * (a2 * P)))
      with (P * (Z.pos m' * 2 ^ k - (Z.pos m1 * a1 + Z.pos m2 * a2))) by ring.
    rewrite EM.
    replace (2 ^ k * P) with (P * 2 ^ k) by ring.
    apply scale_half; [lia|exact Herr].
Qed.

(** A power of two below [2^(b+1)] is at most [2^b]. *)
Lemma pow2_below (x : Z) (b : Z) : 0 <= b -> 2 ^ x < 2 ^ (b + 1) -> 2 ^ x <= 2 ^ b.
Proof.
  intros Hb H. destruct (Z.lt_ge_cases x 0) as [Hx|Hx].
  - rewrite Z.pow_neg_r by lia. apply Z.pow_nonneg. lia.
  - apply Z.pow_le_mono_r; [lia|].
    apply Z.pow_lt_mono_r_iff in H; lia.
Qed.

(** The running total of the ratings: every addition rounds by at most
    2^23 on the scale 2^-52, that is by 2^-29. *)
Lemma totalRating_near (rs : list JS.Number) (M : positive) (E : Z) :
  Forall validRating rs ->
  2 ^ 52 <= Z.pos M < 2 ^ 53 -> -52 <= E ->
  Z.pos M * 2 ^ (E + 52) + (5 * 2 ^ 52 + 2 ^ 23) * Z.of_nat (length rs) < 2 ^ 76 ->
  exists (M' : positive) (E' : Z),
    fold_left JS.add rs (S754_finite false M E) = S754_finite false M' E' /\
    2 ^ 52 <= Z.pos M' < 2 ^ 53 /\ -52 <= E' /\
    Z.abs (Z.pos M' * 2 ^ (E' + 52) - (Z.pos M * 2 ^ (E + 52) + sum52 rs))
      <= 2 ^ 23 * Z.of_nat (length rs).
Proof.
  intro H. revert M E.
  induction H as [|r rs Hr Hrs IH]; intros M E HM HE Hroom.
  - exists M, E. cbn [fold_left]. split; [reflexivity|]. split; [exact HM|].
    split; [exact HE|]. unfold sum52. simpl. rewrite Z.add_0_r, Z.sub_diag. simpl. lia.
  - destruct (rating_normal Hr) as (m & e & -> & Hm & He & Hv).
    cbn [exact52] in Hv. cbn [fold_left].
    rewrite length_cons, Nat2Z.inj_succ in Hroom.
    set (A := Z.pos M * 2 ^ (E + 52)) in *.
    set (v := Z.pos m * 2 ^ (e + 52)) in *.
    set (n := Z.of_nat (length rs)) in *.
    assert (Hn : 0 <= n) by (unfold n; lia).
    assert (HuA : 0 < 2 ^ (E + 52)) by (apply Z.pow_pos_nonneg; lia).
    assert (HE' : E <= 900).
    { assert (H1 : 2 ^ 52 * 2 ^ (E + 52) <= A) by (unfold A; nia).
      assert (H2 : 2 ^ (E + 52) < 2 ^ 24).
      { change (2 ^ 76) with (2 ^ 52 * 2 ^ 24) in Hroom.
        assert (2 ^ 52 * 2 ^ (E + 52) < 2 ^ 52 * 2 ^ 24) by nia.
        apply Z.mul_lt_mono_pos_l with (p := 2 ^ 52); [reflexivity|exact H]. }
      apply Z.pow_lt_mono_r_iff in H2; lia. }
    destruct (@add_normal M m E e HM Hm ltac:(lia) ltac:(lia))
      as (M1 & E1 & -> & HM1 & HE1 & Herr).
    fold A v in Herr.
    set (R := Z.pos M1 * 2 ^ (E1 + 52)) in *.
    set (u := 2 ^ (E1 + 52)) in *.
    assert (Hu : 0 < u) by (apply Z.pow_pos_nonneg; lia).
    assert (HRu : 2 ^ 52 * u <= R) by (unfold R; fold u; nia).
    assert (Hsmall : u <= 2 ^ 24).
    { apply pow2_below; [lia|]. change (2 ^ (24 + 1)) with (2 ^ 25).
      assert (Hb : 2 * R <= 2 * (A + v) + u) by lia.
      assert (Hc : (2 * 2 ^ 52 - 1) * u <= 2 * (A + v)) by lia.
      assert (Hd : 2 * (A + v) < 2 * 2 ^ 76) by nia.
      change (2 ^ 52) with 4503599627370496 in *.
      change (2 ^ 76) with 75557863725914323419136 in *.
      change (2 ^ 25) with 33554432. change (2 ^ 23) with 8388608 in *.
      fold u. lia. }
    assert (Hstep : Z.abs (R - (A + v)) <= 2 ^ 23).
    { change (2 ^ 24) with (2 * 2 ^ 23) in Hsmall. lia. }
    destruct (IH M1 E1 HM1 HE1) as (M2 & E2 & Heq & HM2 & HE2 & Hrest).
    { change (Z.pos M1 * 2 ^ (E1 + 52)) with R. fold n. lia. }
    exists M2, E2. split; [exact Heq|]. split; [exact HM2|]. split; [exact HE2|].
    change (Z.pos M1 * 2 ^ (E1 + 52)) with R in Hrest. fold n in Hrest.
    rewrite length_cons, Nat2Z.inj_succ. fold n.
    unfold sum52 in *. cbn [map sumZ fold_right exact52]. fold (sumZ (map exact52 rs)).
    fold v.
    set (T := sumZ (map exact52 rs)) in *. set (F := Z.pos M2 * 2 ^ (E2 + 52)) in *.
    clearbody T F R A v u n. lia.
Qed.

(** A normal number divided by a count, on the scale 2^-52. *)
Lemma div_by_count (M : positive) (E : Z) (n : positive) :
  2 ^ 52 <= Z.pos M < 2 ^ 53 -> -52 <= E -> Z.pos n < 2 ^ 32 ->
  Z.pos M * 2 ^ (E + 52) <= 6 * Z.pos n * 2 ^ 52 ->
  exists (m : positive) (Eq : Z),
    JS.div (S754_finite false M E) (JS.of_Z (Z.pos n)) = S754_finite false m (- Eq) /\
    2 ^ 52 <= Z.pos m < 2 ^ 53 /\ 0 < Eq <= 105 /\
    2 * Z.abs (Z.pos m * Z.pos n * 2 ^ 52 - Z.pos M * 2 ^ (E + 52) * 2 ^ Eq)
      <= Z.pos n * 2 ^ 52.
Proof.
  intros HM HE Hn Hmag.
  destruct (@of_Z_normal n ltac:(lia)) as (mn & -> & Hmn & Hnn).
  pose proof (@digits_range n 0 32 ltac:(lia) ltac:(lia)) as Hdn.
  pose proof (digits2_pos_bounds n) as Hbn.
  set (dn := Z.pos (digits2_pos n)) in *.
  assert (HEd : E <= dn - 50).
  { assert (Hu : 0 < 2 ^ (E + 52)) by (apply Z.pow_pos_nonneg; lia).
    assert (H1 : 2 ^ 52 * 2 ^ (E + 52) <= 6 * Z.pos n * 2 ^ 52) by nia.
    assert (H2 : 2 ^ (E + 52) <= 6 * Z.pos n) by nia.
    assert (H3 : 2 ^ (E + 52) < 2 ^ (dn + 3)).
    { rewrite (Z.pow_add_r 2 dn 3) by (clear - Hdn; lia). change (2 ^ 3) with 8.
      assert (0 < 2 ^ dn) by (apply Z.pow_pos_nonneg; lia). lia. }
    apply Z.pow_lt_mono_r_iff in H3; lia. }
  destruct (@div_normal M mn E (dn - 53) HM Hnn ltac:(lia) ltac:(lia))
    as (m & j & Heq & Hm & Hj & Herr).
  exists m, (dn - j - E). split; [rewrite Heq; f_equal; lia|].
  split; [exact Hm|]. split; [lia|].
  rewrite Hmn in Herr.
  set (a := 53 - dn) in *.
  set (W := 2 ^ (a + j)).
  assert (HW : 0 < W) by (apply Z.pow_pos_nonneg; unfold a; lia).
  assert (HWs : 2 ^ j * (Z.pos n * 2 ^ a) = Z.pos n * W).
  { unfold W. rewrite Z.pow_add_r by (unfold a; lia). ring. }
  rewrite HWs in Herr.
  assert (Hpow : 2 ^ 53 * 2 ^ 52 = 2 ^ (E + 52) * 2 ^ (dn - j - E) * W).
  { unfold W. rewrite <- !Z.pow_add_r by (unfold a; lia). f_equal. unfold a. lia. }
  apply (Z.mul_le_mono_pos_l _ _ W HW).
  pose proof (@scale_half (2 ^ 52) _ _ ltac:(lia) Herr) as Hs.
  replace (2 ^ 52 * (Z.pos m * (Z.pos n * W) - Z.pos M * 2 ^ 53))
    with (W * (Z.pos m * Z.pos n * 2 ^ 52 - Z.pos M * 2 ^ (E + 52) * 2 ^ (dn - j - E))) in Hs.
  2:{ transitivity (Z.pos m * Z.pos n * 2 ^ 52 * W - Z.pos M * (2 ^ 53 * 2 ^ 52)); [|ring].
      rewrite Hpow. ring. }
  rewrite Z.abs_mul, (Z.abs_eq W) in Hs by lia.
  set (X := Z.abs (Z.pos m * Z.pos n * 2 ^ 52 - Z.pos M * 2 ^ (E + 52) * 2 ^ (dn - j - E))) in *.
  replace (W * (2 * X)) with (2 * (W * X)) by ring.
  replace (W * (Z.pos n * 2 ^ 52)) with (2 ^ 52 * (Z.pos n * W)) by ring.
  exact Hs.
Qed.

(** The roundings of the sum, of the quotient, of its multiple and of
    [Math.round] together move the result by little. *)
Lemma nearest_after_sum (K c A t m m' kk U U2 J S d : Z) :
  0 < t -> 0 < K -> 0 < U -> 0 <= J -> 0 < S -> 0 <= d -> U = U2 * J ->
  Z.abs (A - c) <= d ->
  2 * Z.abs (m * t * S - A * U) <= t * S ->
  2 * Z.abs (m' * J - m * K) <= J ->
  2 * Z.abs (kk * U2 - m') <= U2 ->
  (K + J) * S <= 2 ^ 9 * U ->
  2 * Z.abs (K * c - kk * t * S) <= t * S + 2 * K * d + 2 ^ 9 * t.
Proof.
  intros Ht HK HU HJ HS Hd HUJ Hs Ha Hb Hc Hscale.
  assert (Hdec : (K * c - kk * t * S) * U =
                 K * U * (c - A) + K * (A * U - m * t * S)
                 + t * S * (m * K - m' * J) + t * S * J * (m' - kk * U2)).
  { rewrite HUJ. ring. }
  assert (Hs' : Z.abs (c - A) <= d).
  { rewrite <- Z.abs_opp. now replace (- (c - A)) with (A - c) by ring. }
  assert (Ha' : 2 * Z.abs (A * U - m * t * S) <= t * S).
  { rewrite <- Z.abs_opp. now replace (- (A * U - m * t * S)) with (m * t * S - A * U) by ring. }
  assert (Hb' : 2 * Z.abs (m * K - m' * J) <= J).
  { rewrite <- Z.abs_opp. now replace (- (m * K - m' * J)) with (m' * J - m * K) by ring. }
  assert (Hc' : 2 * Z.abs (m' - kk * U2) <= U2).
  { rewrite <- Z.abs_opp. now replace (- (m' - kk * U2)) with (kk * U2 - m') by ring. }
  assert (T0 : Z.abs (K * U * (c - A)) <= K * U * d).
  { rewrite Z.abs_mul, (Z.abs_eq (K * U)) by nia.
    apply Z.mul_le_mono_nonneg_l; [nia|exact Hs']. }
  pose proof (@scale_half K _ _ ltac:(lia) Ha') as T1.
  pose proof (@scale_half (t * S) _ _ ltac:(nia) Hb') as T2.
  pose proof (@scale_half (t * S * J) _ _ ltac:(nia) Hc') as T3.
  replace (t * S * J * U2) with (t * S * U) in T3 by (rewrite HUJ; ring).
  set (a0 := K * U * (c - A)) in *. set (a1 := K * (A * U - m * t * S)) in *.
  set (a2 := t * S * (m * K - m' * J)) in *. set (a3 := t * S * J * (m' - kk * U2)) in *.
  pose proof (Z.abs_triangle (a0 + a1 + a2) a3) as R1.
  pose proof (Z.abs_triangle (a0 + a1) a2) as R2.
  pose proof (Z.abs_triangle a0 a1) as R3.
  rewrite <- Hdec, Z.abs_mul, (Z.abs_eq U) in R1 by lia.
  set (X := Z.abs (K * c - kk * t * S)) in *.
  assert (Hsum : 2 * (X * U) <= 2 * (K * U * d) + K * (t * S) + t * S * J + t * S * U) by lia.
  assert (Hsc : (K + J) * S * t <= 2 ^ 9 * U * t) by (apply Z.mul_le_mono_nonneg_r; lia).
  assert (Hfin : (2 * X) * U <= (t * S + 2 * K * d + 2 ^ 9 * t) * U).
  { clearbody X a0 a1 a2 a3. nia. }
  apply Z.mul_le_mono_pos_r in Hfin; [exact Hfin|exact HU].
Qed.

(** The exact sum of valid ratings. *)
Lemma sum52_bounds (rs : list JS.Number) :
  Forall validRating rs ->
  2 ^ 52 * Z.of_nat (length rs) <= sum52 rs <= 5 * 2 ^ 52 * Z.of_nat (length rs).
Proof.
  unfold sum52. induction 1 as [|r rs Hr _ IH]; [simpl; lia|].
  destruct (rating_normal Hr) as (m & e & _ & _ & _ & Hv).
  cbn [map sumZ fold_right]. fold (sumZ (map exact52 rs)).
  rewrite length_cons, Nat2Z.inj_succ. lia.
Qed.

(** The arithmetic of [getAverageRating] on ratings that are doubles in
    [1, 5]: the rounded tenths are an integer nearest to ten times the
    mean, up to 2^-25. *)
Lemma tenths_near (rs : list JS.Number) :
  Forall validRating rs -> rs <> [] -> Z.of_nat (length rs) <= maxEntries ->
  exists k : Z,
    JS.Math_round
      (JS.mul (JS.div (fold_left JS.add rs (JS.of_Z 0)) (JS.of_nat (length rs)))
              (JS.of_Z 10)) = JS.of_Z k /\
    10 <= k <= 50 /\
    2 * Z.abs (10 * sum52 rs - k * Z.of_nat (length rs) * 2 ^ 52)
      <= Z.of_nat (length rs) * 2 ^ 52 + Z.of_nat (length rs) * 2 ^ 28.
Proof.
  intros Hrs Hne Hlen. unfold maxEntries in Hlen.
  pose proof (sum52_bounds Hrs) as HV.
  destruct rs as [|r rs]; [congruence|]. clear Hne.
  inversion Hrs as [|? ? Hr Hrs']; subst.
  destruct (rating_normal Hr) as (m & e & -> & Hm & He & Hv).
  cbn [fold_left]. change (JS.add (JS.of_Z 0) (S754_finite false m e))
    with (S754_finite false m e).
  unfold sum52 in HV |- *. cbn [map sumZ fold_right] in HV |- *.
  fold (sumZ (map exact52 rs)) in HV |- *. fold (sum52 rs) in HV |- *.
  cbn [exact52] in Hv, HV |- *.
  set (v := Z.pos m * 2 ^ (e + 52)) in *.
  unfold JS.of_nat.
  rewrite length_cons, Nat2Z.inj_succ in *.
  set (n1 := Z.of_nat (length rs)) in *.
  assert (Hn1 : 0 <= n1 < 1048576) by (unfold n1; lia).
  assert (H52 : 2 ^ 52 = 4503599627370496) by reflexivity.
  assert (H23 : 2 ^ 23 = 8388608) by reflexivity.
  assert (H28 : 2 ^ 28 = 268435456) by reflexivity.
 
  destruct (@totalRating_near rs m e Hrs' Hm ltac:(lia)) as (M & E & -> & HM & HE & HA).
  { fold v n1. change (2 ^ 76) with 75557863725914323419136.
    rewrite H52, H23 in *. lia. }
  fold v n1 in HA.
  set (A := Z.pos M * 2 ^ (E + 52)) in *.
  set (V := v + sum52 rs) in *.
  destruct (Z.succ n1) as [|n|n] eqn:En; [lia| |lia].
  destruct (@div_by_count M E n HM HE) as (mq & Eq & -> & Hmq & HEq & Hq).
  { change (2 ^ 32) with 4294967296. lia. }
  { fold A. rewrite H52, H23 in *. lia. }
  fold A in Hq.
  destruct (@mul_of_Z mq Eq 10 Hmq HEq ltac:(reflexivity)) as (m' & j & -> & Hm' & Hj & Hp).
  set (U := 2 ^ Eq) in *. set (J := 2 ^ j) in *.
  assert (HU : 0 < U) by (apply Z.pow_pos_nonneg; lia).
  assert (HJ : 0 < J) by (apply Z.pow_pos_nonneg; lia).
  assert (H53 : 2 ^ 53 = 9007199254740992) by reflexivity.
  rewrite H52, H53 in *.
 
  assert (HJK : J <= 30).
  { assert (2 * (Z.pos m' * J) <= 2 * (Z.pos mq * 10) + J) by lia. nia. }
 
  assert (HUb : 40 * 8796093022208 <= U).
  { assert (H1 : 2 * (Z.pos mq * Z.pos n * 4503599627370496)
                 <= 2 * (A * U) + Z.pos n * 4503599627370496) by lia.
    assert (H2 : 2 * (4503599627370496 * Z.pos n * 4503599627370496)
                 <= 2 * (Z.pos mq * Z.pos n * 4503599627370496)) by nia.
    assert (H3 : A <= 6 * Z.pos n * 4503599627370496) by lia.
    assert (H4 : 2 * (A * U) <= 2 * (6 * Z.pos n * 4503599627370496 * U)) by nia.
    assert (H5 : (2 * 4503599627370496 - 1) * (Z.pos n * 4503599627370496)
                 <= (12 * U) * (Z.pos n * 4503599627370496)) by lia.
    apply Z.mul_le_mono_pos_r in H5; [lia|lia]. }
 
  assert (HjE : j < Eq).
  { assert (J < U) by lia. unfold J, U in *.
    apply (Z.pow_lt_mono_r_iff 2); lia. }
  replace (- Eq + j) with (- (Eq - j)) by lia.
  destruct (@Math_round_spec m' (Eq - j) ltac:(lia)) as (kk & -> & Hkk & Hcr).
  exists kk. split; [reflexivity|].
  assert (Hnear : 2 * Z.abs (10 * V - kk * Z.pos n * 4503599627370496)
                  <= Z.pos n * 4503599627370496 + 2 * 10 * (8388608 * n1) + 2 ^ 9 * Z.pos n).
  { apply (@nearest_after_sum 10 V A (Z.pos n) (Z.pos mq) (Z.pos m') kk U (2 ^ (Eq - j)) J
             4503599627370496 (8388608 * n1)); try lia.
    unfold U, J. rewrite <- Z.pow_add_r by lia. f_equal. lia. }
  change (2 ^ 9) with 512 in Hnear.
  split.
  - assert (Hn : 0 < Z.pos n) by lia.
    set (N := Z.pos n) in *. clearbody N V A U J.
    split.
    + destruct (Z.le_gt_cases 10 kk) as [|Hlt]; [assumption|exfalso].
      assert (kk * N <= 9 * N) by (apply Z.mul_le_mono_nonneg_r; lia). lia.
    + destruct (Z.le_gt_cases kk 50) as [|Hgt]; [assumption|exfalso].
      assert (51 * N <= kk * N) by (apply Z.mul_le_mono_nonneg_r; lia). lia.
  - lia.
Qed.

End Binary64.

(** ** getCompletionPercentage *)

(** C4, as amended.  [getCompletionPercentage] returns 0 when [totalTasks]
    is 0, the division being guarded.  Otherwise, for counts that are
    array lengths, its value in double arithmetic is an integer nearest to
    [100 * completedTasksCount / totalTasks]: it is that quotient rounded
    half up, or the integer just below when the quotient lies exactly
    halfway between two integers. *)
Theorem getCompletionPercentage_nearest (p : Progress) :
  (totalTasks p = 0 -> getCompletionPercentage p = JS.of_Z 0) /\
  (0 < totalTasks p ->
   (Z.of_nat (totalTasks p) <= maxArrayLength)%Z ->
   (Z.of_nat (completedTasksCount p) <= maxArrayLength)%Z ->
   let c := Z.of_nat (completedTasksCount p) in
   let t := Z.of_nat (totalTasks p) in
   exists k : Z,
     getCompletionPercentage p = JS.of_Z k /\
     (2 * Z.abs (100 * c - k * t) <= t)%Z /\
     (k = roundHalfUp (100 * c) t \/
      (k + 1 = roundHalfUp (100 * c) t /\ 2 * (100 * c - k * t) = t)%Z)).
Proof.
  split.
  - intro H0. unfold getCompletionPercentage. now rewrite H0.
  - intros Hpos Ht Hc c t. unfold maxArrayLength in *.
    unfold getCompletionPercentage.
    destruct (Nat.eqb_spec (totalTasks p) 0) as [E|_]; [lia|].
    unfold JS.of_nat. fold c t.
    destruct (@round_scaled_quotient_whole c t 100%Z) as (k & Hk & _ & Hnear);
      [unfold c; lia|unfold t; lia|lia|].
    exists k. split; [exact Hk|]. split; [exact Hnear|].
    apply nearest_roundHalfUp; [unfold t; lia|exact Hnear].
Qed.

Lemma getCompletionPercentage_nearest_witness :
  getCompletionPercentage (progressWithCounts 1 0) = JS.of_Z 0 /\
  exists k : Z,
    getCompletionPercentage (progressWithCounts 1 4) = JS.of_Z k /\
    (2 * Z.abs (100 * 1 - k * 4) <= 4)%Z /\
    (k = roundHalfUp (100 * 1) 4 \/
     (k + 1 = roundHalfUp (100 * 1) 4 /\ 2 * (100 * 1 - k * 4) = 4)%Z).
Proof.
  split.
  - apply (proj1 (getCompletionPercentage_nearest (progressWithCounts 1 0))).
    reflexivity.
  - apply (proj2 (getCompletionPercentage_nearest (progressWithCounts 1 4)));
      unfold maxArrayLength; simpl; lia.
Defined.

(** C4, refuted as stated: with 23 tasks completed of 40 the method
    returns 57, the double product [(23 / 40) * 100] lying just below
    57.5, whereas [100 * 23 / 40] rounds to 58. *)
Lemma getCompletionPercentage_not_rounded_quotient :
  getCompletionPercentage (progressWithCounts 23 40) = JS.of_Z 57 /\
  roundHalfUp (100 * 23) 40 = 58%Z /\
  ~ (forall p : Progress,
       totalTasks p <> 0 ->
       getCompletionPercentage p =
       JS.of_Z (roundHalfUp (100 * Z.of_nat (completedTasksCount p))
                            (Z.of_nat (totalTasks p)))).
Proof.
  split; [vm_compute; reflexivity|]. split; [reflexivity|].
  intro H. specialize (H (progressWithCounts 23 40) ltac:(simpl; lia)).
  vm_compute in H. discriminate H.
Qed.

(** ** getAverageRating *)

Lemma tenths_checked :
  forallb (fun n => forallb (fun s => tenthsExact s n) (seq n (S (4 * n))))
          (seq 1 maxRated) = true.
Proof. vm_compute. reflexivity. Qed.

Lemma tenths_whole (s n : nat) :
  1 <= n <= maxRated -> n <= s <= 5 * n ->
  JS.Math_round (JS.mul (JS.div (JS.of_nat s) (JS.of_nat n)) (JS.of_Z 10)) =
  JS.of_Z (roundHalfUp (10 * Z.of_nat s) (Z.of_nat n)).
Proof.
  intros Hn Hs. apply same_eq.
  pose proof tenths_checked as H.
  rewrite forallb_forall in H. specialize (H n).
  rewrite forallb_forall in H.
  apply H; apply in_seq; unfold maxRated in *; lia.
Qed.

Lemma fold_left_operand (A B : Type) (f : A -> A -> A) (g : B -> A) (l : list B) (a : A) :
  fold_left (fun acc x => f acc (g x)) l a = fold_left f (map g l) a.
Proof. revert a. induction l as [|x l IH]; intro a; simpl; [reflexivity|apply IH]. Qed.

Lemma sumZ_bounds (rs : list Z) :
  Forall (fun r => 1 <= r <= 5)%Z rs ->
  (Z.of_nat (length rs) <= sumZ rs <= 5 * Z.of_nat (length rs))%Z.
Proof.
  induction 1 as [|r rs Hr _ IH]; simpl length; simpl sumZ; lia.
Qed.

(** The running total of whole ratings is the whole sum: no addition
    rounds. *)
Lemma totalRating_whole (rs : list Z) (acc : Z) :
  Forall (fun r => 1 <= r <= 5)%Z rs ->
  (0 <= acc)%Z ->
  (acc + 5 * Z.of_nat (length rs) < 2 ^ 53)%Z ->
  fold_left JS.add (map JS.of_Z rs) (JS.of_Z acc) = JS.of_Z (acc + sumZ rs).
Proof.
  intro H. revert acc.
  induction H as [|r rs Hr Hrs IH]; intros acc Hacc Hsum;
    cbn [map fold_left sumZ fold_right] in *.
  - now rewrite Z.add_0_r.
  - rewrite length_cons, Nat2Z.inj_succ in Hsum.
    rewrite add_whole by lia.
    rewrite IH by lia.
    fold (sumZ rs). f_equal. lia.
Qed.

(** An entry without a rating is not counted. *)
Lemma filter_unrated (l : list TaskProgress) :
  (forall tp, In tp l -> coachRating tp = None) -> filter isRated l = [].
Proof.
  induction l as [|tp l IH]; intro H; [reflexivity|].
  simpl. unfold isRated at 1. rewrite (H tp (or_introl eq_refl)).
  apply IH. intros x Hx. apply H. now right.
Qed.

(** The arithmetic of [getAverageRating] on the rated values. *)
Lemma getAverageRating_run (p : Progress) :
  ratedValues p <> [] ->
  getAverageRating p =
  JS.div (JS.Math_round
            (JS.mul (JS.div (fold_left JS.add (ratedValues p) (JS.of_Z 0))
                            (JS.of_nat (length (ratedValues p))))
                    (JS.of_Z 10)))
         (JS.of_Z 10).
Proof.
  intro Hne. unfold getAverageRating.
  assert (Hn : length (filter isRated (taskProgress p)) = length (ratedValues p)).
  { unfold ratedValues. symmetry. apply length_map. }
  rewrite Hn.
  destruct (Nat.eqb_spec (length (ratedValues p)) 0) as [E|E].
  { destruct (ratedValues p); [congruence|discriminate]. }
  rewrite fold_left_operand. reflexivity.
Qed.

(** The average of ratings that are doubles in [1, 5]. *)
Lemma getAverageRating_near (p : Progress) :
  ratedValues p <> [] ->
  Forall validRating (ratedValues p) ->
  (Z.of_nat (length (ratedValues p)) <= maxEntries)%Z ->
  exists k : Z,
    getAverageRating p = tenth k /\ (10 <= k <= 50)%Z /\
    (2 * Z.abs (10 * sum52 (ratedValues p)
                - k * Z.of_nat (length (ratedValues p)) * 2 ^ 52)
     <= Z.of_nat (length (ratedValues p)) * 2 ^ 52
        + Z.of_nat (length (ratedValues p)) * 2 ^ 28)%Z.
Proof.
  intros Hne Hv Hlen.
  destruct (tenths_near Hv Hne Hlen) as (k & Hk & Hrange & Hnear).
  exists k. rewrite getAverageRating_run by exact Hne. rewrite Hk.
  split; [reflexivity|]. split; assumption.
Qed.

(** C5, as amended.  [getAverageRating] returns 0 when no entry of
    [taskProgress] has a [coachRating].  Otherwise, the ratings being
    doubles in [1, 5] and the rated entries at most 2^20, it returns
    [k / 10] as a double, where the tenths [k] are an integer from 10 to
    50 within 1/2 + 2^-25 of ten times the arithmetic mean of the ratings:
    the mean rounded to one decimal place, up to the rounding of double
    arithmetic next to a midpoint between two tenths.  When the ratings
    are whole numbers the tenths are an integer nearest to ten times the
    mean and, for up to [maxRated] rated entries, the mean rounded half
    up; two rated entries with ratings 4 and 5 give 4.5. *)
Theorem getAverageRating_mean (p : Progress) :
  ((forall tp, In tp (taskProgress p) -> coachRating tp = None) ->
   getAverageRating p = JS.of_Z 0) /\
  (ratedValues p <> [] ->
   Forall validRating (ratedValues p) ->
   (Z.of_nat (length (ratedValues p)) <= maxEntries)%Z ->
   exists k : Z,
     getAverageRating p = tenth k /\ (10 <= k <= 50)%Z /\
     (2 * Z.abs (10 * sum52 (ratedValues p)
                 - k * Z.of_nat (length (ratedValues p)) * 2 ^ 52)
      <= Z.of_nat (length (ratedValues p)) * 2 ^ 52
         + Z.of_nat (length (ratedValues p)) * 2 ^ 28)%Z) /\
  (forall rs : list Z,
     ratedValues p = map JS.of_Z rs -> rs <> [] ->
     Forall (fun r => 1 <= r <= 5)%Z rs ->
     (Z.of_nat (length rs) <= maxArrayLength)%Z ->
     (exists k : Z,
        getAverageRating p = tenth k /\
        (2 * Z.abs (10 * sumZ rs - k * Z.of_nat (length rs)) <= Z.of_nat (length rs))%Z) /\
     (length rs <= maxRated ->
      getAverageRating p = tenth (roundHalfUp (10 * sumZ rs) (Z.of_nat (length rs)))) /\
     (rs = [4; 5]%Z -> getAverageRating p = JS.div (JS.of_Z 9) (JS.of_Z 2))).
Proof.
  split; [|split].
  - intro Hnone. unfold getAverageRating.
    rewrite (filter_unrated _ Hnone). reflexivity.
  - apply getAverageRating_near.
  - intros rs Hv Hne Hrs Hlen. unfold maxArrayLength in Hlen.
    pose proof (sumZ_bounds Hrs) as Hb.
    assert (Hpos : length rs <> 0) by (destruct rs; [congruence|discriminate]).
    assert (Hrun :
      getAverageRating p =
      JS.div (JS.Math_round
                (JS.mul (JS.div (JS.of_Z (sumZ rs)) (JS.of_Z (Z.of_nat (length rs))))
                        (JS.of_Z 10)))
             (JS.of_Z 10)).
    { rewrite getAverageRating_run by (rewrite Hv; destruct rs; [congruence|discriminate]).
      rewrite Hv, length_map.
      rewrite totalRating_whole by (trivial; lia).
      reflexivity. }
    assert (Hmean : length rs <= maxRated ->
      getAverageRating p = tenth (roundHalfUp (10 * sumZ rs) (Z.of_nat (length rs)))).
    { intros Hsmall. rewrite Hrun. unfold tenth.
      replace (JS.of_Z (sumZ rs)) with (JS.of_nat (Z.to_nat (sumZ rs)))
        by (unfold JS.of_nat; now rewrite Z2Nat.id by lia).
      fold (JS.of_nat (length rs)).
      rewrite tenths_whole by lia.
      now rewrite Z2Nat.id by lia. }
    split; [|split].
    + rewrite Hrun.
      destruct (@round_scaled_quotient_whole (sumZ rs) (Z.of_nat (length rs)) 10%Z)
        as (k & Hk & _ & Hnear); [lia|lia|lia|].
      exists k. rewrite Hk. split; [reflexivity|exact Hnear].
    + exact Hmean.
    + intro E. rewrite Hmean; subst rs; [|unfold maxRated; simpl; lia].
      vm_compute. reflexivity.
Qed.

Lemma getAverageRating_mean_witness :
  getAverageRating (progressWithEntries [ratedEntry 1 4; castTaskProgress 2 []; ratedEntry 3 5])
  = JS.div (JS.of_Z 9) (JS.of_Z 2) /\
  exists k : Z, getAverageRating fourRatings = tenth k /\ (10 <= k <= 50)%Z.
Proof.
  split.
  - apply (proj2 (proj2 (getAverageRating_mean
             (progressWithEntries [ratedEntry 1 4; castTaskProgress 2 []; ratedEntry 3 5])))
             [4; 5]%Z).
    + reflexivity.
    + discriminate.
    + repeat constructor; lia.
    + unfold maxArrayLength. simpl. lia.
    + reflexivity.
  - destruct (proj1 (proj2 (getAverageRating_mean fourRatings))) as (k & Hk & Hrange & _).
    + vm_compute. discriminate.
    + apply Forall_forall. intros r Hin. vm_compute in Hin.
      destruct Hin as [<-|[<-|[<-|[<-|[]]]]]; split; vm_compute; reflexivity.
    + vm_compute. discriminate.
    + exists k. split; assumption.
Defined.

(** C5, refuted as stated: a mean next to a midpoint between two tenths
    may be rounded to the farther one.  The ratings 2.1, 1, 1 and 2.1 are
    valid; their mean is above 1.55 as the doubles the record stores (2.1
    is stored as a double above 2.1) and is 1.55 as decimals, which
    rounds half up to 1.6; the method returns 1.5, the running total
    having lost the excess. *)
Lemma getAverageRating_not_nearest_tenth :
  Forall validRating (ratedValues fourRatings) /\
  getAverageRating fourRatings = tenth 15 /\
  (4 * 2 ^ 52 < 2 * (10 * sum52 (ratedValues fourRatings) - 15 * (4 * 2 ^ 52)))%Z /\
  roundHalfUp (10 * (21 + 10 + 10 + 21)) (10 * 4) = 16%Z /\
  ~ (forall p : Progress,
       ratedValues p <> [] -> Forall validRating (ratedValues p) ->
       getAverageRating p =
       tenth (roundHalfUp (10 * sum52 (ratedValues p))
                          (Z.of_nat (length (ratedValues p)) * 2 ^ 52))).
Proof.
  assert (Hv : Forall validRating (ratedValues fourRatings)).
  { apply Forall_forall. intros r Hin. vm_compute in Hin.
    destruct Hin as [<-|[<-|[<-|[<-|[]]]]]; split; vm_compute; reflexivity. }
  split; [exact Hv|]. split; [vm_compute; reflexivity|].
  split; [vm_compute; reflexivity|]. split; [reflexivity|].
  intro H. specialize (H fourRatings ltac:(vm_compute; discriminate) Hv).
  vm_compute in H. discriminate H.
Qed.

(** ** Mongoose operations *)

Section Membership.
Variable D : Type.

Lemma In_updateOne (f : D -> bool) (g : D -> D) (c : list D) (x : D) :
  In x (updateOne f g c) -> In x c \/ exists y, In y c /\ f y = true /\ x = g y.
Proof.
  induction c as [|d c IH]; simpl; [tauto|].
  destruct (f d) eqn:E; simpl.
  - intros [<-|H]; [right; exists d; auto|auto].
  - intros [<-|H]; [auto|].
    destruct (IH H) as [H'|(y & Hy & Hfy & ->)]; [auto|].
    right. exists y. auto.
Qed.

End Membership.

Section CollectionFacts.
Variable D : Type.
Variable idOf : D -> ObjectId.

Lemma find_save_loaded (f : D -> bool) (c : list D) (d0 d : D) :
  find f c = Some d0 -> idOf d = idOf d0 -> f d = true ->
  find f (save idOf false d c) = Some d.
Proof.
  intros Hfind Hid Hf. unfold save.
  induction c as [|x c IH]; simpl in *; [discriminate|].
  destruct (f x) eqn:Efx.
  - injection Hfind as ->. rewrite Hid, Nat.eqb_refl. simpl. now rewrite Hf.
  - destruct (idOf x =? idOf d); simpl.
    + now rewrite Hf.
    + rewrite Efx. now apply IH.
Qed.

Lemma find_save_new (f : D -> bool) (c : list D) (d : D) :
  find f c = None -> f d = true -> find f (save idOf true d c) = Some d.
Proof.
  intros Hfind Hf. unfold save.
  induction c as [|x c IH]; simpl in *.
  - now rewrite Hf.
  - destruct (f x); [discriminate|]. now apply IH.
Qed.

Lemma In_populate (c : list D) (ids : list ObjectId) (d : D) :
  In d (populate idOf c ids) <-> In (idOf d) ids /\ findById idOf c (idOf d) = Some d.
Proof.
  unfold populate. rewrite in_flat_map. split.
  - intros (id & Hid & H). unfold findById in *.
    destruct (find (fun x => idOf x =? id) c) as [x|] eqn:E; simpl in H; [|tauto].
    destruct H as [<-|[]].
    pose proof (find_some _ _ E) as [_ Ex]. apply Nat.eqb_eq in Ex. subst id.
    split; [exact Hid|exact E].
  - intros [Hid H]. exists (idOf d). split; [exact Hid|]. rewrite H. now left.
Qed.

End CollectionFacts.

Lemma includes_In (id : ObjectId) (a : list ObjectId) :
  includes id a = true <-> In id a.
Proof.
  unfold includes. rewrite existsb_exists. split.
  - intros (x & Hx & E). apply Nat.eqb_eq in E. now subst.
  - intro H. exists id. split; [exact H|apply Nat.eqb_refl].
Qed.

Lemma not_In_pull (id : ObjectId) (a : list ObjectId) : ~ In id (pull id a).
Proof.
  unfold pull. intro H. apply filter_In in H as [_ H].
  now rewrite Nat.eqb_refl in H.
Qed.

(** ** The tasks of a course *)

(** [allTasks] lists the tasks reachable from the skills of the course:
    the ids a skill of the course names that name a document of the Task
    collection. *)
Lemma allTasks_reachable (db : DB) (courseId taskId : ObjectId) :
  In taskId (allTasks db courseId) <->
  exists skill task,
    In skill (skills db) /\ skill_course skill = courseId /\
    In taskId (skill_tasks skill) /\
    findById task_id (tasks db) taskId = Some task.
Proof.
  unfold allTasks, skillsWithTasks. rewrite in_flat_map. split.
  - intros ([skill ts] & Hst & Ht). simpl in Ht.
    apply in_map_iff in Hst as (s & E & Hs). injection E as -> <-.
    apply filter_In in Hs as [Hs Hc]. apply Nat.eqb_eq in Hc.
    apply in_map_iff in Ht as (task & <- & Htask).
    apply In_populate in Htask as [Hin Hfind].
    exists skill, task. auto.
  - intros (skill & task & Hs & Hc & Hin & Hfind).
    exists (skill, populate task_id (tasks db) (skill_tasks skill)). split.
    + apply in_map_iff. exists skill. split; [reflexivity|].
      apply filter_In. split; [exact Hs|]. now apply Nat.eqb_eq.
    + simpl. apply in_map_iff. exists task.
      assert (E : task_id task = taskId).
      { unfold findById in Hfind. apply find_some in Hfind as [_ E].
        now apply Nat.eqb_eq in E. }
      split; [exact E|]. apply In_populate. rewrite E. auto.
Qed.

Lemma allTasks_ext (db db' : DB) (courseId : ObjectId) :
  skills db' = skills db -> tasks db' = tasks db ->
  allTasks db' courseId = allTasks db courseId.
Proof. unfold allTasks, skillsWithTasks. now intros -> ->. Qed.

(** ** POST /progress/complete-task and GET /progress/:courseId *)

(** The badge block writes the Student collection only. *)
Lemma awardBadges_frame (db : DB) (reqUser : User) :
  let db' := snd (awardBadges db reqUser) in
  users db' = users db /\ badges db' = badges db /\ courses db' = courses db /\
  skills db' = skills db /\ tasks db' = tasks db /\ progresses db' = progresses db.
Proof.
  unfold awardBadges.
  destruct (findStudent db reqUser) as [student|]; [|simpl; tauto].
  destruct (findBadge db) as [badge|]; [|simpl; tauto].
  destruct (_ && _); simpl; tauto.
Qed.

Lemma completeTask_run (env : Env) (db : DB) (reqUser : User) (taskId courseId : ObjectId) :
  let stored := findProgress db (user_id reqUser) courseId in
  let loaded := match stored with
                | Some p => p
                | None => newProgress env (user_id reqUser) courseId
                end in
  let isNew := match stored with Some _ => false | None => true end in
  let pushed := if includes taskId (completedTasks loaded) then loaded
                else setCompletedTasks loaded (completedTasks loaded ++ [taskId]) in
  let progress := setCounts pushed (length (completedTasks pushed))
                            (length (allTasks db courseId)) in
  let saved := setProgresses db (save progress_id isNew progress (progresses db)) in
  completeTask env db reqUser taskId courseId =
  (reply 201 (CompleteTaskBody progress (fst (awardBadges saved reqUser))),
   snd (awardBadges saved reqUser)).
Proof.
  unfold completeTask.
  destruct (findProgress db (user_id reqUser) courseId) as [p|]; cbv zeta;
    destruct (awardBadges _ reqUser); reflexivity.
Qed.

(** X28.  Where the derived counts are recomputed.  Immediately after any
    completeTask call the record of the (user, course) pair has
    [completedTasksCount] equal to the size of its [completedTasks]
    (which holds the task) and [totalTasks] equal to the number of tasks
    reachable from the skills the course has at that moment.  The
    student's own read, GET /progress/:courseId, recomputes both counts as
    well and writes them back: there the count of completed tasks is the
    size of the populated array, the completed tasks still in the
    catalog.  Whatever the coach's report, GET
    /courses/:id/student/:studentId/progress, sends as counts is what the
    record stores. *)
Theorem derived_counts_recomputed (env : Env) (db : DB) (reqUser : User)
    (courseId : ObjectId) :
  (forall taskId : ObjectId,
     let result := completeTask env db reqUser taskId courseId in
     exists progress newBadges,
       fst result = reply 201 (CompleteTaskBody progress newBadges) /\
       findProgress (snd result) (user_id reqUser) courseId = Some progress /\
       In taskId (completedTasks progress) /\
       completedTasksCount progress = length (completedTasks progress) /\
       totalTasks progress = length (allTasks (snd result) courseId)) /\
  (forall stored : Progress,
     findProgress db (user_id reqUser) courseId = Some stored ->
     let result := getProgress db reqUser courseId in
     let populated := populate task_id (tasks db) (completedTasks stored) in
     exists progress,
       fst result = reply 200 (ProgressBody progress populated) /\
       findProgress (snd result) (user_id reqUser) courseId = Some progress /\
       completedTasks progress = completedTasks stored /\
       completedTasksCount progress = length populated /\
       totalTasks progress = length (allTasks (snd result) courseId)) /\
  (forall (id studentId : ObjectId) (count total : nat),
     reportedCounts (fst (getStudentProgress db reqUser id studentId)) = Some (count, total) ->
     exists stored,
       findProgress db studentId id = Some stored /\
       count = completedTasksCount stored /\ total = totalTasks stored).
Proof.
  split; [|split].
  - intros taskId result. subst result. rewrite completeTask_run. cbv zeta.
    set (stored := findProgress db (user_id reqUser) courseId).
    set (loaded := match stored with Some p => p | None => _ end).
    set (pushed := if includes taskId (completedTasks loaded) then loaded else _).
    set (progress := setCounts pushed _ _).
    set (saved := setProgresses db _).
    exists progress, (fst (awardBadges saved reqUser)). simpl fst. simpl snd.
    destruct (awardBadges_frame saved reqUser) as (_ & _ & _ & Hs & Ht & Hp).
    assert (Hkey : progress_user loaded = user_id reqUser /\
                   progress_course loaded = courseId).
    { subst loaded. destruct stored as [p|] eqn:E; [|simpl; auto].
      unfold stored, findProgress in E. apply find_some in E as [_ E].
      apply andb_prop in E as [E1 E2].
      apply Nat.eqb_eq in E1, E2. auto. }
    assert (Hpushed : progress_user pushed = progress_user loaded /\
                      progress_course pushed = progress_course loaded /\
                      progress_id pushed = progress_id loaded /\
                      In taskId (completedTasks pushed)).
    { subst pushed. destruct (includes taskId (completedTasks loaded)) eqn:I.
      - apply includes_In in I. auto.
      - simpl. repeat split. apply in_or_app. right. now left. }
    destruct Hkey as [Hu Hc]. destruct Hpushed as (Hu' & Hc' & Hi' & Hin).
    split; [reflexivity|]. split; [|split; [exact Hin|split; [reflexivity|]]].
    + unfold findProgress. rewrite Hp. subst saved. simpl progresses.
      assert (Hmatch : (progress_user progress =? user_id reqUser)
                       && (progress_course progress =? courseId) = true).
      { simpl. rewrite Hu', Hc', Hu, Hc. now rewrite !Nat.eqb_refl. }
      destruct stored as [p|] eqn:E.
      * apply find_save_loaded with (d0 := p); [exact E| |exact Hmatch].
        simpl. exact Hi'.
      * apply find_save_new; [exact E|exact Hmatch].
    + simpl totalTasks. f_equal. symmetry.
      transitivity (allTasks saved courseId); apply allTasks_ext;
        solve [assumption|reflexivity].
  - intros stored Hstored result populated. subst result. unfold getProgress.
    rewrite Hstored. fold populated.
    set (progress := setCounts stored _ _). cbn [fst snd].
    exists progress. split; [reflexivity|].
    pose proof Hstored as Hmatch. unfold findProgress in Hmatch.
    apply find_some in Hmatch as [_ Hmatch].
    split; [|split; [reflexivity|split; [reflexivity|]]].
    + unfold findProgress. cbn [progresses setProgresses].
      apply find_save_loaded with (d0 := stored); [exact Hstored|reflexivity|exact Hmatch].
    + reflexivity.
  - intros id studentId count total. unfold getStudentProgress, coach.
    destruct (user_role reqUser); [discriminate|].
    destruct (findById course_id (courses db) id) as [course|]; [|discriminate].
    destruct (negb _); [discriminate|].
    destruct (findProgress db studentId id) as [stored|]; [|discriminate].
    cbn. intros [= <- <-]. exists stored. auto.
Qed.

Lemma derived_counts_recomputed_witness :
  let db := snd (submitTask env0 store0 student20 3 1 [homework]) in
  exists stored progress,
    findProgress db 20 1 = Some stored /\
    fst (getProgress db student20 1) =
      reply 200 (ProgressBody progress (populate task_id (tasks db) (completedTasks stored))) /\
    totalTasks stored = 0 /\
    totalTasks progress = 1.
Proof.
  intro db.
  assert (Hstored : exists stored, findProgress db (user_id student20) 1 = Some stored /\
                                   totalTasks stored = 0).
  { eexists. split; reflexivity. }
  destruct Hstored as (stored & Hstored & Htotal).
  destruct (proj1 (proj2 (derived_counts_recomputed env0 db student20 1)) stored Hstored)
    as (progress & Hbody & _ & _ & _ & Htot).
  exists stored, progress. split; [exact Hstored|]. split; [exact Hbody|].
  split; [exact Htotal|]. rewrite Htot. reflexivity.
Defined.

(** C1, at the read that breaks it.  After a first submission the record
    of student 20 stores [totalTasks = 0]; the coach's report GET
    /courses/:id/student/:studentId/progress sends the stored value, while
    the course has one task: this read does not recompute the counts, as
    the student's own read, the dashboard and the coach's task view do. *)
Lemma coach_report_reads_stored_counts :
  let db := snd (submitTask env0 store0 student20 3 1 [homework]) in
  reportedCounts (fst (getStudentProgress db coach10 1 20)) = Some (0, 0) /\
  length (allTasks db 1) = 1 /\
  ~ (forall (db : DB) (reqUser : User) (id studentId : ObjectId) (count total : nat),
       reportedCounts (fst (getStudentProgress db reqUser id studentId)) = Some (count, total) ->
       total = length (allTasks db id)).
Proof.
  intro db. split; [reflexivity|]. split; [reflexivity|].
  intro H. specialize (H db coach10 1 20 0 0 eq_refl). discriminate H.
Qed.

(** ** DELETE /skills/tasks/:taskId and DELETE /skills/:skillId *)

Section PrimaryKey.
Variable D : Type.
Variable idOf : D -> ObjectId.

(** With [_id] a key of the collection, the document deleted by its
    [_id] is gone. *)
Lemma findById_deleteOne (c : list D) (id : ObjectId) :
  NoDup (map idOf c) ->
  findById idOf (deleteOne (fun d => idOf d =? id) c) id = None.
Proof.
  unfold findById. induction c as [|d c IH]; simpl; [reflexivity|].
  intro H. inversion H as [|? ? Hnotin Hc]; subst.
  destruct (idOf d =? id) eqn:E.
  - apply Nat.eqb_eq in E. subst id.
    destruct (find (fun x => idOf x =? idOf d) c) as [x|] eqn:F; [|reflexivity].
    apply find_some in F as [Hx Ex]. apply Nat.eqb_eq in Ex.
    exfalso. apply Hnotin. rewrite <- Ex. now apply in_map.
  - simpl. rewrite E. now apply IH.
Qed.

Lemma findById_id (c : list D) (id : ObjectId) (d : D) :
  findById idOf c id = Some d -> idOf d = id.
Proof.
  unfold findById. intro H. apply find_some in H as [_ H]. now apply Nat.eqb_eq.
Qed.

(** [Model.updateOne({ _id: id }, update)] on a document that exists: the
    document found under the id afterwards is the updated one. *)
Lemma findById_updateOne (g : D -> D) (c : list D) (id : ObjectId) (d : D) :
  findById idOf c id = Some d -> idOf (g d) = id ->
  findById idOf (updateOne (fun x => idOf x =? id) g c) id = Some (g d).
Proof.
  unfold findById. intros Hfind Hid.
  induction c as [|x c IH]; simpl in *; [discriminate|].
  destruct (idOf x =? id) eqn:E.
  - injection Hfind as ->. simpl. now rewrite Hid, Nat.eqb_refl.
  - simpl. rewrite E. now apply IH.
Qed.

End PrimaryKey.

(** C2, as amended.  Deleting a task or a skill never writes a Progress
    record: the collection is left as it was, so a record that listed the
    task keeps listing it.  What a successful delete-task removes is the
    Task document (ids being keys of the collection) and the id of the
    task in the [tasks] array of its skill, when that skill exists; what
    a successful delete-skill removes is every Task of the skill, the
    Skill document and the id of the skill in the [skills] array of its
    course. *)
Theorem deletes_leave_progress (db : DB) (reqUser : User) (id : ObjectId) :
  progresses (snd (deleteTask db reqUser id)) = progresses db /\
  progresses (snd (deleteSkill db reqUser id)) = progresses db /\
  (status (fst (deleteTask db reqUser id)) = 200 ->
   NoDup (map task_id (tasks db)) ->
   findById task_id (tasks (snd (deleteTask db reqUser id))) id = None /\
   forall task skill,
     findById task_id (tasks db) id = Some task ->
     findById skill_id (skills db) (task_skill task) = Some skill ->
     exists skill',
       findById skill_id (skills (snd (deleteTask db reqUser id))) (task_skill task)
         = Some skill' /\
       skill_tasks skill' = pull id (skill_tasks skill) /\
       ~ In id (skill_tasks skill')) /\
  (status (fst (deleteSkill db reqUser id)) = 200 ->
   NoDup (map skill_id (skills db)) ->
   (forall task, In task (tasks (snd (deleteSkill db reqUser id))) -> task_skill task <> id) /\
   findById skill_id (skills (snd (deleteSkill db reqUser id))) id = None /\
   forall skill course,
     findById skill_id (skills db) id = Some skill ->
     findById course_id (courses db) (skill_course skill) = Some course ->
     exists course',
       findById course_id (courses (snd (deleteSkill db reqUser id))) (skill_course skill)
         = Some course' /\
       course_skills course' = pull id (course_skills course) /\
       ~ In id (course_skills course')).
Proof.
  unfold deleteTask, deleteSkill, coach.
  destruct (user_role reqUser); simpl.
  { repeat split; discriminate. }
  split; [|split; [|split]].
  - destruct (findById task_id (tasks db) id) as [task|]; [|reflexivity].
    destruct (findById skill_id (skills db) (task_skill task)) as [skill|]; [|reflexivity].
    destruct (findById course_id (courses db) (skill_course skill)) as [course|]; [|reflexivity].
    destruct (negb _); reflexivity.
  - destruct (findById skill_id (skills db) id) as [skill|]; [|reflexivity].
    destruct (findById course_id (courses db) (skill_course skill)) as [course|]; [|reflexivity].
    destruct (negb _); reflexivity.
  - destruct (findById task_id (tasks db) id) as [task|] eqn:Etask; [|discriminate].
    pose proof Etask as Eid. apply findById_id in Eid.
    destruct (findById skill_id (skills db) (task_skill task)) as [skill|] eqn:Eskill.
    + destruct (findById course_id (courses db) (skill_course skill)) as [course|];
        [|discriminate].
      destruct (negb _); [discriminate|]. simpl. intros _ Hkey. split.
      * rewrite Eid. now apply findById_deleteOne.
      * intros task0 skill0 [= <-] Hskill0. rewrite Eskill in Hskill0.
        injection Hskill0 as <-.
        exists (pullTask id skill). split; [|split].
        -- apply findById_updateOne; [exact Eskill|].
           apply findById_id in Eskill. exact Eskill.
        -- reflexivity.
        -- apply not_In_pull.
    + simpl. intros _ Hkey. split; [rewrite Eid; now apply findById_deleteOne|].
      intros task0 skill0 [= <-] Hskill0. rewrite Eskill in Hskill0. discriminate Hskill0.
  - destruct (findById skill_id (skills db) id) as [skill|] eqn:Eskill; [|discriminate].
    pose proof Eskill as Eid. apply findById_id in Eid.
    destruct (findById course_id (courses db) (skill_course skill)) as [course|] eqn:Ecourse;
      [|discriminate].
    destruct (negb _); [discriminate|]. simpl. intros _ Hkey. split; [|split].
    + intros task Htask. unfold deleteMany in Htask.
      apply filter_In in Htask as [_ Htask].
      apply negb_true_iff, Nat.eqb_neq in Htask. exact Htask.
    + rewrite Eid. now apply findById_deleteOne.
    + intros skill0 course0 [= <-] Hcourse0. rewrite Ecourse in Hcourse0.
      injection Hcourse0 as <-.
      exists (pullSkill id course). split; [|split].
      * apply findById_updateOne; [exact Ecourse|].
        apply findById_id in Ecourse. exact Ecourse.
      * reflexivity.
      * apply not_In_pull.
Qed.

Lemma deletes_leave_progress_witness :
  findById task_id (tasks (snd (deleteTask store1 coach10 3))) 3 = None /\
  (exists skill',
     findById skill_id (skills (snd (deleteTask store1 coach10 3))) 2 = Some skill' /\
     ~ In 3 (skill_tasks skill')) /\
  exists p, In p (progresses (snd (deleteTask store1 coach10 3))) /\ In 3 (completedTasks p).
Proof.
  destruct (proj1 (proj2 (proj2 (deletes_leave_progress store1 coach10 3))))
    as [Hgone Hpulled].
  - reflexivity.
  - repeat constructor. simpl. tauto.
  - split; [exact Hgone|]. split.
    + destruct (Hpulled task3 skill2 eq_refl eq_refl) as (skill' & Hfind & _ & Hnot).
      exists skill'. split; [exact Hfind|exact Hnot].
    + rewrite (proj1 (deletes_leave_progress store1 coach10 3)).
      eexists. split; [left; reflexivity|]. left. reflexivity.
Defined.

(** C2, refuted as stated: coach 10 deletes task 3 (and, from the same
    store, skill 2 which holds it); both requests succeed and the record
    of student 20 still lists task 3 as completed and still has its
    [taskProgress] entry. *)
Lemma deleted_task_still_referenced :
  let afterTask := deleteTask store1 coach10 3 in
  let afterSkill := deleteSkill store1 coach10 2 in
  (status (fst afterTask) = 200 /\
   findById task_id (tasks (snd afterTask)) 3 = None /\
   exists p, In p (progresses (snd afterTask)) /\
             In 3 (completedTasks p) /\
             exists tp, In tp (taskProgress p) /\ tp_task tp = 3) /\
  (status (fst afterSkill) = 200 /\
   findById task_id (tasks (snd afterSkill)) 3 = None /\
   exists p, In p (progresses (snd afterSkill)) /\
             In 3 (completedTasks p) /\
             exists tp, In tp (taskProgress p) /\ tp_task tp = 3) /\
  ~ (forall (db : DB) (reqUser : User) (taskId : ObjectId) (p : Progress),
       status (fst (deleteTask db reqUser taskId)) = 200 ->
       In p (progresses (snd (deleteTask db reqUser taskId))) ->
       ~ refersTo p taskId).
Proof.
  intros afterTask afterSkill.
  assert (Hp : exists p, In p (progresses store1) /\ In 3 (completedTasks p) /\
                         exists tp, In tp (taskProgress p) /\ tp_task tp = 3).
  { eexists. split; [left; reflexivity|]. split; [left; reflexivity|].
    eexists. split; [left; reflexivity|reflexivity]. }
  destruct Hp as (p & Hin & Hdone & Hentry).
  split; [|split].
  - split; [reflexivity|]. split; [reflexivity|]. exists p. auto.
  - split; [reflexivity|]. split; [reflexivity|]. exists p. auto.
  - intro H. apply (H store1 coach10 3 p); [reflexivity|exact Hin|].
    left. exact Hdone.
Qed.

(** ** POST /courses/:id/rate-task *)

Lemma SFcompare_antisym (x y : spec_float) :
  SFcompare y x = match SFcompare x y with
                  | Some c => Some (CompOpp c)
                  | None => None
                  end.
Proof.
  destruct x as [a|a| |a m e], y as [b|b| |b n f];
    try destruct a; try destruct b; simpl; try reflexivity;
    rewrite (Z.compare_antisym e f); destruct (e ?= f)%Z; simpl; try reflexivity;
    pose proof (Pos.compare_cont_antisym m n Eq) as H; simpl in H; rewrite <- H;
    destruct (Pos.compare_cont Eq m n); reflexivity.
Qed.

(** The guard of the handler rejects exactly the ratings outside
    [1, 5]. *)
Lemma invalidRating_inRange (rating : option JS.Number) :
  invalidRating rating = negb (inRange rating).
Proof.
  destruct rating as [r|]; [|reflexivity].
  unfold invalidRating, inRange, JS.ltb, JS.leb, SFltb, SFleb.
  rewrite (SFcompare_antisym r (JS.of_Z 1)), (SFcompare_antisym (JS.of_Z 5) r).
  rewrite one_finite, five_finite.
  destruct r as [a|a| |a m e]; try destruct a;
    cbn [SFcompare JS.falsy CompOpp negb andb orb]; try reflexivity;
    repeat match goal with
           | |- context [(?x ?= ?y)%Z] => destruct (x ?= y)%Z
           | |- context [Pos.compare_cont Eq ?x ?y] =>
               destruct (Pos.compare_cont Eq x y)
           end; reflexivity.
Qed.

Lemma findTaskProgress_nth (taskId : ObjectId) (l : list TaskProgress) (i : nat)
    (tp : TaskProgress) :
  findTaskProgress taskId l = Some (i, tp) ->
  nth_error l i = Some tp /\ tp_task tp = taskId.
Proof.
  revert i. induction l as [|x l IH]; simpl; intros i H; [discriminate|].
  destruct (Nat.eqb_spec (tp_task x) taskId) as [E|E].
  - injection H as <- <-. auto.
  - destruct (findTaskProgress taskId l) as [[j y]|]; [|discriminate].
    injection H as <- <-. simpl. now apply IH.
Qed.

Lemma nth_error_updateAt (A : Type) (f : A -> A) (l : list A) (i : nat) (x : A) :
  nth_error l i = Some x -> nth_error (updateAt i f l) i = Some (f x).
Proof.
  revert i. induction l as [|y l IH]; intros [|i]; simpl; try discriminate.
  - now intros [= ->].
  - apply IH.
Qed.

Lemma findProgress_key (db : DB) (userId courseId : ObjectId) (p : Progress) :
  findProgress db userId courseId = Some p ->
  progress_user p = userId /\ progress_course p = courseId.
Proof.
  unfold findProgress. intro H. apply find_some in H as [_ H].
  apply andb_prop in H as [H1 H2]. now apply Nat.eqb_eq in H1, H2.
Qed.

(** The rated values of the entries once the entry at [i] carries the
    rating [r]. *)
Lemma ratedValues_rate (P : JS.Number -> Prop) (r : JS.Number) (text : string)
    (at_ : Date) (l : list TaskProgress) (i : nat) :
  Forall P (map ratingOperand (filter isRated l)) -> P r ->
  Forall P (map ratingOperand (filter isRated (updateAt i (rate (Some r) text at_) l))).
Proof.
  intros Hl Hr. revert i Hl.
  induction l as [|x l IH]; intros i Hl; [destruct i; exact Hl|].
  assert (Hrest : Forall P (map ratingOperand (filter isRated l))).
  { cbn [filter] in Hl. destruct (isRated x); [|exact Hl].
    cbn [map] in Hl. now inversion Hl. }
  destruct i as [|i]; cbn [updateAt filter].
  - change (isRated (rate (Some r) text at_ x)) with true. cbn [map].
    constructor; assumption.
  - cbn [filter] in Hl. destruct (isRated x); cbn [map] in *.
    + inversion Hl; subst. constructor; [assumption|]. now apply IH.
    + now apply IH.
Qed.

Lemma ratedValues_rate_In (r : JS.Number) (text : string) (at_ : Date)
    (l : list TaskProgress) (i : nat) (tp : TaskProgress) :
  nth_error l i = Some tp ->
  In r (map ratingOperand (filter isRated (updateAt i (rate (Some r) text at_) l))).
Proof.
  revert i. induction l as [|x l IH]; intros i H; [destruct i; discriminate|].
  destruct i as [|i]; cbn [updateAt filter].
  - change (isRated (rate (Some r) text at_ x)) with true. now left.
  - simpl in H. destruct (isRated x); [right|]; now apply IH.
Qed.

Lemma ratedValues_rate_length (f : TaskProgress -> TaskProgress)
    (l : list TaskProgress) (i : nat) :
  length (map ratingOperand (filter isRated (updateAt i f l))) <= length l.
Proof.
  rewrite length_map.
  transitivity (length (updateAt i f l)); [apply filter_length_le|].
  apply Nat.eq_le_incl. revert i.
  induction l as [|x l IH]; intros [|i]; simpl; try reflexivity.
  now rewrite IH.
Qed.

(** C3, as amended.  The checks of rateTask run in the order role,
    rating, course, owner, record, entry, and the first that fails
    answers, without a write.  A caller without the coach role gets an
    authorization error.  A caller with the coach role gets a validation
    error for every rating outside [1, 5], whoever owns the course; with
    a rating in range, a not-found error when the course does not exist,
    an authorization error when the course is owned by another coach, and
    a not-found error when the student has no Progress record for the
    course or the record has no entry for the task.  A success needs all
    of it: the coach role, a rating in range, the caller owning the
    course, and the entry.  It sets [coachRating], [coachFeedback] and
    [coachRatedAt] on the entry, clears [submittedForReview], and stores
    as [averageRating] what [getAverageRating] computes from the entries
    with the new rating among them: the ratings being doubles in [1, 5]
    and the entries at most 2^20, [k / 10] with the tenths [k] within
    1/2 + 2^-25 of ten times the mean of the ratings. *)
Theorem rateTask_outcomes (env : Env) (db : DB) (reqUser : User)
    (id studentId taskId : ObjectId) (rating : option JS.Number)
    (feedback : option string) :
  let result := rateTask env db reqUser id studentId taskId rating feedback in
  (user_role reqUser = RoleCoach -> inRange rating = false ->
   errorKind (fst result) = Some Validation /\ snd result = db) /\
  (user_role reqUser = RoleStudent ->
   errorKind (fst result) = Some Unauthorized /\ snd result = db) /\
  (forall course,
     user_role reqUser = RoleCoach -> inRange rating = true ->
     findById course_id (courses db) id = Some course ->
     course_coach course <> user_id reqUser ->
     errorKind (fst result) = Some Unauthorized /\ snd result = db) /\
  (forall course,
     user_role reqUser = RoleCoach -> inRange rating = true ->
     findById course_id (courses db) id = Some course ->
     course_coach course = user_id reqUser ->
     (findProgress db studentId id = None \/
      exists progress, findProgress db studentId id = Some progress /\
                       findTaskProgress taskId (taskProgress progress) = None) ->
     errorKind (fst result) = Some NotFound /\ snd result = db) /\
  (user_role reqUser = RoleCoach -> inRange rating = true ->
   findById course_id (courses db) id = None ->
   errorKind (fst result) = Some NotFound /\ snd result = db) /\
  (status (fst result) = 200 ->
   user_role reqUser = RoleCoach /\
   (exists course, findById course_id (courses db) id = Some course /\
                   course_coach course = user_id reqUser) /\
   exists stored index entry progress,
     inRange rating = true /\
     findProgress db studentId id = Some stored /\
     (exists original,
        findTaskProgress taskId (taskProgress stored) = Some (index, original)) /\
     fst result = reply 200 (RateTaskBody "Task rated successfully" entry) /\
     findProgress (snd result) studentId id = Some progress /\
     nth_error (taskProgress progress) index = Some entry /\
     tp_task entry = taskId /\
     coachRating entry = rating /\
     coachFeedback entry = feedbackText feedback /\
     coachRatedAt entry = Some (now env) /\
     submittedForReview entry = false /\
     averageRating progress = getAverageRating progress /\
     (exists r, rating = Some r /\ In r (ratedValues progress)) /\
     (Forall validRating (ratedValues stored) ->
      (forall r, rating = Some r -> isDouble r = true) ->
      (Z.of_nat (length (taskProgress stored)) <= maxEntries)%Z ->
      exists k : Z,
        averageRating progress = tenth k /\ (10 <= k <= 50)%Z /\
        (2 * Z.abs (10 * sum52 (ratedValues progress)
                    - k * Z.of_nat (length (ratedValues progress)) * 2 ^ 52)
         <= Z.of_nat (length (ratedValues progress)) * 2 ^ 52
            + Z.of_nat (length (ratedValues progress)) * 2 ^ 28)%Z)).
Proof.
  intro result. subst result. unfold rateTask, coach.
  split; [|split; [|split; [|split; [|split]]]].
  - intros Hrole Hout. rewrite Hrole, invalidRating_inRange, Hout. simpl. auto.
  - intros Hrole. rewrite Hrole. simpl. auto.
  - intros course Hrole Hin Hcourse Howner.
    rewrite Hrole, invalidRating_inRange, Hin, Hcourse. simpl.
    destruct (Nat.eqb_spec (course_coach course) (user_id reqUser)); [contradiction|].
    simpl. auto.
  - intros course Hrole Hin Hcourse Howner Hmissing.
    rewrite Hrole, invalidRating_inRange, Hin, Hcourse, Howner, Nat.eqb_refl. simpl.
    destruct Hmissing as [Hnone|(progress & Hsome & Hentry)].
    + rewrite Hnone. simpl. auto.
    + rewrite Hsome, Hentry. simpl. auto.
  - intros Hrole Hin Hcourse.
    rewrite Hrole, invalidRating_inRange, Hin, Hcourse. simpl. auto.
  - destruct (user_role reqUser); [discriminate|].
    rewrite invalidRating_inRange.
    destruct (inRange rating) eqn:Hin; [|discriminate]. cbn [negb].
    destruct (findById course_id (courses db) id) as [course|]; [|discriminate].
    destruct (Nat.eqb_spec (course_coach course) (user_id reqUser)) as [Howner|];
      [|discriminate]. cbn [negb].
    destruct (findProgress db studentId id) as [stored|] eqn:Hstored; [|discriminate].
    destruct (findTaskProgress taskId (taskProgress stored)) as [[index original]|] eqn:Hentry;
      [|discriminate].
    intros _. cbn [fst snd].
    split; [reflexivity|]. split; [exists course; auto|].
    set (entries := updateAt index _ (taskProgress stored)).
    set (progress := setAverageRating (setTaskProgress stored entries) _).
    set (entry := rate rating _ (now env) original).
    exists stored, index, entry, progress.
    destruct (findTaskProgress_nth _ _ Hentry) as [Hnth Htask].
    destruct (findProgress_key _ _ _ Hstored) as [Hu Hc].
    destruct rating as [r|]; [|discriminate Hin].
    assert (Hrated : ratedValues progress
                     = map ratingOperand (filter isRated entries)) by reflexivity.
    split; [reflexivity|]. split; [reflexivity|].
    split; [exists original; exact Hentry|]. split; [reflexivity|].
    split; [|split; [|split; [exact Htask|]]].
    + unfold findProgress. cbn [progresses setProgresses].
      apply find_save_loaded with (d0 := stored);
        [exact Hstored|subst progress; reflexivity|].
      subst progress. cbn [progress_user progress_course setAverageRating setTaskProgress].
      now rewrite Hu, Hc, !Nat.eqb_refl.
    + subst progress. cbn [taskProgress setAverageRating setTaskProgress].
      subst entries entry. now apply nth_error_updateAt.
    + do 5 (split; [reflexivity|]). split.
      * exists r. split; [reflexivity|]. rewrite Hrated. subst entries.
        now apply ratedValues_rate_In with (tp := original).
      * intros Hold Hdouble Hsize. rewrite Hrated.
        change (averageRating progress)
          with (getAverageRating (setTaskProgress stored entries)).
        change (map ratingOperand (filter isRated entries))
          with (ratedValues (setTaskProgress stored entries)).
        apply getAverageRating_near.
        -- intro Hnil.
           assert (Hin' : In r (ratedValues (setTaskProgress stored entries))).
           { subst entries. now apply ratedValues_rate_In with (tp := original). }
           rewrite Hnil in Hin'. exact Hin'.
        -- subst entries. apply ratedValues_rate; [exact Hold|].
           split; [now apply Hdouble|exact Hin].
        -- subst entries.
           pose proof (ratedValues_rate_length
                         (rate (Some r) (match feedback with Some s => s | None => ""%string end)
                               (now env))
                         (taskProgress stored) index) as Hle.
           unfold ratedValues. cbn [taskProgress setTaskProgress]. lia.
Qed.

Lemma rateTask_outcomes_witness :
  errorKind (fst (rateTask env0 store2 coach10 1 20 3 (Some (JS.of_Z 6)) None))
    = Some Validation /\
  errorKind (fst (rateTask env0 store2 student20 1 20 3 (Some (JS.of_Z 4)) None))
    = Some Unauthorized /\
  errorKind (fst (rateTask env0 store2 coach10 1 20 7 (Some (JS.of_Z 4)) None))
    = Some NotFound /\
  errorKind (fst (rateTask env0 store2 cleo 1 20 3 (Some (JS.of_Z 4)) None))
    = Some Unauthorized /\
  errorKind (fst (rateTask env0 store2 coach10 8 20 3 (Some (JS.of_Z 4)) None))
    = Some NotFound /\
  exists (entry : TaskProgress) (progress : Progress) (k : Z),
    fst (rateTask env0 store2 coach10 1 20 3 (Some (tenth 45)) None)
      = reply 200 (RateTaskBody "Task rated successfully" entry) /\
    coachRating entry = Some (tenth 45) /\
    submittedForReview entry = false /\
    findProgress (snd (rateTask env0 store2 coach10 1 20 3 (Some (tenth 45)) None)) 20 1
      = Some progress /\
    averageRating progress = tenth k /\ (10 <= k <= 50)%Z.
Proof.
  split; [|split; [|split; [|split; [|split]]]].
  - apply (proj1 (rateTask_outcomes env0 store2 coach10 1 20 3 (Some (JS.of_Z 6)) None));
      vm_compute; reflexivity.
  - apply (proj1 (proj2 (rateTask_outcomes env0 store2 student20 1 20 3
                           (Some (JS.of_Z 4)) None))).
    reflexivity.
  - apply (proj1 (proj2 (proj2 (proj2
             (rateTask_outcomes env0 store2 coach10 1 20 7 (Some (JS.of_Z 4)) None))))
             course1); try (vm_compute; reflexivity).
    right. eexists. split; vm_compute; reflexivity.
  - apply (proj1 (proj2 (proj2
             (rateTask_outcomes env0 store2 cleo 1 20 3 (Some (JS.of_Z 4)) None)))
             course1); try (vm_compute; reflexivity).
    vm_compute. discriminate.
  - apply (proj1 (proj2 (proj2 (proj2 (proj2
             (rateTask_outcomes env0 store2 coach10 8 20 3 (Some (JS.of_Z 4)) None))))));
      vm_compute; reflexivity.
  - destruct (proj2 (proj2 (proj2 (proj2 (proj2
               (rateTask_outcomes env0 store2 coach10 1 20 3 (Some (tenth 45)) None))))))
      as (_ & _ & stored & index & entry & progress
          & _ & Hstored & _ & Hbody & Hsaved & _ & _ & Hr & _ & _ & Hs & _ & _ & Hnear).
    + vm_compute. reflexivity.
    + vm_compute in Hstored. injection Hstored as <-.
      destruct Hnear as (k & Hk & Hrange & _).
      * apply Forall_forall. intros r Hin. vm_compute in Hin. destruct Hin.
      * intros r [= <-]. vm_compute. reflexivity.
      * vm_compute. discriminate.
      * exists entry, progress, k. split; [exact Hbody|]. split; [exact Hr|].
        split; [exact Hs|]. split; [exact Hsaved|]. split; [exact Hk|exact Hrange].
Defined.

(** C3, refuted as stated: the rating is checked before the owner.  Coach
    3, who does not own course 1, sends the rating 6 and gets the
    validation error (status 400), not an authorization error. *)
Lemma rating_checked_before_owner :
  user_role cleo = RoleCoach /\
  findById course_id (courses store2) 1 = Some course1 /\
  course_coach course1 <> user_id cleo /\
  status (fst (rateTask env0 store2 cleo 1 20 3 (Some (JS.of_Z 6)) None)) = 400 /\
  errorKind (fst (rateTask env0 store2 cleo 1 20 3 (Some (JS.of_Z 6)) None))
    = Some Validation /\
  ~ (forall (env : Env) (db : DB) (reqUser : User) (id studentId taskId : ObjectId)
            (rating : option JS.Number) (feedback : option string) (course : Course),
       findById course_id (courses db) id = Some course ->
       course_coach course <> user_id reqUser ->
       errorKind (fst (rateTask env db reqUser id studentId taskId rating feedback))
       = Some Unauthorized).
Proof.
  split; [reflexivity|]. split; [reflexivity|]. split; [discriminate|].
  split; [vm_compute; reflexivity|]. split; [vm_compute; reflexivity|].
  intro H.
  specialize (H env0 store2 cleo 1 20 3 (Some (JS.of_Z 6)) None course1 eq_refl
                ltac:(discriminate)).
  vm_compute in H. discriminate H.
Qed.

(** ** POST /progress/submit-task *)

Lemma updateAt_updateAt (A : Type) (f g : A -> A) (i : nat) (l : list A) :
  updateAt i f (updateAt i g l) = updateAt i (fun x => f (g x)) l.
Proof.
  revert i. induction l as [|x l IH]; intros [|i]; simpl; try reflexivity.
  now rewrite IH.
Qed.

(** The writes of the handler through a [tp] that is a subdocument:
    every file is appended to the entry. *)
Lemma submit_through_subdocument (env : Env) (files : list File) (i : nat)
    (progress : Progress) :
  fold_left (addFile env) files (progress, Subdocument i) =
  (setTaskProgress progress
     (updateAt i (fun tp => fold_left (fun tp file => pushUpload (uploadOf env file) tp) files tp)
               (taskProgress progress)),
   Subdocument i).
Proof.
  revert progress. induction files as [|file files IH]; intro progress; simpl.
  - f_equal. destruct progress; unfold setTaskProgress; simpl. f_equal.
    clear. revert i. induction taskProgress0 as [|x l IHl]; intros [|i]; simpl;
      try reflexivity. now rewrite <- IHl.
  - unfold addFile at 2. cbn [writeTp fst snd]. rewrite IH. f_equal.
    unfold setTaskProgress; simpl. f_equal.
    apply updateAt_updateAt.
Qed.

(** The same writes through the plain object leave the document as it
    is. *)
Lemma submit_through_plain_object (env : Env) (files : list File)
    (obj : PlainTaskProgress) (progress : Progress) :
  exists obj',
    fold_left (addFile env) files (progress, PlainObject obj) =
    (progress, PlainObject obj').
Proof.
  revert obj. induction files as [|file files IH]; intro obj; simpl.
  - now exists obj.
  - apply IH.
Qed.

Lemma pushed_uploads (env : Env) (files : list File) (tp : TaskProgress) :
  let tp' := fold_left (fun tp file => pushUpload (uploadOf env file) tp) files tp in
  studentUploads tp' = studentUploads tp ++ map (uploadOf env) files /\
  tp_task tp' = tp_task tp /\ completed tp' = completed tp /\
  coachRating tp' = coachRating tp.
Proof.
  revert tp. induction files as [|file files IH]; intro tp; simpl.
  - now rewrite app_nil_r.
  - destruct (IH (pushUpload (uploadOf env file) tp)) as (H1 & H2 & H3 & H4).
    simpl in *. rewrite H1, <- app_assoc. auto.
Qed.

(** What a submission with at least one file does.  The list of completed
    tasks is never touched.  When the record already has an entry for the
    task the files are appended to its uploads and the entry is marked as
    submitted, its [completed] flag unchanged.  When it has none, the
    entry that is stored is the one cast at [push], with no upload and not
    submitted. *)
Lemma submitTask_effect (env : Env) (db : DB) (reqUser : User)
    (taskId courseId : ObjectId) (files : list File) :
  files <> [] ->
  let stored := findProgress db (user_id reqUser) courseId in
  let loaded := match stored with
                | Some p => p
                | None => newProgress env (user_id reqUser) courseId
                end in
  let result := submitTask env db reqUser taskId courseId files in
  exists progress,
    fst result = reply 201 (SubmitTaskBody "Files uploaded and submitted for review." progress) /\
    findProgress (snd result) (user_id reqUser) courseId = Some progress /\
    completedTasks progress = completedTasks loaded /\
    match findTaskProgress taskId (taskProgress loaded) with
    | Some (i, tp) =>
        exists entry,
          nth_error (taskProgress progress) i = Some entry /\
          studentUploads entry = studentUploads tp ++ map (uploadOf env) files /\
          submittedForReview entry = true /\
          submittedAt entry = Some (now env) /\
          completed entry = completed tp
    | None =>
        taskProgress progress = taskProgress loaded ++ [castTaskProgress taskId []]
    end.
Proof.
  intros Hfiles stored loaded result. subst result. unfold submitTask.
  destruct files as [|file files]; [congruence|].
  change (length (file :: files) =? 0) with false. cbv iota.
  fold stored.
  assert (Hkey : progress_user loaded = user_id reqUser /\
                 progress_course loaded = courseId).
  { subst loaded. destruct stored as [p|] eqn:E; [|simpl; auto].
    now apply findProgress_key in E. }
  destruct Hkey as [Hu Hc].
  assert (Hfind : forall progress,
            progress_id progress = progress_id loaded ->
            progress_user progress = progress_user loaded ->
            progress_course progress = progress_course loaded ->
            find (fun p => (progress_user p =? user_id reqUser)
                           && (progress_course p =? courseId))
                 (save progress_id (match stored with Some _ => false | None => true end)
                       progress (progresses db)) = Some progress).
  { intros progress Hi Hu' Hc'.
    assert (Hm : (progress_user progress =? user_id reqUser)
                 && (progress_course progress =? courseId) = true)
      by (now rewrite Hu', Hc', Hu, Hc, !Nat.eqb_refl).
    subst loaded. destruct stored as [p|] eqn:E.
    - apply find_save_loaded with (d0 := p); assumption.
    - apply find_save_new; assumption. }
  replace (match stored with
           | Some p => (p, false)
           | None => (newProgress env (user_id reqUser) courseId, true)
           end)
    with (loaded, match stored with Some _ => false | None => true end)
    by (subst loaded; now destruct stored).
  cbv beta iota zeta.
  destruct (findTaskProgress taskId (taskProgress loaded)) as [[i tp]|] eqn:Hentry.
  - rewrite submit_through_subdocument. cbn [writeTp fst snd].
    set (progress := setTaskProgress _ _).
    exists progress. split; [reflexivity|]. split; [|split; [reflexivity|]].
    + unfold findProgress. cbn [progresses setProgresses]. now apply Hfind.
    + destruct (findTaskProgress_nth _ _ Hentry) as [Hnth _].
      eexists. split.
      * subst progress. cbn [taskProgress setTaskProgress].
        rewrite updateAt_updateAt. apply nth_error_updateAt. exact Hnth.
      * destruct (pushed_uploads env (file :: files) tp) as (H1 & _ & H3 & _).
        cbn [markSubmitted studentUploads submittedForReview submittedAt completed].
        auto.
  - destruct (submit_through_plain_object env (file :: files)
                {| plain_task := taskId; plain_studentUploads := [];
                   plain_submittedForReview := None; plain_submittedAt := None |}
                (setTaskProgress loaded
                   (taskProgress loaded ++ [castTaskProgress taskId []])))
      as [obj' ->].
    cbn [writeTp fst snd].
    eexists. split; [reflexivity|]. split; [|split; reflexivity].
    unfold findProgress. cbn [progresses setProgresses]. now apply Hfind.
Qed.

(** C6, on the first submission for a task.  Student 20 submits one file
    for task 3 of course 1 and has no record yet.  The request succeeds
    with 201, the completed tasks stay empty, and the entry stored for the
    task has no upload, [submittedForReview] false and no [submittedAt]:
    the file and the flags were written to the plain object, not to the
    subdocument that [push] had cast from it.  The same request sent again
    finds that entry and records the file. *)
Theorem first_submission_not_recorded :
  let first := submitTask env0 store0 student20 3 1 [homework] in
  let second := submitTask env0 (snd first) student20 3 1 [homework] in
  (status (fst first) = 201 /\
   exists progress entry,
     findProgress (snd first) 20 1 = Some progress /\
     completedTasks progress = [] /\
     taskProgress progress = [entry] /\
     tp_task entry = 3 /\
     studentUploads entry = [] /\
     submittedForReview entry = false /\
     submittedAt entry = None) /\
  (status (fst second) = 201 /\
   exists progress entry,
     findProgress (snd second) 20 1 = Some progress /\
     taskProgress progress = [entry] /\
     studentUploads entry = [uploadOf env0 homework] /\
     submittedForReview entry = true /\
     submittedAt entry = Some (now env0)).
Proof.
  intros first second. split.
  - split; [reflexivity|]. do 2 eexists. repeat split; reflexivity.
  - split; [reflexivity|]. do 2 eexists. repeat split; reflexivity.
Qed.

(** ** The badge block *)

Lemma NoDup_snoc (A : Type) (l : list A) (x : A) :
  NoDup l -> ~ In x l -> NoDup (l ++ [x]).
Proof.
  induction 1 as [|y l Hy Hl IH]; simpl; intro Hx.
  - constructor; [tauto|constructor].
  - constructor.
    + rewrite in_app_iff. simpl. intros [H|[H|[]]]; [tauto|]. subst. tauto.
    + apply IH. tauto.
Qed.

(** What the badge block does: it grants at most the one badge of five
    completed tasks, only to a profile that does not hold it, and only
    when the caller has completed five tasks or more. *)
Lemma awardBadges_cases (db : DB) (reqUser : User) :
  (fst (awardBadges db reqUser) = [] /\ snd (awardBadges db reqUser) = db) \/
  (exists badge holder,
     fst (awardBadges db reqUser) = [badge] /\
     snd (awardBadges db reqUser) =
       setStudents db (save student_id false (pushBadge badge holder) (students db)) /\
     findBadge db = Some badge /\
     findStudent db reqUser = Some holder /\
     5 <= completedCount db (user_id reqUser) /\
     ~ In (badge_id badge) (student_badges holder)).
Proof.
  unfold awardBadges.
  destruct (findStudent db reqUser) as [holder|] eqn:Hs; [|left; auto].
  destruct (findBadge db) as [badge|] eqn:Hb; [|left; auto].
  destruct (5 <=? completedCount db (user_id reqUser)) eqn:H5; [|left; auto].
  destruct (includes (badge_id badge) (student_badges holder)) eqn:Hi; [left; auto|].
  right. exists badge, holder. simpl. repeat split; try reflexivity.
  - now apply Nat.leb_le.
  - intro Hin. apply includes_In in Hin. congruence.
Qed.

Lemma awardBadges_NoDup (db : DB) (reqUser : User) :
  (forall s, In s (students db) -> NoDup (student_badges s)) ->
  forall s, In s (students (snd (awardBadges db reqUser))) -> NoDup (student_badges s).
Proof.
  intros Hdb s.
  destruct (awardBadges_cases db reqUser)
    as [[_ ->]|(badge & holder & _ & -> & _ & Hholder & _ & Hnew)]; [apply Hdb|].
  cbn [students setStudents]. unfold save. intro Hin.
  apply In_updateOne in Hin as [Hin|(y & _ & _ & ->)]; [now apply Hdb|].
  unfold findStudent in Hholder. apply find_some in Hholder as [Hholder _].
  cbn [pushBadge student_badges]. apply NoDup_snoc; [now apply Hdb|exact Hnew].
Qed.

(** A handler other than completeTask writes no Student profile. *)
Lemma handle_students (env : Env) (db : DB) (reqUser : User) (r : Request) :
  (forall taskId courseId, r <> CompleteTask taskId courseId) ->
  students (snd (handle env db reqUser r)) = students db.
Proof.
  intro Hr.
  destruct r; cbn [handle];
    try (exfalso; eapply Hr; reflexivity);
    unfold getProgress, submitTask, getSubmissions, markSeen, getStudentTasks,
           rateTask, getStudentProgress, deleteSkill, deleteTask, deleteCourse, coach;
    branches; reflexivity.
Qed.

Lemma handle_NoDup (env : Env) (db : DB) (reqUser : User) (r : Request) :
  (forall s, In s (students db) -> NoDup (student_badges s)) ->
  forall s, In s (students (snd (handle env db reqUser r))) -> NoDup (student_badges s).
Proof.
  intros Hdb.
  destruct r as [taskId courseId| | | | | | | | | |];
    try (rewrite handle_students by discriminate; exact Hdb).
  cbn [handle]. rewrite completeTask_run. cbn [snd].
  apply awardBadges_NoDup. exact Hdb.
Qed.

(** C7.  completeTask reports in [newBadges] exactly what its badge block
    granted.  A badge is granted only when it is the badge of five
    completed tasks, the completed tasks of the caller over all their
    courses number five or more, and the profile of the caller does not
    hold it yet; it is then added once to that profile.  Whatever requests
    are served, and however many times the block runs, a badge set
    without a duplicate stays without a duplicate. *)
Theorem badges_granted_once :
  (forall (env : Env) (db : DB) (reqUser : User) (taskId courseId : ObjectId),
     let result := completeTask env db reqUser taskId courseId in
     exists progress newBadges,
       fst result = reply 201 (CompleteTaskBody progress newBadges) /\
       (newBadges = [] -> students (snd result) = students db) /\
       (forall badge, In badge newBadges ->
          newBadges = [badge] /\
          findBadge db = Some badge /\
          5 <= completedCount (snd result) (user_id reqUser) /\
          exists holder,
            findStudent db reqUser = Some holder /\
            ~ In (badge_id badge) (student_badges holder) /\
            findStudent (snd result) reqUser = Some (pushBadge badge holder))) /\
  (forall (db : DB) (session : list (Env * User * Request)),
     (forall s, In s (students db) -> NoDup (student_badges s)) ->
     forall s, In s (students (serve db session)) -> NoDup (student_badges s)).
Proof.
  split.
  - intros env db reqUser taskId courseId result. subst result.
    rewrite completeTask_run. cbv zeta. cbn [fst snd].
    set (progress := setCounts _ _ _).
    set (saved := setProgresses db _).
    exists progress, (fst (awardBadges saved reqUser)).
    split; [reflexivity|].
    destruct (awardBadges_cases saved reqUser)
      as [[-> ->]|(badge & holder & -> & -> & Hb & Hs & H5 & Hnew)].
    + split; [reflexivity|]. intros badge [].
    + split; [discriminate|].
      intros b [<-|[]]. split; [reflexivity|]. split; [exact Hb|].
      split; [exact H5|]. exists holder. split; [exact Hs|]. split; [exact Hnew|].
      unfold findStudent in *. cbn [students setStudents].
      apply find_save_loaded with (d0 := holder); [exact Hs|reflexivity|].
      apply find_some in Hs as [_ Hs]. exact Hs.
  - intros db session. revert db.
    induction session as [|[[env reqUser] r] session IH]; intros db Hdb; simpl.
    + exact Hdb.
    + apply IH. now apply handle_NoDup.
Qed.

Lemma badges_granted_once_witness :
  (exists progress,
     fst (completeTask env0 store5 student20 8 1) = reply 201 (CompleteTaskBody progress [])) /\
  forall s, In s (students (serve store5 [(env0, student20, CompleteTask 8 1)])) ->
            NoDup (student_badges s).
Proof.
  split.
  - eexists. vm_compute. reflexivity.
  - apply (proj2 badges_granted_once store5 [(env0, student20, CompleteTask 8 1)]).
    intros s [<-|[]]. vm_compute. repeat constructor; simpl; tauto.
Defined.

(** ** routes/groups.js *)

(** The creator is refused by the leave route, and the store is left as
    it was. *)
Lemma leave_refused_for_creator (groups : list Group) (reqUser : User)
    (groupId : ObjectId) (group : Group) :
  findById group_id groups groupId = Some group ->
  creator group = user_id reqUser ->
  groupErrorKind (fst (leave groups reqUser groupId)) = Some Unauthorized /\
  snd (leave groups reqUser groupId) = groups.
Proof.
  intros Hg Hc. unfold leave. rewrite Hg, Hc, Nat.eqb_refl. simpl. auto.
Qed.

(** C8, at the request that breaks it.  In the group user 1 created,
    user 1 is a member; the leave route refuses the creator with 403.
    The remove-member route, called by the coach (user 3) with the
    creator as [memberId], answers 200 and stores the group without its
    creator among the members; called by the creator against themselves
    it does the same. *)
Theorem creator_removed_by_remove_member :
  (exists group,
     findById group_id team 100 = Some group /\
     creator group = 1 /\ members group = [1; 2] /\ group_coach group = Some 3) /\
  (group_status (fst (leave team ana 100)) = 403 /\ snd (leave team ana 100) = team) /\
  (group_status (fst (removeMember team cleo 100 1)) = 200 /\
   exists group,
     findById group_id (snd (removeMember team cleo 100 1)) 100 = Some group /\
     creator group = 1 /\ members group = [2] /\ ~ In (creator group) (members group)) /\
  (group_status (fst (removeMember team ana 100 1)) = 200 /\
   exists group,
     findById group_id (snd (removeMember team ana 100 1)) 100 = Some group /\
     creator group = 1 /\ ~ In (creator group) (members group)).
Proof.
  split; [|split; [|split]].
  - eexists. repeat split; reflexivity.
  - split; reflexivity.
  - split; [reflexivity|]. eexists. split; [reflexivity|].
    split; [reflexivity|]. split; [reflexivity|]. simpl. intros [H|[]]. discriminate H.
  - split; [reflexivity|]. eexists. split; [reflexivity|].
    split; [reflexivity|]. simpl. intros [H|[]]. discriminate H.
Qed.

(** ** DELETE /courses/:id *)




(** ** Lazy creation of Progress records *)

Lemma continues_refl (old : list Progress) (p : Progress) :
  In p old -> continues old p.
Proof. intro H. exists p. auto. Qed.

Lemma continues_save (old : list Progress) (stored p q : Progress) :
  In stored old ->
  progress_id p = progress_id stored ->
  progress_user p = progress_user stored ->
  progress_course p = progress_course stored ->
  In q (save progress_id false p old) -> continues old q.
Proof.
  intros Hs Hi Hu Hc Hq. unfold save in Hq.
  apply In_updateOne in Hq as [Hq|(y & _ & _ & ->)].
  - now apply continues_refl.
  - exists stored. auto.
Qed.

Lemma findProgress_In (db : DB) (userId courseId : ObjectId) (p : Progress) :
  findProgress db userId courseId = Some p -> In p (progresses db).
Proof. unfold findProgress. intro H. now apply find_some in H. Qed.

(** C10.  A read of the progress of a course for which the caller has no
    Progress record answers with the empty result and leaves the store as
    it was.  Of the requests that reach the Progress collection, only
    completeTask and submitTask create a record: after any other one,
    every record of the store continues a record that was there before.
    Those two do create the record when it is absent. *)
Theorem read_does_not_create :
  (forall (db : DB) (reqUser : User) (courseId : ObjectId),
     findProgress db (user_id reqUser) courseId = None ->
     getProgress db reqUser courseId = (reply 200 (EmptyProgressBody [] 0 0), db)) /\
  (forall (env : Env) (db : DB) (reqUser : User) (r : Request),
     createsLazily r = false ->
     forall p, In p (progresses (snd (handle env db reqUser r))) ->
               continues (progresses db) p) /\
  (forall (env : Env) (db : DB) (reqUser : User) (taskId courseId : ObjectId),
     findProgress db (user_id reqUser) courseId = None ->
     (exists p, findProgress (snd (completeTask env db reqUser taskId courseId))
                             (user_id reqUser) courseId = Some p) /\
     (forall files, files <> [] ->
        exists p, findProgress (snd (submitTask env db reqUser taskId courseId files))
                               (user_id reqUser) courseId = Some p)).
Proof.
  split; [|split].
  - intros db reqUser courseId Hnone. unfold getProgress. now rewrite Hnone.
  - intros env db reqUser r Hr p.
    destruct r as [| courseId | | courseId | courseId | courseId studentId
                   | id studentId taskId rating feedback | id studentId
                   | skillId | taskId | id];
      try discriminate Hr; cbn [handle].
    + unfold getProgress.
      destruct (findProgress db (user_id reqUser) courseId) as [stored|] eqn:E;
        cbn [snd]; [|apply continues_refl].
      cbn [progresses setProgresses].
      apply continues_save with (stored := stored);
        [now apply findProgress_In in E|reflexivity..].
    + unfold getSubmissions.
      branches; apply continues_refl.
    + unfold markSeen.
      branches; apply continues_refl.
    + unfold getStudentTasks, coach.
      destruct (user_role reqUser); apply continues_refl.
    + unfold rateTask, coach.
      destruct (user_role reqUser); [apply continues_refl|].
      destruct (invalidRating rating); [apply continues_refl|].
      destruct (findById course_id (courses db) id) as [course|]; [|apply continues_refl].
      destruct (negb _); [apply continues_refl|].
      destruct (findProgress db studentId id) as [stored|] eqn:E; [|apply continues_refl].
      destruct (findTaskProgress taskId (taskProgress stored)) as [[i tp]|];
        [|apply continues_refl].
      cbn [snd progresses setProgresses].
      apply continues_save with (stored := stored);
        [now apply findProgress_In in E|reflexivity..].
    + unfold getStudentProgress, coach.
      branches; apply continues_refl.
    + unfold deleteSkill, coach.
      branches; apply continues_refl.
    + unfold deleteTask, coach.
      branches; apply continues_refl.
    + unfold deleteCourse, coach.
      destruct (user_role reqUser); [apply continues_refl|].
      destruct (findById course_id (courses db) id) as [course|]; [|apply continues_refl].
      destruct (negb _); [apply continues_refl|].
      cbn [snd progresses setProgresses setUsers setTasks setSkills setCourses].
      unfold deleteMany. intro Hp. apply filter_In in Hp as [Hp _].
      now apply continues_refl.
  - intros env db reqUser taskId courseId Hnone. split.
    + rewrite completeTask_run. rewrite Hnone. cbv zeta. cbn [snd].
      set (progress := setCounts _ _ _).
      set (saved := setProgresses db _).
      exists progress.
      destruct (awardBadges_frame saved reqUser) as (_ & _ & _ & _ & _ & Hp).
      unfold findProgress. rewrite Hp. subst saved. cbn [progresses setProgresses].
      apply find_save_new; [exact Hnone|].
      subst progress.
      destruct (includes taskId (completedTasks (newProgress env (user_id reqUser) courseId)));
        cbn; now rewrite !Nat.eqb_refl.
    + intros files Hfiles.
      destruct (submitTask_effect env db reqUser taskId courseId Hfiles)
        as (p & _ & Hp & _).
      now exists p.
Qed.

Lemma read_does_not_create_witness :
  getProgress store0 student20 1 = (reply 200 (EmptyProgressBody [] 0 0), store0) /\
  (forall p, In p (progresses (snd (handle env0 store3 coach10 (DeleteTask 3)))) ->
             continues (progresses store3) p) /\
  (exists p, findProgress (snd (submitTask env0 store0 student20 3 1 [homework])) 20 1
             = Some p).
Proof.
  split; [|split].
  - apply (proj1 read_does_not_create store0 student20 1). reflexivity.
  - apply (proj1 (proj2 read_does_not_create) env0 store3 coach10 (DeleteTask 3)).
    reflexivity.
  - apply (proj2 (proj2 (proj2 read_does_not_create) env0 store0 student20 3 1 eq_refl)
                 [homework]).
    discriminate.
Defined.

(** ** The groups router *)

Section LoadedDocument.
Variable D : Type.
Variable idOf : D -> ObjectId.

(** Saving a loaded document and then the document as it was loaded
    restores the collection. *)
Lemma save_restore (c : list D) (id : ObjectId) (d0 d : D) :
  findById idOf c id = Some d0 -> idOf d = idOf d0 ->
  save idOf false d0 (save idOf false d c) = c.
Proof.
  unfold findById, save. intros Hfind Hid. rewrite Hid.
  induction c as [|x c IH]; [discriminate|].
  simpl in *. destruct (idOf x =? id) eqn:E.
  - injection Hfind as ->. rewrite Nat.eqb_refl. simpl.
    rewrite Hid, Nat.eqb_refl. reflexivity.
  - destruct (idOf x =? idOf d0) eqn:E'.
    + simpl. rewrite Hid, Nat.eqb_refl.
      (* the first document with the id of d0 is x, not d0 *)
      apply find_some in Hfind as [_ H0]. apply Nat.eqb_eq in H0.
      apply Nat.eqb_eq in E'. rewrite E', H0, Nat.eqb_refl in E. discriminate.
    + simpl. rewrite E'. f_equal. apply IH. exact Hfind.
Qed.

(** A projection the saved document shares with the loaded one is kept
    by the collection. *)
Lemma map_save_loaded (B : Type) (h : D -> B) (c : list D) (id : ObjectId) (d0 d : D) :
  findById idOf c id = Some d0 -> idOf d = idOf d0 -> h d = h d0 ->
  map h (save idOf false d c) = map h c.
Proof.
  unfold findById, save. intros Hfind Hid Hh. rewrite Hid.
  pose proof (find_some _ _ Hfind) as [_ H0]. apply Nat.eqb_eq in H0.
  rewrite H0. clear H0.
  induction c as [|x c IH]; [reflexivity|].
  simpl in *. destruct (idOf x =? id) eqn:E.
  - injection Hfind as ->. simpl. now rewrite Hh.
  - simpl. f_equal. now apply IH.
Qed.

(** The other documents are left as they are. *)
Lemma findById_save_other (c : list D) (d : D) (id : ObjectId) :
  id <> idOf d -> findById idOf (save idOf false d c) id = findById idOf c id.
Proof.
  unfold findById, save. intro Hne.
  induction c as [|x c IH]; [reflexivity|].
  simpl. destruct (idOf x =? idOf d) eqn:E.
  - simpl. apply Nat.eqb_eq in E.
    destruct (Nat.eqb_spec (idOf d) id); [congruence|].
    destruct (Nat.eqb_spec (idOf x) id); [congruence|reflexivity].
  - simpl. destruct (idOf x =? id); [reflexivity|exact IH].
Qed.

Lemma findById_save_loaded (c : list D) (id : ObjectId) (d0 d : D) :
  findById idOf c id = Some d0 -> idOf d = idOf d0 ->
  findById idOf (save idOf false d c) id = Some d.
Proof.
  intros Hfind Hid. unfold findById in *.
  apply find_save_loaded with (d0 := d0); [exact Hfind|exact Hid|].
  apply find_some in Hfind as [_ H0]. rewrite Hid. exact H0.
Qed.

End LoadedDocument.

Lemma filter_absent (id : ObjectId) (l : list ObjectId) :
  includes id l = false -> filter (fun m => negb (m =? id)) l = l.
Proof.
  unfold includes. induction l as [|x l IH]; [reflexivity|].
  simpl. intro H. apply orb_false_iff in H as [Hx Hl].
  rewrite Hx. simpl. f_equal. now apply IH.
Qed.

Lemma filter_pushed (id : ObjectId) (l : list ObjectId) :
  includes id l = false -> filter (fun m => negb (m =? id)) (l ++ [id]) = l.
Proof.
  intro H. rewrite filter_app, filter_absent by exact H.
  simpl. rewrite Nat.eqb_refl. simpl. apply app_nil_r.
Qed.

Lemma Forall2_same (A : Type) (R : A -> A -> Prop) (l : list A) :
  (forall x, R x x) -> Forall2 R l l.
Proof. intro H. induction l; constructor; auto. Qed.

(** The documents [join] and then [leave] write. *)
Lemma join_leave_run (groups : list Group) (reqUser : User) (groupId : ObjectId) :
  group_status (fst (join groups reqUser groupId)) = 200 ->
  let joined := snd (join groups reqUser groupId) in
  (exists group, findById group_id joined groupId = Some group /\
                 In (user_id reqUser) (members group)) /\
  fst (leave joined reqUser groupId) = groupReply 200 (GroupMessage "Left group") /\
  snd (leave joined reqUser groupId) = groups.
Proof.
  unfold join.
  destruct (findById group_id groups groupId) as [g|] eqn:Hfind; [|discriminate].
  destruct (includes (user_id reqUser) (members g) || isCoachOf g (user_id reqUser)
            || (creator g =? user_id reqUser)) eqn:Hguard; [discriminate|].
  intros _. cbn [snd fst].
  apply orb_false_iff in Hguard as [Hguard Hcreator].
  apply orb_false_iff in Hguard as [Hmember _].
  set (g' := setMembers g (members g ++ [user_id reqUser])).
  assert (Hfind' : findById group_id (save group_id false g' groups) groupId = Some g').
  { apply findById_save_loaded with (d0 := g); [exact Hfind|reflexivity]. }
  split.
  { exists g'. split; [exact Hfind'|]. simpl. apply in_or_app. right. now left. }
  unfold leave. rewrite Hfind'.
  change (creator g') with (creator g). rewrite Hcreator.
  split; [reflexivity|]. cbn [snd].
  replace (setMembers g' (filter (fun m => negb (m =? user_id reqUser)) (members g')))
    with g.
  - apply save_restore with (id := groupId); [exact Hfind|reflexivity].
  - unfold g'. simpl members. rewrite filter_pushed by exact Hmember.
    destruct g; reflexivity.
Qed.

(** X1.  Joining a group and leaving it again is a round trip: when
    [join] succeeds the caller has become a member, the [leave] that
    follows succeeds too, and every group has the members it had before
    the two requests, as well as its id, its name, its creator, its coach
    and its invitations; no group is added or removed. *)
Theorem join_then_leave_restores (groups : list Group) (reqUser : User)
    (groupId : ObjectId) :
  group_status (fst (join groups reqUser groupId)) = 200 ->
  let joined := snd (join groups reqUser groupId) in
  (exists group, findById group_id joined groupId = Some group /\
                 In (user_id reqUser) (members group)) /\
  fst (leave joined reqUser groupId) = groupReply 200 (GroupMessage "Left group") /\
  Forall2 sameGroup groups (snd (leave joined reqUser groupId)).
Proof.
  intro Hok. destruct (join_leave_run groups reqUser groupId Hok) as (Hin & Hleft & Hback).
  cbv zeta. split; [exact Hin|]. split; [exact Hleft|].
  rewrite Hback. apply Forall2_same. intro g. unfold sameGroup. tauto.
Qed.

Lemma join_then_leave_restores_witness :
  group_status (fst (join team dana 100)) = 200 /\
  Forall2 sameGroup team (snd (leave (snd (join team dana 100)) dana 100)).
Proof.
  split; [reflexivity|].
  apply (proj2 (proj2 (join_then_leave_restores team dana 100 eq_refl))).
Defined.

(** X2.  A successful join adds the caller to the members exactly once:
    the caller was not a member, the member list grows by the caller and
    stays free of duplicates, and a second join by the same user is
    refused with status 400 and changes nothing. *)
Theorem join_at_most_once (groups : list Group) (reqUser : User) (groupId : ObjectId) :
  group_status (fst (join groups reqUser groupId)) = 200 ->
  let joined := snd (join groups reqUser groupId) in
  (exists group group',
     findById group_id groups groupId = Some group /\
     findById group_id joined groupId = Some group' /\
     ~ In (user_id reqUser) (members group) /\
     members group' = members group ++ [user_id reqUser] /\
     (NoDup (members group) -> NoDup (members group'))) /\
  join joined reqUser groupId =
    (groupReply 400 (GroupMessage "Already a member/coach/creator"), joined).
Proof.
  unfold join at 1 2 3.
  destruct (findById group_id groups groupId) as [g|] eqn:Hfind; [|discriminate].
  destruct (includes (user_id reqUser) (members g) || isCoachOf g (user_id reqUser)
            || (creator g =? user_id reqUser)) eqn:Hguard; [discriminate|].
  intros _. cbn [snd fst].
  apply orb_false_iff in Hguard as [Hguard _].
  apply orb_false_iff in Hguard as [Hmember _].
  set (g' := setMembers g (members g ++ [user_id reqUser])).
  assert (Hfind' : findById group_id (save group_id false g' groups) groupId = Some g').
  { apply findById_save_loaded with (d0 := g); [exact Hfind|reflexivity]. }
  assert (Hnot : ~ In (user_id reqUser) (members g)).
  { intro Hin. apply includes_In in Hin. congruence. }
  split.
  - exists g, g'. repeat split; try assumption.
    intro Hnd. simpl. now apply NoDup_snoc.
  - unfold join. rewrite Hfind'.
    replace (includes (user_id reqUser) (members g')) with true; [reflexivity|].
    symmetry. apply includes_In. simpl. apply in_or_app. right. now left.
Qed.

Lemma join_at_most_once_witness :
  join (snd (join team dana 100)) dana 100 =
    (groupReply 400 (GroupMessage "Already a member/coach/creator"),
     snd (join team dana 100)).
Proof.
  apply (proj2 (join_at_most_once team dana 100 eq_refl)).
Defined.

Lemma findInvitation_setStatus (userId : ObjectId) (newStatus : string)
    (l : list Invitation) (i : nat) :
  findInvitation userId l = Some i ->
  findInvitation userId (updateAt i (setStatus newStatus) l) = Some i.
Proof.
  revert i. induction l as [|inv l IH]; intros i H; [discriminate|].
  simpl in H. destruct (inv_user inv =? userId) eqn:E.
  - injection H as <-. simpl. now rewrite E.
  - destruct (findInvitation userId l) as [j|] eqn:Ej; [|discriminate].
    injection H as <-. simpl. rewrite E, (IH j eq_refl). reflexivity.
Qed.

(** One accepted response. *)
Lemma respond_accepted (groups : list Group) (reqUser : User) (groupId : ObjectId)
    (group : Group) (i : nat) :
  findById group_id groups groupId = Some group ->
  findInvitation (user_id reqUser) (invitations group) = Some i ->
  exists group',
    fst (respond groups reqUser groupId "accepted") =
      groupReply 200 (GroupMessage "Invitation accepted") /\
    findById group_id (snd (respond groups reqUser groupId "accepted")) groupId = Some group' /\
    members group' = members group ++ [user_id reqUser] /\
    findInvitation (user_id reqUser) (invitations group') = Some i.
Proof.
  intros Hfind Hinv. unfold respond. rewrite Hfind, Hinv.
  cbn [String.eqb Ascii.eqb Bool.eqb orb andb fst snd].
  eexists. split; [reflexivity|]. split.
  - apply findById_save_loaded with (d0 := group); [exact Hfind|reflexivity].
  - split; [reflexivity|]. simpl. now apply findInvitation_setStatus.
Qed.

(** X3.  Accepting an invitation is not guarded by the status of the
    invitation nor by membership: every "accepted" response of a user who
    has an invitation succeeds and appends the user to the members once
    more, so that [n] responses leave [n] more occurrences. *)
Theorem accepted_invitation_repeats (n : nat) (groups : list Group) (reqUser : User)
    (groupId : ObjectId) (group : Group) (i : nat) :
  findById group_id groups groupId = Some group ->
  findInvitation (user_id reqUser) (invitations group) = Some i ->
  group_status (fst (respond groups reqUser groupId "accepted")) = 200 /\
  exists group',
    findById group_id (acceptRepeatedly n groups reqUser groupId) groupId = Some group' /\
    members group' = members group ++ repeat (user_id reqUser) n /\
    count_occ Nat.eq_dec (members group') (user_id reqUser) =
      count_occ Nat.eq_dec (members group) (user_id reqUser) + n.
Proof.
  intros Hfind Hinv. split.
  { destruct (respond_accepted groups reqUser groupId Hfind Hinv) as (g1 & -> & _).
    reflexivity. }
  revert groups group Hfind Hinv.
  induction n as [|n IH]; intros groups group Hfind Hinv.
  - exists group. cbn [acceptRepeatedly repeat]. rewrite app_nil_r, Nat.add_0_r.
    split; [exact Hfind|]. split; reflexivity.
  - destruct (respond_accepted groups reqUser groupId Hfind Hinv)
      as (g1 & _ & Hfind1 & Hmem1 & Hinv1).
    destruct (IH _ _ Hfind1 Hinv1) as (g' & Hfind' & Hmem' & Hcount').
    exists g'. simpl acceptRepeatedly. split; [exact Hfind'|]. split.
    + rewrite Hmem', Hmem1, <- app_assoc. reflexivity.
    + rewrite Hcount', Hmem1, count_occ_app.
      rewrite count_occ_cons_eq by reflexivity.
      cbn [count_occ]. unfold ObjectId in *. lia.
Qed.

Lemma accepted_invitation_repeats_witness :
  exists group',
    findById group_id
      (acceptRepeatedly 2 (snd (invite env0 team ana 100 4)) dana 100) 100 = Some group' /\
    members group' = [1; 2; 4; 4].
Proof.
  destruct (@accepted_invitation_repeats 2 (snd (invite env0 team ana 100 4)) dana 100
              (setInvitations
                 {| group_id := 100; group_name := "Team"; creator := 1;
                    members := [1; 2]; group_coach := Some 3; invitations := [] |}
                 [{| inv_user := 4; inv_status := "pending"; invitedBy := 1;
                     invitedAt := 1000 |}]) 0 eq_refl eq_refl)
    as (_ & g' & Hfind & Hmem & _).
  exists g'. split; [exact Hfind|exact Hmem].
Defined.

(** X4.  Only the creator of a group sets its coach.  For an existing
    group, assign-coach and remove-coach by anyone else are refused with
    an authorization error and change nothing; by the creator they
    succeed and store the coach given, respectively no coach; and
    removing after assigning leaves the group without a coach, its other
    fields as before the two requests. *)
Theorem coach_set_by_creator_only (groups : list Group) (reqUser : User)
    (groupId coachId : ObjectId) (group : Group) :
  findById group_id groups groupId = Some group ->
  let assigned := assignCoach groups reqUser groupId coachId in
  let removed := removeCoach groups reqUser groupId in
  (creator group <> user_id reqUser ->
   groupErrorKind (fst assigned) = Some Unauthorized /\ snd assigned = groups /\
   groupErrorKind (fst removed) = Some Unauthorized /\ snd removed = groups) /\
  (creator group = user_id reqUser ->
   group_status (fst assigned) = 200 /\
   findById group_id (snd assigned) groupId = Some (setCoach group (Some coachId)) /\
   group_status (fst removed) = 200 /\
   findById group_id (snd removed) groupId = Some (setCoach group None) /\
   snd (removeCoach (snd assigned) reqUser groupId) = snd removed).
Proof.
  intros Hfind assigned removed. subst assigned removed.
  unfold assignCoach, removeCoach. rewrite Hfind. split.
  - intro Hne. apply Nat.eqb_neq in Hne. rewrite Hne. simpl. repeat split.
  - intro Heq. pose proof Heq as Heqb. apply Nat.eqb_eq in Heqb. rewrite Heqb.
    cbn [negb fst snd groupReply group_status].
    assert (Hassigned : findById group_id
                          (save group_id false (setCoach group (Some coachId)) groups) groupId
                        = Some (setCoach group (Some coachId))).
    { apply findById_save_loaded with (d0 := group); [exact Hfind|reflexivity]. }
    split; [reflexivity|]. split; [exact Hassigned|]. split; [reflexivity|]. split.
    + apply findById_save_loaded with (d0 := group); [exact Hfind|reflexivity].
    + rewrite Hassigned. change (creator (setCoach group (Some coachId))) with (creator group).
      rewrite Heqb. cbn [negb snd].
      change (setCoach (setCoach group (Some coachId)) None) with (setCoach group None).
      unfold save. cbn [group_id setCoach].
      clear. induction groups as [|x l IH]; [reflexivity|].
      simpl. destruct (group_id x =? group_id group) eqn:E.
      * simpl. now rewrite Nat.eqb_refl.
      * simpl. rewrite E. now rewrite IH.
Qed.

Lemma coach_set_by_creator_only_witness :
  groupErrorKind (fst (assignCoach team ben 100 2)) = Some Unauthorized /\
  group_status (fst (removeCoach team ana 100)) = 200.
Proof.
  pose proof (@coach_set_by_creator_only team ben 100 2 _ eq_refl) as Hben.
  pose proof (@coach_set_by_creator_only team ana 100 2 _ eq_refl) as Hana.
  split.
  - apply (proj1 Hben). simpl. lia.
  - apply (proj2 Hana). reflexivity.
Defined.

Section Deletion.
Variable D : Type.
Variable idOf : D -> ObjectId.

Lemma findById_deleteOne_other (c : list D) (id id' : ObjectId) :
  id <> id' ->
  findById idOf (deleteOne (fun d => idOf d =? id') c) id = findById idOf c id.
Proof.
  unfold findById. intro Hne. induction c as [|x c IH]; [reflexivity|].
  simpl. destruct (idOf x =? id') eqn:E.
  - apply Nat.eqb_eq in E. destruct (Nat.eqb_spec (idOf x) id); [congruence|reflexivity].
  - simpl. destruct (idOf x =? id); [reflexivity|exact IH].
Qed.

End Deletion.

Section Removal.
Variable D : Type.

Lemma In_deleteOne (f : D -> bool) (c : list D) (x : D) :
  In x (deleteOne f c) -> In x c.
Proof.
  induction c as [|y c IH]; [easy|].
  simpl. destruct (f y); simpl; tauto.
Qed.

Lemma NoDup_map_deleteOne (B : Type) (h : D -> B) (f : D -> bool) (c : list D) :
  NoDup (map h c) -> NoDup (map h (deleteOne f c)).
Proof.
  induction c as [|y c IH]; [easy|].
  simpl. intro H. inversion H as [|? ? Hnot Hnd]; subst.
  destruct (f y); [exact Hnd|].
  simpl. constructor; [|now apply IH].
  intro Hin. apply Hnot. apply in_map_iff in Hin as (z & Hz & Hin).
  apply in_map_iff. exists z. split; [exact Hz|]. now apply In_deleteOne in Hin.
Qed.

End Removal.

(** X5.  Only the creator of a group deletes it.  The request succeeds
    exactly when the group exists and the caller is its creator; any
    other outcome changes nothing; and, ids being keys of the
    collection, a successful deletion removes that group and no other. *)
Theorem deleteGroup_by_creator_only (groups : list Group) (reqUser : User)
    (groupId : ObjectId) :
  let result := deleteGroup groups reqUser groupId in
  (group_status (fst result) = 200 <->
   exists group, findById group_id groups groupId = Some group /\
                 creator group = user_id reqUser) /\
  (group_status (fst result) <> 200 -> snd result = groups) /\
  (group_status (fst result) = 200 -> NoDup (map group_id groups) ->
   findById group_id (snd result) groupId = None /\
   forall id, id <> groupId ->
     findById group_id (snd result) id = findById group_id groups id).
Proof.
  unfold deleteGroup.
  destruct (findById group_id groups groupId) as [g|] eqn:Hfind.
  - pose proof (findById_id _ _ _ Hfind) as Hid.
    destruct (Nat.eqb_spec (creator g) (user_id reqUser)) as [Heq|Hne]; cbn [negb fst snd].
    + split; [|split].
      * split; [intros _; now exists g|reflexivity].
      * intro H. now contradiction H.
      * intros _ Hnd. rewrite Hid. split.
        -- now apply findById_deleteOne.
        -- intros id Hne. now apply findById_deleteOne_other.
    + split; [|split].
      * split; [discriminate|]. intros (g' & Hg' & Hc). congruence.
      * reflexivity.
      * discriminate.
  - cbn [fst snd]. split; [|split].
    + split; [discriminate|]. intros (g' & Hg' & _). discriminate.
    + reflexivity.
    + discriminate.
Qed.

Lemma deleteGroup_by_creator_only_witness :
  findById group_id (snd (deleteGroup team ana 100)) 100 = None /\
  snd (deleteGroup team cleo 100) = team.
Proof.
  split.
  - apply (proj2 (proj2 (deleteGroup_by_creator_only team ana 100))).
    + reflexivity.
    + repeat constructor. simpl. tauto.
  - apply (proj1 (proj2 (deleteGroup_by_creator_only team cleo 100))).
    simpl. lia.
Defined.

Lemma existsb_name (name : string) (groups : list Group) :
  existsb (fun g => String.eqb (group_name g) name) groups = false ->
  ~ In name (map group_name groups).
Proof.
  induction groups as [|g l IH]; [easy|].
  simpl. intro H. apply orb_false_iff in H as [Hg Hl].
  intros [Heq|Hin]; [|now apply IH].
  rewrite Heq, String.eqb_refl in Hg. discriminate.
Qed.

(** What a request does to the ids, names and creators of the groups:
    nothing, unless it creates a group under a new name or deletes one. *)
Lemma handleGroup_keys (env : Env) (groups : list Group) (reqUser : User)
    (r : GroupRequest) :
  let after := snd (handleGroup env groups reqUser r) in
  map groupKey after = map groupKey groups \/
  (exists name, r = Create name /\ ~ In name (map group_name groups) /\
                map groupKey after =
                map groupKey groups ++ [(newId env, name, user_id reqUser)]) \/
  (exists f, after = deleteOne f groups).
Proof.
  assert (Hsave : forall groupId g g',
            findById group_id groups groupId = Some g ->
            group_id g' = group_id g -> groupKey g' = groupKey g ->
            map groupKey (save group_id false g' groups) = map groupKey groups).
  { intros groupId g g' Hfind Hid Hkey.
    now apply map_save_loaded with (id := groupId) (d0 := g). }
  destruct r as [name|groupId userId|groupId newStatus|groupId coachId|groupId memberId
                 |groupId|groupId|groupId|groupId]; cbn [handleGroup].
  - unfold createGroup.
    destruct (String.eqb name ""); [now left|].
    destruct (existsb _ groups) eqn:Hdup; [now left|].
    right. left. exists name. split; [reflexivity|]. split; [now apply existsb_name|].
    cbn [snd]. unfold save. now rewrite map_app.
  - unfold invite. destruct (findById group_id groups groupId) as [g|] eqn:Hfind; [|now left].
    destruct (negb _); [now left|]. left. cbn [snd]. now apply (Hsave groupId g).
  - unfold respond. destruct (findById group_id groups groupId) as [g|] eqn:Hfind; [|now left].
    destruct (findInvitation _ _); [|now left].
    destruct (_ || _ || _); [|now left]. left. cbn [snd].
    destruct (String.eqb newStatus "accepted"); now apply (Hsave groupId g).
  - unfold assignCoach. destruct (findById group_id groups groupId) as [g|] eqn:Hfind; [|now left].
    destruct (negb _); [now left|]. left. cbn [snd]. now apply (Hsave groupId g).
  - unfold removeMember. destruct (findById group_id groups groupId) as [g|] eqn:Hfind; [|now left].
    destruct (_ && _); [now left|]. left. cbn [snd]. now apply (Hsave groupId g).
  - unfold leave. destruct (findById group_id groups groupId) as [g|] eqn:Hfind; [|now left].
    destruct (_ =? _); [now left|]. left. cbn [snd]. now apply (Hsave groupId g).
  - unfold removeCoach. destruct (findById group_id groups groupId) as [g|] eqn:Hfind; [|now left].
    destruct (negb _); [now left|]. left. cbn [snd]. now apply (Hsave groupId g).
  - unfold deleteGroup. destruct (findById group_id groups groupId) as [g|] eqn:Hfind; [|now left].
    destruct (negb _); [now left|]. right. right. cbn [snd]. eexists. reflexivity.
  - unfold join. destruct (findById group_id groups groupId) as [g|] eqn:Hfind; [|now left].
    destruct (_ || _ || _); [now left|]. left. cbn [snd]. now apply (Hsave groupId g).
Qed.

Lemma names_of_keys (groups : list Group) :
  map group_name groups = map (fun k => snd (fst k)) (map groupKey groups).
Proof. rewrite map_map. reflexivity. Qed.

(** X6.  Group names stay unique: whatever requests are served, in
    whatever order and by whomever, no two groups of the collection get
    the same name. *)
Theorem group_names_stay_unique (groups : list Group)
    (session : list (Env * User * GroupRequest)) :
  NoDup (map group_name groups) ->
  NoDup (map group_name (serveGroups groups session)).
Proof.
  revert groups. induction session as [|[[env reqUser] r] rest IH]; intros groups Hnd.
  - exact Hnd.
  - simpl. apply IH.
    destruct (handleGroup_keys env groups reqUser r) as [Hsame|[Hnew|Hdel]].
    + rewrite names_of_keys, Hsame, <- names_of_keys. exact Hnd.
    + destruct Hnew as (name & _ & Hfresh & Hkeys).
      rewrite names_of_keys, Hkeys, map_app, <- names_of_keys. simpl.
      now apply NoDup_snoc.
    + destruct Hdel as (f & ->). now apply NoDup_map_deleteOne.
Qed.

Lemma group_names_stay_unique_witness :
  NoDup (map group_name (serveGroups team [(env0, dana, Create "Team");
                                           (env0, dana, Create "Squad")])).
Proof.
  apply group_names_stay_unique.
  change (NoDup ["Team"%string]). constructor; [intros []|constructor].
Defined.

(** X7.  The id, the name and the creator of a group never change: every
    group of the collection a session leaves either was there before the
    session with the same id, name and creator, or was created by a
    create request of the session, with the caller of that request as
    its creator. *)
Theorem group_ownership_immutable (groups : list Group)
    (session : list (Env * User * GroupRequest)) (group : Group) :
  In group (serveGroups groups session) ->
  In (groupKey group) (map groupKey groups) \/
  exists env reqUser name,
    In (env, reqUser, Create name) session /\
    groupKey group = (newId env, name, user_id reqUser).
Proof.
  revert groups. induction session as [|[[env reqUser] r] rest IH]; intros groups Hin.
  - left. now apply in_map.
  - simpl in Hin. destruct (IH _ Hin) as [Hkey|(env' & u' & name' & Hreq & Hkey)].
    + destruct (handleGroup_keys env groups reqUser r) as [Hsame|[Hnew|Hdel]].
      * left. now rewrite <- Hsame.
      * destruct Hnew as (name & -> & _ & Hkeys). rewrite Hkeys in Hkey.
        apply in_app_or in Hkey as [Hold|[Hnew|[]]]; [now left|].
        right. exists env, reqUser, name. split; [now left|now symmetry].
      * destruct Hdel as (f & Hdel). rewrite Hdel in Hkey. left.
        apply in_map_iff in Hkey as (g & Hg & Hin').
        apply in_map_iff. exists g. split; [exact Hg|]. now apply In_deleteOne in Hin'.
    + right. exists env', u', name'. split; [now right|exact Hkey].
Qed.

Lemma group_ownership_immutable_witness :
  Forall (fun group => groupKey group = (100, "Team"%string, 1))
         (serveGroups team [(env0, cleo, RemoveMember 100 1); (env0, ben, Leave 100)]).
Proof.
  apply Forall_forall. intros group Hin.
  destruct (group_ownership_immutable team _ group Hin) as [Hkey|(env & u & name & Hreq & _)].
  - simpl in Hkey. destruct Hkey as [Hkey|[]]. now symmetry.
  - simpl in Hreq. destruct Hreq as [Hreq|[Hreq|[]]]; discriminate Hreq.
Defined.

Lemma findInvitation_pushed (userId : ObjectId) (l : list Invitation) (inv : Invitation) :
  inv_user inv = userId -> exists i, findInvitation userId (l ++ [inv]) = Some i.
Proof.
  intro H. induction l as [|x l [i IH]]; simpl.
  - rewrite H, Nat.eqb_refl. now exists 0.
  - destruct (inv_user x =? userId); [now exists 0|]. rewrite IH. now exists (S i).
Qed.

(** X8.  An invitation lets the invited user in.  When [invite] succeeds
    the inviter is a member of the group, and the invited user can then
    answer: "accepted" succeeds and appends the user to the members,
    "declined" succeeds and leaves the members as they were. *)
Theorem invitation_lets_user_in (env : Env) (groups : list Group)
    (inviter invited : User) (groupId : ObjectId) :
  group_status (fst (invite env groups inviter groupId (user_id invited))) = 200 ->
  let sent := snd (invite env groups inviter groupId (user_id invited)) in
  exists group,
    findById group_id groups groupId = Some group /\
    In (user_id inviter) (members group) /\
    (exists accepted,
       fst (respond sent invited groupId "accepted") =
         groupReply 200 (GroupMessage "Invitation accepted") /\
       findById group_id (snd (respond sent invited groupId "accepted")) groupId
         = Some accepted /\
       members accepted = members group ++ [user_id invited]) /\
    (exists declined,
       fst (respond sent invited groupId "declined") =
         groupReply 200 (GroupMessage "Invitation declined") /\
       findById group_id (snd (respond sent invited groupId "declined")) groupId
         = Some declined /\
       members declined = members group).
Proof.
  unfold invite.
  destruct (findById group_id groups groupId) as [g|] eqn:Hfind; [|discriminate].
  destruct (includes (user_id inviter) (members g)) eqn:Hmember; [|discriminate].
  intros _. cbn [negb snd].
  set (inv := {| inv_user := user_id invited; inv_status := "pending";
                 invitedBy := user_id inviter; invitedAt := now env |}).
  set (g1 := setInvitations g (invitations g ++ [inv])).
  assert (Hfind1 : findById group_id (save group_id false g1 groups) groupId = Some g1).
  { apply findById_save_loaded with (d0 := g); [exact Hfind|reflexivity]. }
  destruct (@findInvitation_pushed (user_id invited) (invitations g) inv eq_refl)
    as [i Hinv].
  exists g. split; [reflexivity|]. split; [now apply includes_In|]. split.
  - destruct (@respond_accepted _ invited groupId g1 i Hfind1 Hinv)
      as (accepted & Hreply & Hfound & Hmembers & _).
    exists accepted. split; [exact Hreply|]. split; [exact Hfound|exact Hmembers].
  - unfold respond. rewrite Hfind1. change (invitations g1) with (invitations g ++ [inv]).
    rewrite Hinv. cbn [String.eqb Ascii.eqb Bool.eqb orb andb fst snd].
    eexists. split; [reflexivity|]. split.
    + apply findById_save_loaded with (d0 := g1); [exact Hfind1|reflexivity].
    + reflexivity.
Qed.

Lemma invitation_lets_user_in_witness :
  exists accepted,
    findById group_id
      (snd (respond (snd (invite env0 team ben 100 4)) dana 100 "accepted")) 100
      = Some accepted /\
    members accepted = [1; 2; 4].
Proof.
  destruct (@invitation_lets_user_in env0 team ben dana 100 eq_refl)
    as (group & Hgroup & _ & (accepted & _ & Hfound & Hmembers) & _).
  exists accepted. split; [exact Hfound|].
  rewrite Hmembers. injection Hgroup as <-. reflexivity.
Defined.

(** ** The routes of the groups router *)

(** X9.  Two routes of the groups router are never reached.  GET /my and
    GET /invitations are declared after GET /:groupId, which matches
    every one-segment path first: no request is dispatched to their
    handlers, and the paths /my and /invitations are answered by the
    group-details handler with "my", respectively "invitations", as the
    group id.  Every other route of the router is reached by some
    request. *)
Theorem my_groups_routes_shadowed :
  (forall (m : Method) (path : list string) (h : GroupRoute) (params : list (string * string)),
     dispatch groupsRouter m path = Some (h, params) ->
     h <> RouteMy /\ h <> RouteInvitations) /\
  dispatch groupsRouter GET ["my"%string] = Some (RouteDetails, [("groupId", "my")]%string) /\
  dispatch groupsRouter GET ["invitations"%string]
    = Some (RouteDetails, [("groupId", "invitations")]%string) /\
  (forall h : GroupRoute,
     h <> RouteMy -> h <> RouteInvitations ->
     exists m path params, dispatch groupsRouter m path = Some (h, params)).
Proof.
  split; [|split; [reflexivity|split; [reflexivity|]]].
  - intros m path h params.
    assert (Hstep : forall (pattern : list Segment) (m' : Method) (h' : GroupRoute)
                           (rest : Router GroupRoute),
              (sameMethod m' m = true -> h' <> RouteMy /\ h' <> RouteInvitations) ->
              (dispatch rest m path = Some (h, params) ->
               h <> RouteMy /\ h <> RouteInvitations) ->
              dispatch ((m', pattern, h') :: rest) m path = Some (h, params) ->
              h <> RouteMy /\ h <> RouteInvitations).
    { intros pattern m' h' rest Hh Hrest. cbn [dispatch].
      destruct (sameMethod m' m); [|exact Hrest].
      destruct (matchPath pattern path); [|exact Hrest].
      intro H. injection H as <- _. now apply Hh. }
    unfold groupsRouter.
    destruct m;
      try (repeat (apply Hstep;
                   [cbn [sameMethod]; try discriminate; intros _; split; discriminate|]);
           cbn [dispatch]; discriminate).
    do 7 (apply Hstep; [cbn [sameMethod]; try discriminate; intros _; split; discriminate|]).
    (* GET /:groupId takes every one-segment path *)
    destruct path as [|seg [|seg' rest]].
    + cbn. discriminate.
    + cbn [dispatch sameMethod matchPath].
      destruct (String.eqb seg "") eqn:Eseg.
      * apply String.eqb_eq in Eseg. subst seg. cbn. discriminate.
      * intro H. injection H as <- _. split; discriminate.
    + repeat (cbn [dispatch sameMethod matchPath];
              match goal with
              | |- context [if String.eqb ?a ?b then _ else _] => destruct (String.eqb a b)
              end);
        cbn [dispatch sameMethod matchPath]; discriminate.
  - intros h. destruct h; intros H1 H2; try contradiction.
    + exists POST, ["create"%string]. eexists. reflexivity.
    + exists POST, ["7"; "invite"]%string. eexists. reflexivity.
    + exists POST, ["7"; "respond"]%string. eexists. reflexivity.
    + exists GET, ["search-users"%string]. eexists. reflexivity.
    + exists POST, ["7"; "assign-coach"]%string. eexists. reflexivity.
    + exists POST, ["7"; "upload-video"]%string. eexists. reflexivity.
    + exists GET, ["all"%string]. eexists. reflexivity.
    + exists GET, ["7"%string]. eexists. reflexivity.
    + exists POST, ["7"; "remove-member"]%string. eexists. reflexivity.
    + exists POST, ["7"; "leave"]%string. eexists. reflexivity.
    + exists POST, ["7"; "remove-coach"]%string. eexists. reflexivity.
    + exists DELETE, ["7"%string]. eexists. reflexivity.
    + exists POST, ["7"; "join"]%string. eexists. reflexivity.
    + exists DELETE, ["7"; "video"; "9"]%string. eexists. reflexivity.
Qed.

(** ** Enrolment *)

(** What a successful enrolment writes. *)
Lemma enroll_run (db : DB) (reqUser : User) (id : ObjectId) :
  status (fst (enroll db reqUser id)) = 200 ->
  exists course user,
    findById course_id (courses db) id = Some course /\
    findById user_id (users db) (user_id reqUser) = Some user /\
    course_coach course <> user_id reqUser /\
    includes id (enrolledCourses user) = false /\
    snd (enroll db reqUser id) =
      setUsers
        (if negb (includes (user_id reqUser) (course_students course)) then
           setCourses db
             (save course_id false
                   (setCourseStudents course (course_students course ++ [user_id reqUser]))
                   (courses db))
         else db)
        (save user_id false (setEnrolledCourses user (enrolledCourses user ++ [id]))
              (users db)).
Proof.
  unfold enroll.
  destruct (findById course_id (courses db) id) as [course|] eqn:Hc; [|discriminate].
  destruct (findById user_id (users db) (user_id reqUser)) as [user|] eqn:Hu; [|discriminate].
  pose proof (findById_id _ _ _ Hc) as Hcid. pose proof (findById_id _ _ _ Hu) as Huid.
  rewrite Hcid, Huid.
  destruct (Nat.eqb_spec (course_coach course) (user_id reqUser)) as [|Hcoach]; [discriminate|].
  destruct (includes id (enrolledCourses user)) eqn:Hin; [discriminate|].
  intros _. exists course, user. repeat split; try assumption.
  cbn [snd]. destruct (negb (includes (user_id reqUser) (course_students course))); reflexivity.
Qed.

(** What an enrol request does, whatever its outcome. *)
Lemma enroll_effect (db : DB) (reqUser : User) (id : ObjectId) :
  let result := enroll db reqUser id in
  (status (fst result) = 200 ->
   exists course user course' user',
     findById course_id (courses db) id = Some course /\
     findById user_id (users db) (user_id reqUser) = Some user /\
     findById course_id (courses (snd result)) id = Some course' /\
     findById user_id (users (snd result)) (user_id reqUser) = Some user' /\
     In (user_id reqUser) (course_students course') /\
     enrolledCourses user' = enrolledCourses user ++ [id] /\
     enroll (snd result) reqUser id =
       (reply 400 (Message "Already enrolled in this course"), snd result)) /\
  (status (fst result) <> 200 -> snd result = db).
Proof.
  split.
  - intro Hok. destruct (enroll_run db reqUser id Hok)
      as (course & user & Hc & Hu & Hcoach & Hnew & Hdb).
    fold (enroll db reqUser id) in Hdb. rewrite Hdb. clear Hdb Hok.
    pose proof (findById_id _ _ _ Hc) as Hcid. pose proof (findById_id _ _ _ Hu) as Huid.
    set (user' := setEnrolledCourses user (enrolledCourses user ++ [id])).
    set (pushed := setCourseStudents course (course_students course ++ [user_id reqUser])).
    assert (Hu' : findById user_id (save user_id false user' (users db)) (user_id reqUser)
                  = Some user').
    { apply findById_save_loaded with (d0 := user); [exact Hu|reflexivity]. }
    assert (Hcourse' : exists course',
              findById course_id
                (courses (if negb (includes (user_id reqUser) (course_students course))
                          then setCourses db (save course_id false pushed (courses db))
                          else db)) id = Some course' /\
              In (user_id reqUser) (course_students course') /\
              course_coach course' = course_coach course /\ course_id course' = id).
    { destruct (includes (user_id reqUser) (course_students course)) eqn:Hs; cbn [negb].
      - exists course. split; [exact Hc|]. split; [now apply includes_In|now split].
      - exists pushed. split.
        + cbn [courses setCourses].
          apply findById_save_loaded with (d0 := course); [exact Hc|reflexivity].
        + split; [|now split]. simpl. apply in_or_app. right. now left. }
    destruct Hcourse' as (course' & Hc' & Hin' & Hcoach' & Hcid').
    exists course, user, course', user'.
    split; [exact Hc|]. split; [exact Hu|]. split; [exact Hc'|].
    split; [exact Hu'|]. split; [exact Hin'|]. split; [reflexivity|].
    unfold enroll at 1. cbn [courses users setUsers]. rewrite Hc', Hu'.
    change (user_id user') with (user_id user). rewrite Huid, Hcoach', Hcid'.
    destruct (Nat.eqb_spec (course_coach course) (user_id reqUser)); [contradiction|].
    replace (includes id (enrolledCourses user')) with true; [reflexivity|].
    symmetry. apply includes_In. simpl. apply in_or_app. right. now left.
  - unfold enroll.
    destruct (findById course_id (courses db) id); [|reflexivity].
    destruct (findById user_id (users db) (user_id reqUser)); [|reflexivity].
    destruct (_ =? _); [reflexivity|].
    destruct (includes _ _); [reflexivity|].
    intro H. exfalso. apply H. reflexivity.
Qed.

(** X10.  A successful enrolment links both sides: afterwards the caller
    is among the students of the course, the course is the last of the
    caller's enrolled courses, and the same request sent again is refused
    with status 400 and changes nothing; any request that does not
    succeed leaves the store as it was. *)
Theorem enroll_links_both_sides (db : DB) (reqUser : User) (id : ObjectId) :
  let result := enroll db reqUser id in
  (status (fst result) = 200 ->
   exists course user course' user',
     findById course_id (courses db) id = Some course /\
     findById user_id (users db) (user_id reqUser) = Some user /\
     findById course_id (courses (snd result)) id = Some course' /\
     findById user_id (users (snd result)) (user_id reqUser) = Some user' /\
     In (user_id reqUser) (course_students course') /\
     enrolledCourses user' = enrolledCourses user ++ [id] /\
     enroll (snd result) reqUser id =
       (reply 400 (Message "Already enrolled in this course"), snd result)) /\
  (status (fst result) <> 200 -> snd result = db).
Proof. exact (@enroll_effect db reqUser id). Qed.

Lemma enroll_links_both_sides_witness :
  status (fst (enroll store7 student20 7)) = 200 /\
  enroll (snd (enroll store7 student20 7)) student20 7 =
    (reply 400 (Message "Already enrolled in this course"), snd (enroll store7 student20 7)) /\
  snd (enroll store7 coach10 7) = store7.
Proof.
  split; [reflexivity|]. split.
  - destruct (proj1 (enroll_links_both_sides store7 student20 7) eq_refl)
      as (c & u & c' & u' & _ & _ & _ & _ & _ & _ & Hagain).
    exact Hagain.
  - apply (proj2 (enroll_links_both_sides store7 coach10 7)). simpl. lia.
Defined.

Lemma includes_pushed (id : ObjectId) (l : list ObjectId) : includes id (l ++ [id]) = true.
Proof. apply includes_In, in_or_app. right. now left. Qed.

Lemma includes_pushed_other (id other : ObjectId) (l : list ObjectId) :
  id <> other -> includes id (l ++ [other]) = includes id l.
Proof.
  intro Hne. unfold includes. rewrite existsb_app. simpl.
  destruct (Nat.eqb_spec other id); [congruence|]. now rewrite !orb_false_r.
Qed.

Lemma includes_filtered (id : ObjectId) (l : list ObjectId) :
  includes id (filter (fun x => negb (x =? id)) l) = false.
Proof.
  destruct (includes id (filter (fun x => negb (x =? id)) l)) eqn:E; [|reflexivity].
  apply includes_In in E. now apply not_In_pull in E.
Qed.

Lemma includes_filtered_other (id other : ObjectId) (l : list ObjectId) :
  id <> other -> includes id (filter (fun x => negb (x =? other)) l) = includes id l.
Proof.
  intro Hne. unfold includes. induction l as [|x l IH]; [reflexivity|].
  simpl. destruct (Nat.eqb_spec x other) as [->|Hx]; simpl.
  - destruct (Nat.eqb_spec other id); [congruence|exact IH].
  - now rewrite IH.
Qed.

(** What an unenrolment writes. *)
Lemma unenroll_run (db : DB) (reqUser : User) (id : ObjectId) (course : Course) (user : User) :
  findById course_id (courses db) id = Some course ->
  findById user_id (users db) (user_id reqUser) = Some user ->
  unenroll db reqUser id =
    (reply 200 (Message "Unenrolled successfully"),
     setUsers
       (setCourses db
          (save course_id false
                (setCourseStudents course
                   (filter (fun x => negb (x =? user_id reqUser)) (course_students course)))
                (courses db)))
       (save user_id false
             (setEnrolledCourses user
                (filter (fun x => negb (x =? id)) (enrolledCourses user)))
             (users db))).
Proof.
  intros Hc Hu. unfold unenroll. rewrite Hc, Hu.
  rewrite (findById_id _ _ _ Hc), (findById_id _ _ _ Hu). reflexivity.
Qed.

(** The documents [enroll] and then [unenroll] write. *)
Lemma enroll_unenroll_run (db : DB) (reqUser : User) (id : ObjectId) :
  status (fst (enroll db reqUser id)) = 200 ->
  let undone := unenroll (snd (enroll db reqUser id)) reqUser id in
  fst undone = reply 200 (Message "Unenrolled successfully") /\
  users (snd undone) = users db /\
  (exists course, findById course_id (courses (snd undone)) id = Some course /\
                  ~ In (user_id reqUser) (course_students course)) /\
  (forall course, findById course_id (courses db) id = Some course ->
                  ~ In (user_id reqUser) (course_students course) ->
                  snd undone = db).
Proof.
  intro Hok. destruct (enroll_run db reqUser id Hok)
    as (course & user & Hc & Hu & Hcoach & Hnew & Hdb).
  rewrite Hdb. clear Hdb Hok.
  set (user' := setEnrolledCourses user (enrolledCourses user ++ [id])).
  set (pushed := setCourseStudents course (course_students course ++ [user_id reqUser])).
  assert (Hu' : findById user_id (save user_id false user' (users db)) (user_id reqUser)
                = Some user').
  { apply findById_save_loaded with (d0 := user); [exact Hu|reflexivity]. }
  assert (Huser : setEnrolledCourses user'
                    (filter (fun x => negb (x =? id)) (enrolledCourses user')) = user).
  { unfold user'. simpl enrolledCourses. rewrite filter_pushed by exact Hnew.
    destruct user; reflexivity. }
  assert (Husers : save user_id false user (save user_id false user' (users db)) = users db).
  { apply save_restore with (id := user_id reqUser); [exact Hu|reflexivity]. }
  destruct (includes (user_id reqUser) (course_students course)) eqn:Hs; cbn [negb].
  - (* already listed among the students *)
    rewrite (@unenroll_run _ reqUser id course user');
      [|exact Hc|exact Hu']. cbn [fst snd]. rewrite Huser.
    cbn [users courses setUsers setCourses]. rewrite Husers.
    split; [reflexivity|]. split; [reflexivity|]. split.
    + eexists. split.
      * apply findById_save_loaded with (d0 := course); [exact Hc|reflexivity].
      * simpl. apply not_In_pull.
    + intros course0 Hc0 Hnot. rewrite Hc in Hc0. injection Hc0 as <-.
      apply includes_In in Hs. contradiction.
  - assert (Hc' : findById course_id (save course_id false pushed (courses db)) id
                  = Some pushed).
    { apply findById_save_loaded with (d0 := course); [exact Hc|reflexivity]. }
    rewrite (@unenroll_run _ reqUser id pushed user'); [|exact Hc'|exact Hu'].
    cbn [fst snd]. rewrite Huser.
    assert (Hcourse : setCourseStudents pushed
                        (filter (fun x => negb (x =? user_id reqUser))
                                (course_students pushed)) = course).
    { unfold pushed. simpl course_students. rewrite filter_pushed by exact Hs.
      destruct course; reflexivity. }
    rewrite Hcourse. cbn [users courses setUsers setCourses].
    assert (Hcourses : save course_id false course (save course_id false pushed (courses db))
                       = courses db).
    { apply save_restore with (id := id); [exact Hc|reflexivity]. }
    rewrite Husers, Hcourses.
    split; [reflexivity|]. split; [reflexivity|]. split.
    + exists course. split; [exact Hc|]. intro Hin. apply includes_In in Hin. congruence.
    + intros _ _ _. destruct db; reflexivity.
Qed.

(** X11.  Enrolling and unenrolling is a round trip.  After a successful
    enrolment the unenrolment succeeds, the caller is no longer among the
    students of the course, and every user has the enrolled courses, the
    id, the name, the email and the role they had before.  When the
    caller was not already listed among the students of the course, every
    course has the students, the id, the name, the coach and the skills
    it had, and no other collection is written. *)
Theorem enroll_then_unenroll (db : DB) (reqUser : User) (id : ObjectId) :
  status (fst (enroll db reqUser id)) = 200 ->
  let undone := unenroll (snd (enroll db reqUser id)) reqUser id in
  fst undone = reply 200 (Message "Unenrolled successfully") /\
  Forall2 sameUser (users db) (users (snd undone)) /\
  (exists course, findById course_id (courses (snd undone)) id = Some course /\
                  ~ In (user_id reqUser) (course_students course)) /\
  (forall course, findById course_id (courses db) id = Some course ->
                  ~ In (user_id reqUser) (course_students course) ->
                  Forall2 sameCourse (courses db) (courses (snd undone)) /\
                  students (snd undone) = students db /\
                  badges (snd undone) = badges db /\
                  skills (snd undone) = skills db /\
                  tasks (snd undone) = tasks db /\
                  progresses (snd undone) = progresses db).
Proof.
  intro Hok.
  destruct (enroll_unenroll_run db reqUser id Hok) as (Hreply & Husers & Hgone & Hback).
  cbv zeta. split; [exact Hreply|]. split.
  - rewrite Husers. apply Forall2_same. intro u. unfold sameUser. tauto.
  - split; [exact Hgone|]. intros course Hc Hnot.
    rewrite (Hback course Hc Hnot).
    split; [apply Forall2_same; intro c; unfold sameCourse; tauto|].
    repeat split; reflexivity.
Qed.

Lemma enroll_then_unenroll_witness :
  Forall2 sameUser (users store7)
          (users (snd (unenroll (snd (enroll store7 student20 7)) student20 7))) /\
  Forall2 sameCourse (courses store7)
          (courses (snd (unenroll (snd (enroll store7 student20 7)) student20 7))).
Proof.
  destruct (enroll_then_unenroll store7 student20 7 eq_refl) as (_ & Husers & _ & Hrest).
  split; [exact Husers|].
  apply (Hrest course7).
  - reflexivity.
  - simpl. tauto.
Defined.

Section SavedDocument.
Variable D : Type.
Variable idOf : D -> ObjectId.

(** A lookup after the save of a loaded document finds the saved
    document under its id and what was there under any other id. *)
Lemma findById_save_cases (c : list D) (id0 : ObjectId) (d0 d : D) (id : ObjectId) (x : D) :
  findById idOf c id0 = Some d0 -> idOf d = idOf d0 ->
  findById idOf (save idOf false d c) id = Some x ->
  (id = id0 /\ x = d) \/ (id <> id0 /\ findById idOf c id = Some x).
Proof.
  intros Hfind Hid Hx. pose proof (findById_id _ _ _ Hfind) as Hid0.
  destruct (Nat.eq_dec id id0) as [->|Hne].
  - left. split; [reflexivity|].
    rewrite (@findById_save_loaded _ idOf _ _ _ _ Hfind Hid) in Hx. congruence.
  - right. split; [exact Hne|]. rewrite findById_save_other in Hx; [exact Hx|congruence].
Qed.

End SavedDocument.

(** X12.  Enrolment keeps the two sides in step: if, for every course
    and user of the store, the user is among the students of the course
    exactly when the course is among the user's enrolled courses, then
    the same holds after an enrol request and after an unenrol request,
    whatever their outcome. *)
Theorem enrolment_stays_in_step (db : DB) (reqUser : User) (id : ObjectId) :
  inStep db ->
  inStep (snd (enroll db reqUser id)) /\ inStep (snd (unenroll db reqUser id)).
Proof.
  intro Hstep. split.
  - destruct (Nat.eq_dec (status (fst (enroll db reqUser id))) 200) as [Hok|Hno].
    2: { now rewrite (proj2 (enroll_effect db reqUser id) Hno). }
    destruct (enroll_run db reqUser id Hok)
      as (course & user & Hc & Hu & Hcoach & Hnew & Hdb).
    rewrite Hdb. clear Hdb Hok.
    set (user' := setEnrolledCourses user (enrolledCourses user ++ [id])).
    set (pushed := setCourseStudents course (course_students course ++ [user_id reqUser])).
    intros cid uid c u Hfc Hfu. cbn [users courses setUsers] in Hfc, Hfu.
    apply (@findById_save_cases _ user_id _ _ _ user' _ _ Hu eq_refl) in Hfu.
    assert (Hcases : (cid = id /\ includes (user_id reqUser) (course_students c) = true /\
                      forall other, other <> user_id reqUser ->
                        includes other (course_students c) =
                        includes other (course_students course)) \/
                     (cid <> id /\ findById course_id (courses db) cid = Some c)).
    { destruct (includes (user_id reqUser) (course_students course)) eqn:Hs;
        cbn [negb courses setCourses] in Hfc.
      - destruct (Nat.eq_dec cid id) as [->|Hne]; [left|right; now split].
        rewrite Hc in Hfc. injection Hfc as <-. now repeat split.
      - apply (@findById_save_cases _ course_id _ _ _ pushed _ _ Hc eq_refl) in Hfc.
        destruct Hfc as [[-> ->]|[Hne Hfc]]; [left|right; now split].
        split; [reflexivity|]. split; [apply includes_pushed|].
        intros other Hother. now apply includes_pushed_other. }
    destruct Hcases as [(-> & Hself & Hothers)|[Hcid Hfc']];
      destruct Hfu as [[-> ->]|[Huid Hfu']].
    + rewrite Hself. symmetry. apply includes_pushed.
    + rewrite (Hothers _ Huid). now apply Hstep.
    + simpl enrolledCourses. rewrite includes_pushed_other by exact Hcid.
      now apply Hstep.
    + now apply Hstep.
  - unfold unenroll.
    destruct (findById course_id (courses db) id) as [course|] eqn:Hc; [|exact Hstep].
    destruct (findById user_id (users db) (user_id reqUser)) as [user|] eqn:Hu; [|exact Hstep].
    pose proof (findById_id _ _ _ Hc) as Hcid. pose proof (findById_id _ _ _ Hu) as Huid.
    rewrite Hcid, Huid. cbn [snd].
    set (user' := setEnrolledCourses user _). set (course' := setCourseStudents course _).
    intros cid uid c u Hfc Hfu. cbn [users courses setUsers setCourses] in Hfc, Hfu.
    apply (@findById_save_cases _ user_id _ _ _ user' _ _ Hu eq_refl) in Hfu.
    apply (@findById_save_cases _ course_id _ _ _ course' _ _ Hc eq_refl) in Hfc.
    destruct Hfc as [[-> ->]|[Hne Hfc]]; destruct Hfu as [[-> ->]|[Hnu Hfu]];
      unfold user', course'; simpl course_students; simpl enrolledCourses.
    + now rewrite !includes_filtered.
    + rewrite includes_filtered_other by exact Hnu. now apply Hstep.
    + rewrite includes_filtered_other by exact Hne. now apply Hstep.
    + now apply Hstep.
Qed.

Lemma enrolment_stays_in_step_witness :
  inStep (snd (enroll store7 student20 7)).
Proof.
  assert (Hstep : inStep store7).
  { intros cid uid c u Hc Hu. unfold store7 in Hc, Hu.
    cbn [courses users findById find] in Hc, Hu.
    change (course_id course1) with 1 in Hc. change (course_id course7) with 7 in Hc.
    change (user_id coach10) with 10 in Hu. change (user_id student20) with 20 in Hu.
    destruct (Nat.eqb_spec 1 cid) as [<-|H1];
      [|destruct (Nat.eqb_spec 7 cid) as [<-|H7]; [|discriminate]];
      injection Hc as <-;
      (destruct (Nat.eqb_spec 10 uid) as [<-|H10];
         [|destruct (Nat.eqb_spec 20 uid) as [<-|H20]; [|discriminate]]);
      injection Hu as <-; reflexivity. }
  exact (proj1 (enrolment_stays_in_step student20 7 Hstep)).
Defined.

(** X13.  Enrolment opens the course and unenrolment closes it: after a
    successful enrolment GET /courses/:id shows the caller the course;
    after an unenrolment it answers a caller who is not the coach of the
    course with status 403. *)
Theorem enrolment_gates_course_view (db : DB) (reqUser : User) (id : ObjectId) :
  (status (fst (enroll db reqUser id)) = 200 ->
   exists course catalog,
     getCourse (snd (enroll db reqUser id)) reqUser id = CourseDocument course catalog /\
     course_id course = id) /\
  (forall course,
     status (fst (unenroll db reqUser id)) = 200 ->
     findById course_id (courses db) id = Some course ->
     course_coach course <> user_id reqUser ->
     getCourse (snd (unenroll db reqUser id)) reqUser id =
       CourseError 403 "You must be enrolled in this course to view it").
Proof.
  split.
  - intro Hok.
    destruct (proj1 (enroll_effect db reqUser id) Hok)
      as (course & user & course' & user' & _ & _ & Hc' & Hu' & _ & Hlist & _).
    unfold getCourse. rewrite Hc', Hu'. rewrite (findById_id _ _ _ Hc'), Hlist.
    rewrite includes_pushed. cbn [negb andb]. eexists. eexists.
    split; [reflexivity|]. exact (findById_id _ _ _ Hc').
  - intros course Hok Hc Hcoach. unfold unenroll. rewrite Hc.
    destruct (findById user_id (users db) (user_id reqUser)) as [user|] eqn:Hu.
    + pose proof (findById_id _ _ _ Hc) as Hcid. pose proof (findById_id _ _ _ Hu) as Huid.
      rewrite Hcid, Huid. cbn [snd]. unfold getCourse. cbn [users courses setUsers setCourses].
      rewrite (@findById_save_loaded _ course_id _ _ _ (setCourseStudents course _) Hc eq_refl).
      rewrite (@findById_save_loaded _ user_id _ _ _ (setEnrolledCourses user _) Hu eq_refl).
      cbn [course_id course_coach setCourseStudents enrolledCourses setEnrolledCourses].
      rewrite Hcid, includes_filtered.
      destruct (Nat.eqb_spec (course_coach course) (user_id reqUser)); [contradiction|].
      reflexivity.
    + cbn [snd]. unfold getCourse. rewrite Hc, Hu. exfalso.
      (* the unenrolment did not succeed *)
      revert Hok. unfold unenroll. rewrite Hc, Hu. discriminate.
Qed.

Lemma enrolment_gates_course_view_witness :
  (exists course catalog,
     getCourse (snd (enroll store7 student20 7)) student20 7 = CourseDocument course catalog /\
     course_id course = 7) /\
  getCourse (snd (unenroll store7 student20 1)) student20 1 =
    CourseError 403 "You must be enrolled in this course to view it".
Proof.
  split.
  - apply (proj1 (enrolment_gates_course_view store7 student20 7)). reflexivity.
  - apply (proj2 (enrolment_gates_course_view store7 student20 1) course1).
    + reflexivity.
    + reflexivity.
    + simpl. lia.
Defined.

(** ** The script syncCompletedTasksToTaskProgress *)

Section SaveInPlace.
Variable D : Type.
Variable idOf : D -> ObjectId.

(** With [_id] a key, the save of a loaded document replaces that
    document where it stands. *)
Lemma save_in_place (pre post : list D) (d d' : D) :
  idOf d' = idOf d -> ~ In (idOf d) (map idOf pre) ->
  save idOf false d' (pre ++ d :: post) = pre ++ d' :: post.
Proof.
  intros Hid Hnot. unfold save. rewrite Hid.
  induction pre as [|x pre IH]; simpl.
  - now rewrite Nat.eqb_refl.
  - destruct (Nat.eqb_spec (idOf x) (idOf d)) as [E|E].
    + exfalso. apply Hnot. now left.
    + f_equal. apply IH. intro H. apply Hnot. now right.
Qed.

End SaveInPlace.

Lemma findTaskProgress_app (taskId : ObjectId) (l l' : list TaskProgress)
    (x : nat * TaskProgress) :
  findTaskProgress taskId l = Some x -> findTaskProgress taskId (l ++ l') = Some x.
Proof.
  revert x. induction l as [|tp l IH]; intros x H; [discriminate|].
  simpl in *. destruct (tp_task tp =? taskId); [exact H|].
  destruct (findTaskProgress taskId l) as [[i y]|]; [|discriminate].
  now rewrite (IH _ eq_refl).
Qed.

Lemma findTaskProgress_pushed (taskId : ObjectId) (l : list TaskProgress) (e : TaskProgress) :
  findTaskProgress taskId l = None -> tp_task e = taskId ->
  findTaskProgress taskId (l ++ [e]) = Some (length l, e).
Proof.
  intros H He. induction l as [|tp l IH]; simpl in *.
  - now rewrite He, Nat.eqb_refl.
  - destruct (tp_task tp =? taskId); [discriminate|].
    destruct (findTaskProgress taskId l) as [[i y]|]; [discriminate|].
    now rewrite IH.
Qed.

Lemma findTaskProgress_updateAt (taskId : ObjectId) (f : TaskProgress -> TaskProgress)
    (j : nat) (l : list TaskProgress) :
  (forall tp, tp_task (f tp) = tp_task tp) ->
  findTaskProgress taskId (updateAt j f l) =
  match findTaskProgress taskId l with
  | Some (i, tp) => Some (i, if i =? j then f tp else tp)
  | None => None
  end.
Proof.
  intro Hf. revert j. induction l as [|tp l IH]; intro j; [now destruct j|].
  destruct j as [|j]; simpl.
  - rewrite Hf. destruct (tp_task tp =? taskId); [reflexivity|].
    destruct (findTaskProgress taskId l) as [[i y]|]; reflexivity.
  - destruct (tp_task tp =? taskId); [reflexivity|].
    rewrite IH. destruct (findTaskProgress taskId l) as [[i y]|]; reflexivity.
Qed.

Lemma nth_error_updateAt_other (A : Type) (f : A -> A) (l : list A) (i j : nat) :
  i <> j -> nth_error (updateAt j f l) i = nth_error l i.
Proof.
  revert i j. induction l as [|x l IH]; intros i j Hne; [now destruct j|].
  destruct j as [|j], i as [|i]; simpl; try reflexivity; try lia.
  apply IH. lia.
Qed.

(** One step of the script on a document. *)
Lemma syncTask_step (env : Env) (progress : Progress) (changed : bool) (taskId : ObjectId) :
  let next := fst (syncTask env (progress, changed) taskId) in
  progress_id next = progress_id progress /\
  progress_user next = progress_user progress /\
  progress_course next = progress_course progress /\
  completedTasks next = completedTasks progress /\
  totalTasks next = totalTasks progress /\
  completedTasksCount next = completedTasksCount progress /\
  averageRating next = averageRating progress /\
  lastActivity next = lastActivity progress /\
  entryCompleted (taskProgress next) taskId /\
  (forall other, entryCompleted (taskProgress progress) other ->
                 entryCompleted (taskProgress next) other) /\
  (forall i tp, nth_error (taskProgress progress) i = Some tp ->
     exists tp', nth_error (taskProgress next) i = Some tp' /\
                 (tp' = tp \/ tp' = markCompleted (now env) tp)) /\
  (snd (syncTask env (progress, changed) taskId) = false ->
   next = progress /\ changed = false).
Proof.
  cbv zeta. unfold syncTask.
  destruct (findTaskProgress taskId (taskProgress progress)) as [[i tp]|] eqn:Hfind.
  - destruct (completed tp) eqn:Hdone; cbn [negb fst snd].
    + do 8 (split; [reflexivity|]). split; [now exists i, tp|]. split; [easy|].
      split; [|easy]. intros j x Hx. exists x. split; [exact Hx|now left].
    + do 8 (split; [reflexivity|]). cbn [taskProgress setTaskProgress].
      split; [|split; [|split; [|discriminate]]].
      * exists i, (markCompleted (now env) tp). split; [|reflexivity].
        rewrite findTaskProgress_updateAt by reflexivity.
        now rewrite Hfind, Nat.eqb_refl.
      * intros other (j & x & Hx & Hcompleted). unfold entryCompleted.
        rewrite findTaskProgress_updateAt by reflexivity. rewrite Hx.
        eexists. eexists. split; [reflexivity|]. now destruct (j =? i).
      * intros j x Hx. destruct (Nat.eq_dec j i) as [->|Hne].
        -- exists (markCompleted (now env) x). split; [|now right].
           now apply nth_error_updateAt.
        -- exists x. split; [|now left]. now rewrite nth_error_updateAt_other.
  - cbn [fst snd]. do 8 (split; [reflexivity|]). cbn [taskProgress setTaskProgress].
    split; [|split; [|split; [|discriminate]]].
    + exists (length (taskProgress progress)), (completedEntry (now env) taskId).
      split; [|reflexivity]. now apply findTaskProgress_pushed.
    + intros other (j & x & Hx & Hcompleted).
      exists j, x. split; [|exact Hcompleted]. now apply findTaskProgress_app.
    + intros j x Hx. exists x. split; [|now left].
      rewrite nth_error_app1; [exact Hx|]. apply nth_error_Some. congruence.
Qed.

(** The loop over the completed tasks of a document. *)
Lemma syncTasks_fold (env : Env) (ts : list ObjectId) (progress : Progress) (changed : bool) :
  let result := fold_left (syncTask env) ts (progress, changed) in
  progress_id (fst result) = progress_id progress /\
  progress_user (fst result) = progress_user progress /\
  progress_course (fst result) = progress_course progress /\
  completedTasks (fst result) = completedTasks progress /\
  totalTasks (fst result) = totalTasks progress /\
  completedTasksCount (fst result) = completedTasksCount progress /\
  averageRating (fst result) = averageRating progress /\
  lastActivity (fst result) = lastActivity progress /\
  (forall taskId, In taskId ts -> entryCompleted (taskProgress (fst result)) taskId) /\
  (forall other, entryCompleted (taskProgress progress) other ->
                 entryCompleted (taskProgress (fst result)) other) /\
  (forall i tp, nth_error (taskProgress progress) i = Some tp ->
     exists tp', nth_error (taskProgress (fst result)) i = Some tp' /\
                 (tp' = tp \/ tp' = markCompleted (now env) tp)) /\
  (snd result = false -> fst result = progress /\ changed = false).
Proof.
  cbv zeta. revert progress changed.
  induction ts as [|t ts IH]; intros progress changed.
  - cbn [fold_left fst snd]. do 8 (split; [reflexivity|]).
    split; [intros ? []|]. split; [easy|]. split; [|easy].
    intros i tp H. exists tp. now split; [|left].
  - cbn [fold_left].
    rewrite (surjective_pairing (syncTask env (progress, changed) t)).
    pose proof (syncTask_step env progress changed t) as Hstep. cbv zeta in Hstep.
    set (p1 := fst (syncTask env (progress, changed) t)) in *.
    set (c1 := snd (syncTask env (progress, changed) t)) in *.
    destruct Hstep as (Hs1 & Hs2 & Hs3 & Hs4 & Hs5 & Hs6 & Hs7 & Hs8 & Hs9 & Hs10 & Hs11 & Hs12).
    destruct (IH p1 c1) as (Hi1 & Hi2 & Hi3 & Hi4 & Hi5 & Hi6 & Hi7 & Hi8 & Hi9 & Hi10 & Hi11 & Hi12).
    split; [congruence|]. split; [congruence|]. split; [congruence|].
    split; [congruence|]. split; [congruence|]. split; [congruence|].
    split; [congruence|]. split; [congruence|].
    split; [|split; [|split]].
    + intros taskId [<-|Hin]; [now apply Hi10|now apply Hi9].
    + intros other H. now apply Hi10, Hs10.
    + intros i tp H. destruct (Hs11 i tp H) as (tp1 & H1 & Hrel1).
      destruct (Hi11 i tp1 H1) as (tp' & H' & Hrel'). exists tp'. split; [exact H'|].
      destruct Hrel1 as [-> | ->]; destruct Hrel' as [-> | ->]; auto.
    + intro H. destruct (Hi12 H) as [Hp1 Hc1]. destruct (Hs12 Hc1) as [Hp Hc].
      split; [congruence|exact Hc].
Qed.

(** The loop over the documents: with [_id] a key of the collection,
    every document is replaced by what the inner loop makes of it. *)
Lemma syncProgress_fold (env : Env) (done todo : list Progress) (n : nat) :
  let synced p := fst (fold_left (syncTask env) (completedTasks p) (p, false)) in
  NoDup (map progress_id (done ++ todo)) ->
  exists n',
    fold_left (syncProgress env) todo (map synced done ++ todo, n)
    = (map synced (done ++ todo), n').
Proof.
  intro synced. revert done n.
  induction todo as [|d rest IH]; intros done n Hnd.
  - exists n. now rewrite !app_nil_r.
  - cbn [fold_left]. unfold syncProgress at 2.
    rewrite (surjective_pairing (fold_left (syncTask env) (completedTasks d) (d, false))).
    fold (synced d).
    destruct (syncTasks_fold env (completedTasks d) d false)
      as (Hid & _ & _ & _ & _ & _ & _ & _ & _ & _ & _ & Hsame).
    cbv zeta in Hid, Hsame. fold (synced d) in Hid, Hsame.
    assert (Hstored : (if snd (fold_left (syncTask env) (completedTasks d) (d, false))
                       then save progress_id false (synced d) (map synced done ++ d :: rest)
                       else map synced done ++ d :: rest)
                      = map synced (done ++ [d]) ++ rest).
    { rewrite map_app, <- app_assoc. cbn [map app].
      destruct (snd (fold_left (syncTask env) (completedTasks d) (d, false))) eqn:Hchanged.
      - apply save_in_place; [exact Hid|].
        rewrite map_map. intro Hin. apply in_map_iff in Hin as (x & Hx & Hin).
        assert (Hxid : progress_id x = progress_id d).
        { rewrite <- Hx. symmetry.
          apply (proj1 (syncTasks_fold env (completedTasks x) x false)). }
        rewrite map_app in Hnd. apply NoDup_remove_2 in Hnd. apply Hnd.
        apply in_or_app. left. rewrite <- Hxid. now apply in_map.
      - now rewrite (proj1 (Hsame eq_refl)). }
    replace (done ++ d :: rest) with ((done ++ [d]) ++ rest) in * by (now rewrite <- app_assoc).
    destruct (snd (fold_left (syncTask env) (completedTasks d) (d, false)));
      rewrite Hstored; apply IH; exact Hnd.
Qed.

Lemma syncCompleted_run (env : Env) (db : DB) :
  NoDup (map progress_id (progresses db)) ->
  progresses (fst (syncCompletedTasksToTaskProgress env db)) =
  map (fun p => fst (fold_left (syncTask env) (completedTasks p) (p, false))) (progresses db).
Proof.
  intro Hnd. unfold syncCompletedTasksToTaskProgress.
  destruct (@syncProgress_fold env [] (progresses db) 0 Hnd) as (n' & Hfold).
  cbn [map app] in Hfold. rewrite Hfold. reflexivity.
Qed.

Lemma Forall2_map_r (A B : Type) (P : A -> B -> Prop) (f : A -> B) (l : list A) :
  (forall x, In x l -> P x (f x)) -> Forall2 P l (map f l).
Proof.
  induction l as [|x l IH]; intro H; [constructor|].
  simpl. constructor; [apply H; now left|]. apply IH. intros y Hy. apply H. now right.
Qed.

(** After the script every completed task has its entry. *)
Lemma syncCompleted_in_line (env : Env) (db : DB) :
  NoDup (map progress_id (progresses db)) ->
  Forall2 (fun p p' =>
             progress_id p' = progress_id p /\
             progress_user p' = progress_user p /\
             progress_course p' = progress_course p /\
             completedTasks p' = completedTasks p /\
             totalTasks p' = totalTasks p /\
             completedTasksCount p' = completedTasksCount p /\
             forall taskId, In taskId (completedTasks p') ->
                            entryCompleted (taskProgress p') taskId)
          (progresses db)
          (progresses (fst (syncCompletedTasksToTaskProgress env db))).
Proof.
  intro Hnd. rewrite syncCompleted_run by exact Hnd.
  apply Forall2_map_r. intros p _.
  destruct (syncTasks_fold env (completedTasks p) p false)
    as (H1 & H2 & H3 & H4 & H5 & H6 & _ & _ & H9 & _).
  cbv zeta in *. repeat (split; [assumption|]).
  intros taskId Hin. apply H9. now rewrite H4 in Hin.
Qed.

(** X14.  The script brings [taskProgress] in line with [completedTasks].
    With [_id] a key of the Progress collection, every record keeps its
    place, its owner, its course, its completed tasks and its counts,
    and afterwards every task listed in [completedTasks] has an entry in
    [taskProgress] whose first occurrence is marked completed. *)
Theorem sync_completes_entries (env : Env) (db : DB) :
  NoDup (map progress_id (progresses db)) ->
  Forall2 (fun p p' =>
             progress_id p' = progress_id p /\
             progress_user p' = progress_user p /\
             progress_course p' = progress_course p /\
             completedTasks p' = completedTasks p /\
             totalTasks p' = totalTasks p /\
             completedTasksCount p' = completedTasksCount p /\
             forall taskId, In taskId (completedTasks p') ->
                            entryCompleted (taskProgress p') taskId)
          (progresses db)
          (progresses (fst (syncCompletedTasksToTaskProgress env db))).
Proof. exact (@syncCompleted_in_line env db). Qed.

Lemma sync_completes_entries_witness :
  NoDup (map progress_id (progresses store6)) /\
  Forall2 (fun p p' =>
             progress_id p' = progress_id p /\
             progress_user p' = progress_user p /\
             progress_course p' = progress_course p /\
             completedTasks p' = completedTasks p /\
             totalTasks p' = totalTasks p /\
             completedTasksCount p' = completedTasksCount p /\
             forall taskId, In taskId (completedTasks p') ->
                            entryCompleted (taskProgress p') taskId)
          (progresses store6)
          (progresses (fst (syncCompletedTasksToTaskProgress env0 store6))).
Proof.
  assert (Hnd : NoDup (map progress_id (progresses store6))).
  { repeat constructor. simpl. tauto. }
  split; [exact Hnd|]. exact (@sync_completes_entries env0 store6 Hnd).
Defined.

(** X15.  The script only adds entries and marks entries completed: no
    entry of a record is removed or moved, and an entry is either left
    as it is or has [completed] and [completedAt] set, its task, its
    uploads, its rating and its review fields being kept.  The other
    collections are not written. *)
Theorem sync_keeps_entries (env : Env) (db : DB) :
  NoDup (map progress_id (progresses db)) ->
  let db' := fst (syncCompletedTasksToTaskProgress env db) in
  Forall2 (fun p p' =>
             forall i tp, nth_error (taskProgress p) i = Some tp ->
               exists tp', nth_error (taskProgress p') i = Some tp' /\
                           (tp' = tp \/ tp' = markCompleted (now env) tp))
          (progresses db) (progresses db') /\
  users db' = users db /\ students db' = students db /\ badges db' = badges db /\
  courses db' = courses db /\ skills db' = skills db /\ tasks db' = tasks db.
Proof.
  intros Hnd db'. split.
  - unfold db'. rewrite syncCompleted_run by exact Hnd.
    apply Forall2_map_r. intros p _.
    apply (syncTasks_fold env (completedTasks p) p false).
  - unfold db', syncCompletedTasksToTaskProgress.
    destruct (fold_left (syncProgress env) (progresses db) (progresses db, 0)).
    repeat split.
Qed.

Lemma sync_keeps_entries_witness :
  Forall2 (fun p p' =>
             forall i tp, nth_error (taskProgress p) i = Some tp ->
               exists tp', nth_error (taskProgress p') i = Some tp' /\
                           (tp' = tp \/ tp' = markCompleted (now env0) tp))
          (progresses store6)
          (progresses (fst (syncCompletedTasksToTaskProgress env0 store6))).
Proof.
  assert (Hnd : NoDup (map progress_id (progresses store6))).
  { repeat constructor. simpl. tauto. }
  exact (proj1 (@sync_keeps_entries env0 store6 Hnd)).
Defined.

(** A document already in line is left alone. *)
Lemma syncTasks_in_line (env : Env) (ts : list ObjectId) (progress : Progress) :
  (forall taskId, In taskId ts -> entryCompleted (taskProgress progress) taskId) ->
  fold_left (syncTask env) ts (progress, false) = (progress, false).
Proof.
  induction ts as [|t ts IH]; intro H; [reflexivity|].
  cbn [fold_left]. destruct (H t (or_introl eq_refl)) as (i & tp & Hfind & Hdone).
  unfold syncTask at 2. rewrite Hfind, Hdone. cbn [negb].
  apply IH. intros taskId Hin. apply H. now right.
Qed.

Lemma syncProgress_in_line (env : Env) (l stored : list Progress) (n : nat) :
  (forall p, In p l ->
     forall taskId, In taskId (completedTasks p) -> entryCompleted (taskProgress p) taskId) ->
  fold_left (syncProgress env) l (stored, n) = (stored, n).
Proof.
  induction l as [|p l IH]; intro H; [reflexivity|].
  cbn [fold_left]. unfold syncProgress at 2.
  rewrite syncTasks_in_line by (apply H; now left).
  apply IH. intros q Hq. apply H. now right.
Qed.

Lemma Forall2_In_right (A B : Type) (P : A -> B -> Prop) (l : list A) (l' : list B) (y : B) :
  Forall2 P l l' -> In y l' -> exists x, In x l /\ P x y.
Proof.
  induction 1 as [|x y' l l' Hxy _ IH]; intros Hin; [destruct Hin|].
  destruct Hin as [<-|Hin].
  - exists x. split; [now left|exact Hxy].
  - destruct (IH Hin) as (x' & Hx' & HP). exists x'. split; [now right|exact HP].
Qed.

(** X16.  The script is idempotent: with [_id] a key of the Progress
    collection, a second run, at whatever time, finds nothing to do; it
    reports 0 updated documents and leaves the store the first run
    produced. *)
Theorem sync_idempotent (env env' : Env) (db : DB) :
  NoDup (map progress_id (progresses db)) ->
  syncCompletedTasksToTaskProgress env' (fst (syncCompletedTasksToTaskProgress env db)) =
  (fst (syncCompletedTasksToTaskProgress env db), 0).
Proof.
  intro Hnd.
  pose proof (@syncCompleted_in_line env db Hnd) as Hdone.
  set (db1 := fst (syncCompletedTasksToTaskProgress env db)) in *.
  unfold syncCompletedTasksToTaskProgress at 1.
  rewrite syncProgress_in_line.
  - destruct db1; reflexivity.
  - intros p' Hin.
    destruct (@Forall2_In_right _ _ _ _ _ p' Hdone Hin) as (p & _ & H). apply H.
Qed.

Lemma sync_idempotent_witness :
  syncCompletedTasksToTaskProgress env0 (fst (syncCompletedTasksToTaskProgress env0 store6)) =
  (fst (syncCompletedTasksToTaskProgress env0 store6), 0).
Proof.
  apply sync_idempotent. repeat constructor. simpl. tauto.
Defined.

(** ** The script syncReferences *)

(** The inner loop writes the Skill collection only. *)
Lemma syncSkill_fold (l : list Skill) (db : DB) :
  fold_left syncSkill l db =
  setSkills db
    (fold_left (fun stored skill =>
                  save skill_id false (setSkillTasks skill (tasksOf db skill)) stored)
               l (skills db)).
Proof.
  revert db. induction l as [|s l IH]; intro db.
  - destruct db; reflexivity.
  - cbn [fold_left]. rewrite IH. reflexivity.
Qed.

Section SaveSome.
Variable D : Type.
Variable idOf : D -> ObjectId.
Variable P : D -> bool.
Variable g : D -> D.
Hypothesis g_id : forall d, idOf (g d) = idOf d.

(** Saving, one after the other, what [g] makes of the documents of the
    collection that satisfy [P]. *)
Lemma save_filtered (pre todo : list D) :
  NoDup (map idOf (pre ++ todo)) ->
  fold_left (fun stored d => save idOf false (g d) stored) (filter P todo) (pre ++ todo)
  = pre ++ map (fun d => if P d then g d else d) todo.
Proof.
  revert pre. induction todo as [|d todo IH]; intros pre Hnd; [reflexivity|].
  cbn [filter map]. 
  assert (Hnd' : NoDup (map idOf ((pre ++ [d]) ++ todo))) by (now rewrite <- app_assoc).
  destruct (P d).
  - cbn [fold_left]. rewrite save_in_place.
    + replace (pre ++ g d :: todo) with ((pre ++ [g d]) ++ todo) by (now rewrite <- app_assoc).
      rewrite IH; [now rewrite <- app_assoc|].
      rewrite <- app_assoc. cbn [app]. rewrite map_app in *. cbn [map] in *.
      now rewrite g_id.
    + apply g_id.
    + rewrite map_app in Hnd. now apply NoDup_remove_2 in Hnd as Hnot;
        intro Hin; apply Hnot, in_or_app; left.
  - replace (pre ++ d :: todo) with ((pre ++ [d]) ++ todo) by (now rewrite <- app_assoc).
    rewrite IH by exact Hnd'. now rewrite <- app_assoc.
Qed.

End SaveSome.

(** One turn of the outer loop, with [_id] a key of the Skill collection. *)
Lemma syncCourse_run (db : DB) (course : Course) :
  NoDup (map skill_id (skills db)) ->
  syncCourse db course =
  setSkills
    (setCourses db
       (save course_id false (setCourseSkills course (skillsOf db course)) (courses db)))
    (map (fun skill => if skill_course skill =? course_id course
                       then setSkillTasks skill (tasksOf db skill) else skill)
         (skills db)).
Proof.
  intro Hnd. unfold syncCourse. rewrite syncSkill_fold.
  cbn [skills setCourses]. f_equal.
  apply (@save_filtered _ skill_id (fun skill => skill_course skill =? course_id course)
           (fun skill => setSkillTasks skill (tasksOf db skill))
           (fun _ => eq_refl) [] (skills db) Hnd).
Qed.

Lemma skills_of_rewritten (f : Skill -> Skill) (courseId : ObjectId) (l : list Skill) :
  (forall s, skill_id (f s) = skill_id s /\ skill_course (f s) = skill_course s) ->
  map skill_id (filter (fun skill => skill_course skill =? courseId) (map f l)) =
  map skill_id (filter (fun skill => skill_course skill =? courseId) l).
Proof.
  intro Hf. induction l as [|s l IH]; [reflexivity|].
  cbn [map filter]. rewrite (proj2 (Hf s)).
  destruct (skill_course s =? courseId); cbn [map]; [|exact IH].
  now rewrite (proj1 (Hf s)), IH.
Qed.

(** One turn of the outer loop takes a course from [todo] to [done]. *)
Lemma syncCourse_step (db : DB) (done todo : list Course) (c : Course) :
  courses db = done ++ c :: todo ->
  NoDup (map course_id (courses db)) ->
  NoDup (map skill_id (skills db)) ->
  syncCourse (syncedSoFar db done (c :: todo)) c = syncedSoFar db (done ++ [c]) todo.
Proof.
  intros Hcourses Hndc Hnds.
  rewrite syncCourse_run.
  2: { unfold syncedSoFar. cbn [skills setSkills]. rewrite map_map.
       erewrite map_ext; [exact Hnds|]. intro s. now destruct (hasCourse done s). }
  assert (Hskills : skillsOf (syncedSoFar db done (c :: todo)) c = skillsOf db c).
  { unfold skillsOf, syncedSoFar. cbn [skills setSkills]. apply skills_of_rewritten.
    intro s. now destruct (hasCourse done s). }
  rewrite Hskills.
  assert (Hsaved : save course_id false (setCourseSkills c (skillsOf db c))
                     (courses (syncedSoFar db done (c :: todo)))
                   = map (fun course => setCourseSkills course (skillsOf db course))
                         (done ++ [c]) ++ todo).
  { unfold syncedSoFar. cbn [courses setSkills setCourses].
    rewrite save_in_place.
    - rewrite map_app, <- app_assoc. reflexivity.
    - reflexivity.
    - rewrite map_map. cbn [course_id setCourseSkills].
      rewrite Hcourses, map_app in Hndc. apply NoDup_remove_2 in Hndc.
      intro Hin. apply Hndc, in_or_app. now left. }
  rewrite Hsaved.
  assert (Hmapped : map (fun skill => if skill_course skill =? course_id c
                                      then setSkillTasks skill
                                             (tasksOf (syncedSoFar db done (c :: todo)) skill)
                                      else skill)
                        (skills (syncedSoFar db done (c :: todo)))
                    = map (fun skill => if hasCourse (done ++ [c]) skill
                                        then setSkillTasks skill (tasksOf db skill)
                                        else skill) (skills db)).
  { unfold syncedSoFar at 2. cbn [skills setSkills]. rewrite map_map.
    apply map_ext. intro s.
    change (tasksOf (syncedSoFar db done (c :: todo))) with (tasksOf db).
    unfold hasCourse. rewrite existsb_app. cbn [existsb]. rewrite orb_false_r.
    destruct (existsb (fun course => skill_course s =? course_id course) done);
      cbn [orb skill_course setSkillTasks];
      destruct (skill_course s =? course_id c); reflexivity. }
  rewrite Hmapped. reflexivity.
Qed.

(** The loop over the courses. *)
Lemma syncCourse_fold (db : DB) (done todo : list Course) :
  courses db = done ++ todo ->
  NoDup (map course_id (courses db)) ->
  NoDup (map skill_id (skills db)) ->
  fold_left syncCourse todo (syncedSoFar db done todo) = syncedSoFar db (done ++ todo) [].
Proof.
  intros Hcourses Hndc Hnds. revert done Hcourses.
  induction todo as [|c todo IH]; intros done Hcourses.
  - now rewrite app_nil_r.
  - cbn [fold_left]. rewrite syncCourse_step by assumption.
    rewrite IH by (now rewrite <- app_assoc). now rewrite <- app_assoc.
Qed.

(** What the script leaves. *)
Lemma syncReferences_run (db : DB) :
  NoDup (map course_id (courses db)) ->
  NoDup (map skill_id (skills db)) ->
  syncReferences db =
  setSkills
    (setCourses db (map (fun course => setCourseSkills course (skillsOf db course))
                        (courses db)))
    (map (fun skill => if hasCourse (courses db) skill
                       then setSkillTasks skill (tasksOf db skill) else skill)
         (skills db)).
Proof.
  intros Hndc Hnds. unfold syncReferences.
  replace db with (syncedSoFar db [] (courses db)) at 2.
  - rewrite syncCourse_fold by (assumption || reflexivity).
    unfold syncedSoFar. cbn [app]. now rewrite app_nil_r.
  - unfold syncedSoFar. cbn [map app hasCourse existsb]. rewrite map_id.
    destruct db; reflexivity.
Qed.

Lemma tasks_of_rewritten (db db' : DB) (skill skill' : Skill) :
  tasks db' = tasks db -> skill_id skill' = skill_id skill ->
  tasksOf db' skill' = tasksOf db skill.
Proof. intros Ht Hs. unfold tasksOf. now rewrite Ht, Hs. Qed.

Lemma hasCourse_rewritten (f : Course -> Course) (l : list Course) (skill skill' : Skill) :
  (forall c, course_id (f c) = course_id c) -> skill_course skill' = skill_course skill ->
  hasCourse (map f l) skill' = hasCourse l skill.
Proof.
  intros Hf Hs. unfold hasCourse. rewrite Hs. induction l as [|c l IH]; [reflexivity|].
  cbn [map existsb]. now rewrite Hf, IH.
Qed.

(** What the script leaves, read off the store it leaves. *)
Lemma syncReferences_effect (db : DB) :
  NoDup (map course_id (courses db)) ->
  NoDup (map skill_id (skills db)) ->
  let db' := syncReferences db in
  (forall course, In course (courses db') -> course_skills course = skillsOf db' course) /\
  (forall skill, In skill (skills db') ->
     if hasCourse (courses db') skill then skill_tasks skill = tasksOf db' skill
     else In skill (skills db)) /\
  Forall2 (fun c c' => course_id c' = course_id c /\ course_name c' = course_name c /\
                       course_coach c' = course_coach c /\
                       course_students c' = course_students c)
          (courses db) (courses db') /\
  Forall2 (fun s s' => skill_id s' = skill_id s /\ skill_title s' = skill_title s /\
                       skill_course s' = skill_course s)
          (skills db) (skills db') /\
  tasks db' = tasks db /\ users db' = users db /\ students db' = students db /\
  badges db' = badges db /\ progresses db' = progresses db.
Proof.
  intros Hndc Hnds db'. unfold db'. rewrite syncReferences_run by assumption.
  cbn [courses skills tasks users students badges progresses setSkills setCourses].
  set (gc := fun course => setCourseSkills course (skillsOf db course)).
  set (gs := fun skill => if hasCourse (courses db) skill
                          then setSkillTasks skill (tasksOf db skill) else skill).
  set (db1 := setSkills (setCourses db (map gc (courses db))) (map gs (skills db))).
  assert (Hgs : forall s, skill_id (gs s) = skill_id s /\ skill_course (gs s) = skill_course s).
  { intro s. unfold gs. now destruct (hasCourse (courses db) s). }
  split; [|split; [|split; [|split; [|repeat split]]]].
  - intros c' Hin. apply in_map_iff in Hin as (c & <- & _).
    change (skillsOf db c = skillsOf db1 (gc c)). symmetry.
    unfold skillsOf, db1. cbn [skills setSkills course_id gc setCourseSkills].
    now apply skills_of_rewritten.
  - intros s' Hin. apply in_map_iff in Hin as (s & <- & Hin).
    cbn [courses db1 setSkills setCourses].
    rewrite (@hasCourse_rewritten gc (courses db) s (gs s) (fun _ => eq_refl) (proj2 (Hgs s))).
    destruct (hasCourse (courses db) s) eqn:Hhas.
    + unfold gs at 1. rewrite Hhas. cbn [skill_tasks setSkillTasks]. symmetry.
      apply tasks_of_rewritten; [reflexivity|apply Hgs].
    + unfold gs. now rewrite Hhas.
  - apply Forall2_map_r. intros c _. now repeat split.
  - apply Forall2_map_r. intros s _. unfold gs.
    now destruct (hasCourse (courses db) s).
Qed.

(** X17.  The script rebuilds the references of the catalog from the
    back-pointers.  With [_id] a key of the Course and of the Skill
    collection, afterwards every course lists exactly the skills whose
    [course] it is, in the order of the collection, every skill of an
    existing course lists exactly the tasks whose [skill] it is, a skill
    whose course does not exist is left as it was, and nothing else is
    written: ids, names, owners and back-pointers stay, and so do the
    other collections. *)
Theorem syncReferences_rebuilds (db : DB) :
  NoDup (map course_id (courses db)) ->
  NoDup (map skill_id (skills db)) ->
  let db' := syncReferences db in
  (forall course, In course (courses db') -> course_skills course = skillsOf db' course) /\
  (forall skill, In skill (skills db') ->
     if hasCourse (courses db') skill then skill_tasks skill = tasksOf db' skill
     else In skill (skills db)) /\
  Forall2 (fun c c' => course_id c' = course_id c /\ course_name c' = course_name c /\
                       course_coach c' = course_coach c /\
                       course_students c' = course_students c)
          (courses db) (courses db') /\
  Forall2 (fun s s' => skill_id s' = skill_id s /\ skill_title s' = skill_title s /\
                       skill_course s' = skill_course s)
          (skills db) (skills db') /\
  tasks db' = tasks db /\ users db' = users db /\ students db' = students db /\
  badges db' = badges db /\ progresses db' = progresses db.
Proof. exact (@syncReferences_effect db). Qed.

Lemma syncReferences_rebuilds_witness :
  (forall course, In course (courses (syncReferences store8)) ->
                  course_skills course = skillsOf (syncReferences store8) course) /\
  courses (syncReferences store8) = [course1] /\
  skills (syncReferences store8) = [skill2].
Proof.
  assert (Hndc : NoDup (map course_id (courses store8))).
  { repeat constructor. simpl. tauto. }
  assert (Hnds : NoDup (map skill_id (skills store8))).
  { repeat constructor. simpl. tauto. }
  split; [exact (proj1 (@syncReferences_rebuilds store8 Hndc Hnds))|].
  split; reflexivity.
Defined.

(** X18.  The script is idempotent: with [_id] a key of the Course and
    of the Skill collection, a second run leaves the store the first run
    produced. *)
Theorem syncReferences_idempotent (db : DB) :
  NoDup (map course_id (courses db)) ->
  NoDup (map skill_id (skills db)) ->
  syncReferences (syncReferences db) = syncReferences db.
Proof.
  intros Hndc Hnds.
  destruct (@syncReferences_effect db Hndc Hnds)
    as (Hc & Hs & Hcs & Hss & Ht & Hu & Hst & Hb & Hp).
  cbv zeta in *. set (db' := syncReferences db) in *.
  assert (Hids : map course_id (courses db') = map course_id (courses db)).
  { clear - Hcs. induction Hcs as [|c c' l l' (H & _) _ IH]; [reflexivity|].
    cbn [map]. now rewrite H, IH. }
  assert (Hsids : map skill_id (skills db') = map skill_id (skills db)).
  { clear - Hss. induction Hss as [|s s' l l' (H & _) _ IH]; [reflexivity|].
    cbn [map]. now rewrite H, IH. }
  rewrite syncReferences_run by (rewrite ?Hids, ?Hsids; assumption).
  assert (Hcourses : map (fun course => setCourseSkills course (skillsOf db' course))
                         (courses db') = courses db').
  { rewrite <- map_id. apply map_ext_in. intros c Hin.
    rewrite <- (Hc c Hin). destruct c; reflexivity. }
  assert (Hskills : map (fun skill => if hasCourse (courses db') skill
                                      then setSkillTasks skill (tasksOf db' skill)
                                      else skill) (skills db') = skills db').
  { rewrite <- map_id. apply map_ext_in. intros s Hin.
    pose proof (Hs s Hin) as H. destruct (hasCourse (courses db') s); [|reflexivity].
    rewrite <- H. destruct s; reflexivity. }
  rewrite Hcourses, Hskills. destruct db'; reflexivity.
Qed.

Lemma syncReferences_idempotent_witness :
  syncReferences (syncReferences store8) = syncReferences store8.
Proof.
  apply syncReferences_idempotent; repeat constructor; simpl; tauto.
Defined.

Section OwnDocuments.
Variable D : Type.
Variable idOf : D -> ObjectId.

(** With [_id] a key, a document of the collection is the one found
    under its id. *)
Lemma findById_own (c : list D) (d : D) :
  NoDup (map idOf c) -> In d c -> findById idOf c (idOf d) = Some d.
Proof.
  unfold findById. induction c as [|x c IH]; intros Hnd Hin; [destruct Hin|].
  cbn [map] in Hnd. inversion Hnd as [|? ? Hnot Hnd']; subst.
  cbn [find]. destruct Hin as [->|Hin].
  - now rewrite Nat.eqb_refl.
  - destruct (Nat.eqb_spec (idOf x) (idOf d)) as [E|_]; [|now apply IH].
    exfalso. apply Hnot. rewrite E. now apply in_map.
Qed.

(** Populating the ids of documents of the collection gives these
    documents back. *)
Lemma populate_own (c l : list D) :
  NoDup (map idOf c) -> (forall d, In d l -> In d c) ->
  populate idOf c (map idOf l) = l.
Proof.
  intros Hnd Hin. unfold populate. induction l as [|d l IH]; [reflexivity|].
  cbn [map flat_map]. rewrite findById_own; [|exact Hnd|apply Hin; now left].
  cbn [app]. f_equal. apply IH. intros x Hx. apply Hin. now right.
Qed.

End OwnDocuments.

(** X19.  After syncReferences the task total of a course is exact: with
    [_id] a key of the Course, Skill and Task collections, the tasks that
    complete-task and the progress read count for a course of the store
    are exactly the tasks whose skill belongs to the course, each
    counted once, whatever the [skills] and [tasks] arrays held before. *)
Theorem totals_after_syncReferences (db : DB) (course : Course) :
  NoDup (map course_id (courses db)) ->
  NoDup (map skill_id (skills db)) ->
  NoDup (map task_id (tasks db)) ->
  In course (courses db) ->
  allTasks (syncReferences db) (course_id course) =
  flat_map (tasksOf db)
           (filter (fun skill => skill_course skill =? course_id course) (skills db)).
Proof.
  intros Hndc Hnds Hndt Hin.
  rewrite syncReferences_run by assumption.
  unfold allTasks, skillsWithTasks. cbn [skills tasks setSkills setCourses].
  induction (skills db) as [|s l IH]; [reflexivity|].
  cbn [map filter].
  assert (Hcourse : skill_course (if hasCourse (courses db) s
                                  then setSkillTasks s (tasksOf db s) else s)
                    = skill_course s) by (now destruct (hasCourse (courses db) s)).
  rewrite Hcourse.
  destruct (Nat.eqb_spec (skill_course s) (course_id course)) as [E|_].
  - cbn [map flat_map snd]. rewrite <- IH by (now inversion Hnds). f_equal.
    assert (Hhas : hasCourse (courses db) s = true).
    { unfold hasCourse. apply existsb_exists. exists course.
      split; [exact Hin|now apply Nat.eqb_eq]. }
    rewrite Hhas. cbn [skill_tasks setSkillTasks]. unfold tasksOf at 1.
    rewrite populate_own; [reflexivity|exact Hndt|].
    intros t Ht. now apply filter_In in Ht as [Ht _].
  - apply IH. now inversion Hnds.
Qed.

Lemma totals_after_syncReferences_witness :
  allTasks store8 1 = [] /\ allTasks (syncReferences store8) 1 = [3].
Proof.
  split; [reflexivity|].
  assert (Hndc : NoDup (map course_id (courses store8))).
  { repeat constructor. simpl. tauto. }
  assert (Hnds : NoDup (map skill_id (skills store8))).
  { repeat constructor. simpl. tauto. }
  assert (Hndt : NoDup (map task_id (tasks store8))).
  { repeat constructor. simpl. tauto. }
  assert (Hin : In (setCourseSkills course1 []) (courses store8)) by (now left).
  exact (@totals_after_syncReferences store8 _ Hndc Hnds Hndt Hin).
Defined.

(** ** The Progress documents the handlers save *)

Section SavedDocuments.
Variable D : Type.
Variable idOf : D -> ObjectId.

Lemma In_save (isNew : bool) (d : D) (c : list D) (x : D) :
  In x (save idOf isNew d c) -> In x c \/ x = d.
Proof.
  unfold save. destruct isNew.
  - intro H. apply in_app_or in H as [H|[H|[]]]; [now left|now right].
  - intro H. apply In_updateOne in H as [H|(y & _ & _ & H)]; [now left|now right].
Qed.

End SavedDocuments.

Lemma setCompletedTasks_same (p : Progress) : setCompletedTasks p (completedTasks p) = p.
Proof. destruct p; reflexivity. Qed.

Lemma keepsReview_uploads (env : Env) (files : list File) :
  keepsReview (fun tp =>
                 markSubmitted (now env)
                   (fold_left (fun tp file => pushUpload (uploadOf env file) tp) files tp)).
Proof.
  intro tp. cbn [markSubmitted tp_task completed coachRating reviewed approved reviewedAt
                 reviewFeedback].
  revert tp. induction files as [|file files IH]; intro tp; [now repeat split|].
  cbn [fold_left]. destruct (IH (pushUpload (uploadOf env file) tp))
    as (H1 & H2 & H3 & H4 & H5 & H6 & H7).
  now repeat split.
Qed.

Lemma Saved_counts (env : Env) (p : Progress) (done total : nat) :
  Saved env p (setCounts p done total).
Proof.
  pose proof (@SavedCounts env p (completedTasks p) done total (or_introl eq_refl)) as H.
  now rewrite setCompletedTasks_same in H.
Qed.

(** Every Progress document a request leaves in the collection was there
    before, or is what the handler saved: a document derived from one
    that was there or from a freshly constructed one. *)
Lemma handle_saves (env : Env) (db : DB) (reqUser : User) (r : Request) (p' : Progress) :
  In p' (progresses (snd (handle env db reqUser r))) ->
  In p' (progresses db) \/
  exists p0,
    (In p0 (progresses db) \/ exists userId courseId, p0 = newProgress env userId courseId) /\
    Saved env p0 p'.
Proof.
  assert (Hloaded : forall userId courseId,
            let stored := findProgress db userId courseId in
            In (match stored with Some p => p | None => newProgress env userId courseId end)
               (progresses db) \/
            exists u c, match stored with Some p => p | None => newProgress env userId courseId end
                        = newProgress env u c).
  { intros userId courseId. cbv zeta.
    destruct (findProgress db userId courseId) as [p|] eqn:E.
    - left. unfold findProgress in E. now apply find_some in E.
    - right. now exists userId, courseId. }
  destruct r as [taskId courseId|courseId|taskId courseId files|courseId|courseId
                 |courseId studentId|id studentId taskId rating feedback|id studentId
                 |skillId|taskId|id]; cbn [handle].
  - (* complete-task *)
    rewrite completeTask_run. cbv zeta. cbn [snd].
    rewrite (proj2 (proj2 (proj2 (proj2 (proj2 (awardBadges_frame _ reqUser)))))).
    cbn [progresses setProgresses]. intro Hin.
    apply In_save in Hin as [Hin | ->]; [now left|]. right.
    set (loaded := match findProgress db (user_id reqUser) courseId with
                   | Some p => p
                   | None => newProgress env (user_id reqUser) courseId
                   end).
    exists loaded. split; [apply Hloaded|].
    destruct (includes taskId (completedTasks loaded)) eqn:Hinc.
    + apply Saved_counts.
    + replace (completedTasks (setCompletedTasks loaded (completedTasks loaded ++ [taskId])))
        with (completedTasks loaded ++ [taskId]) by reflexivity.
      apply SavedCounts. right. exists taskId. split; [|reflexivity].
      intro Hin. apply includes_In in Hin. congruence.
  - (* progress read *)
    unfold getProgress.
    destruct (findProgress db (user_id reqUser) courseId) as [p|] eqn:E; [|now left].
    cbn [snd progresses setProgresses]. intro Hin.
    apply In_save in Hin as [Hin | ->]; [now left|]. right.
    exists p. split; [left; unfold findProgress in E; now apply find_some in E|].
    apply Saved_counts.
  - (* submit-task *)
    unfold submitTask. destruct (length files =? 0); [now left|].
    pose proof (Hloaded (user_id reqUser) courseId) as Horigin. cbv zeta in Horigin.
    set (stored := findProgress db (user_id reqUser) courseId) in *.
    set (loaded := match stored with
                   | Some p => p
                   | None => newProgress env (user_id reqUser) courseId
                   end) in *.
    replace (match stored with
             | Some p => (p, false)
             | None => (newProgress env (user_id reqUser) courseId, true)
             end)
      with (loaded, match stored with Some _ => false | None => true end)
      by (subst loaded; now destruct stored).
    cbv beta iota zeta.
    destruct (findTaskProgress taskId (taskProgress loaded)) as [[i tp]|] eqn:Hentry.
    + rewrite submit_through_subdocument. cbn [writeTp fst snd progresses setProgresses].
      intro Hin. apply In_save in Hin as [Hin | ->]; [now left|]. right.
      exists loaded. split; [exact Horigin|].
      cbn [taskProgress setTaskProgress]. rewrite updateAt_updateAt.
      change (setTaskProgress (setTaskProgress loaded ?l) ?l') with (setTaskProgress loaded l').
      apply SavedUploads. apply keepsReview_uploads.
    + destruct (submit_through_plain_object env files
                  {| plain_task := taskId; plain_studentUploads := [];
                     plain_submittedForReview := None; plain_submittedAt := None |}
                  (setTaskProgress loaded
                     (taskProgress loaded ++ [castTaskProgress taskId []])))
        as [obj' ->].
      cbn [writeTp fst snd progresses setProgresses].
      intro Hin. apply In_save in Hin as [Hin | ->]; [now left|]. right.
      exists loaded. split; [exact Horigin|]. apply SavedEntry.
  - unfold getSubmissions. branches; now left.
  - unfold markSeen. branches; now left.
  - unfold getStudentTasks, coach. branches; now left.
  - (* rate-task *)
    unfold rateTask, coach. destruct (user_role reqUser); [now left|].
    destruct (invalidRating rating); [now left|].
    destruct (findById course_id (courses db) id); [|now left].
    destruct (negb _); [now left|].
    destruct (findProgress db studentId id) as [p|] eqn:E; [|now left].
    destruct (findTaskProgress taskId (taskProgress p)) as [[i tp]|]; [|now left].
    cbn [snd progresses setProgresses]. intro Hin.
    apply In_save in Hin as [Hin | ->]; [now left|]. right.
    exists p. split; [left; unfold findProgress in E; now apply find_some in E|].
    apply SavedRating.
  - unfold getStudentProgress, coach. branches; now left.
  - unfold deleteSkill, coach. branches; now left.
  - unfold deleteTask, coach. branches; now left.
  - unfold deleteCourse, coach. destruct (user_role reqUser); [now left|].
    destruct (findById course_id (courses db) id); [|now left].
    destruct (negb _); [now left|].
    cbn [snd progresses setProgresses setCourses]. unfold deleteMany.
    intro Hin. apply filter_In in Hin as [Hin _]. now left.
Qed.

(** A property of Progress documents that holds of a new document and
    that the handlers keep holds of every document a session leaves. *)
Lemma serve_invariant (Q : Progress -> Prop) :
  (forall env userId courseId, Q (newProgress env userId courseId)) ->
  (forall env p0 p', Q p0 -> Saved env p0 p' -> Q p') ->
  forall (session : list (Env * User * Request)) (db : DB),
    (forall p, In p (progresses db) -> Q p) ->
    forall p, In p (progresses (serve db session)) -> Q p.
Proof.
  intros Hnew Hsaved. induction session as [|[[env reqUser] r] rest IH]; intros db HQ.
  - exact HQ.
  - cbn [serve]. apply IH. intros p Hin.
    apply handle_saves in Hin as [Hin|(p0 & [H0|(u & c & ->)] & Hs)].
    + now apply HQ.
    + apply (Hsaved env p0); [now apply HQ|exact Hs].
    + apply (Hsaved env (newProgress env u c)); [apply Hnew|exact Hs].
Qed.

(** X20.  A task is never listed twice among the completed tasks of a
    record: whatever requests of the progress, skills and courses routers
    are served, if the [completedTasks] of every record are free of
    duplicates before, they are afterwards, so that
    [completedTasksCount] never counts a task twice. *)
Theorem completedTasks_stay_distinct (db : DB) (session : list (Env * User * Request)) :
  (forall p, In p (progresses db) -> NoDup (completedTasks p)) ->
  forall p, In p (progresses (serve db session)) -> NoDup (completedTasks p).
Proof.
  apply (@serve_invariant (fun p => NoDup (completedTasks p))).
  - intros env userId courseId. constructor.
  - intros env p0 p' H0 Hs. destruct Hs as [l a b [->|(t & Hnot & ->)]| | |];
      cbn [completedTasks setCounts setCompletedTasks setTaskProgress setAverageRating];
      try exact H0.
    now apply NoDup_snoc.
Qed.

Lemma completedTasks_stay_distinct_witness :
  Forall (fun p => NoDup (completedTasks p))
         (progresses (serve store0 [(env0, student20, CompleteTask 3 1);
                                    (env0, student20, CompleteTask 3 1)])).
Proof.
  apply Forall_forall. apply completedTasks_stay_distinct. intros p [].
Defined.

Section UpdatedEntries.
Variable A : Type.

Lemma In_updateAt (i : nat) (f : A -> A) (l : list A) (x : A) :
  In x (updateAt i f l) -> In x l \/ exists y, In y l /\ x = f y.
Proof.
  revert i. induction l as [|y l IH]; intros i H; [now destruct i|].
  destruct i as [|i]; cbn [updateAt] in H; destruct H as [<-|H].
  - right. exists y. split; [now left|reflexivity].
  - left. now right.
  - left. now left.
  - destruct (IH i H) as [Hin|(z & Hz & ->)]; [left; now right|].
    right. exists z. split; [now right|reflexivity].
Qed.

Lemma map_updateAt_same (B : Type) (h : A -> B) (i : nat) (f : A -> A) (l : list A) :
  (forall x, h (f x) = h x) -> map h (updateAt i f l) = map h l.
Proof.
  intro Hf. revert i. induction l as [|y l IH]; intro i; [now destruct i|].
  destruct i as [|i]; cbn [updateAt map]; [now rewrite Hf|now rewrite IH].
Qed.

End UpdatedEntries.

(** X21.  No handler writes the review fields of an entry: if [reviewed],
    [approved], [reviewedAt] and [reviewFeedback] have the defaults of
    the schema on every entry of every record, they still have them
    after any session; in particular PATCH /progress/:courseId/mark-seen,
    which looks for reviewed entries, never finds one. *)
Theorem review_fields_never_written (db : DB) (session : list (Env * User * Request)) :
  (forall p, In p (progresses db) -> Forall unreviewed (taskProgress p)) ->
  forall p, In p (progresses (serve db session)) -> Forall unreviewed (taskProgress p).
Proof.
  apply (@serve_invariant (fun p => Forall unreviewed (taskProgress p))).
  - intros env userId courseId. constructor.
  - intros env p0 p' H0 Hs. rewrite Forall_forall in H0.
    destruct Hs as [l a b _|taskId|i f Hf|i rating text];
      cbn [taskProgress setCounts setCompletedTasks setTaskProgress setAverageRating].
    + now apply Forall_forall.
    + apply Forall_app. split; [now apply Forall_forall|].
      constructor; [now repeat split|constructor].
    + apply Forall_forall. intros tp Hin.
      apply In_updateAt in Hin as [Hin|(y & Hy & ->)]; [now apply H0|].
      destruct (Hf y) as (_ & _ & _ & H4 & H5 & H6 & H7).
      destruct (H0 y Hy) as (Y1 & Y2 & Y3 & Y4). unfold unreviewed. now rewrite H4, H5, H6, H7.
    + apply Forall_forall. intros tp Hin.
      apply In_updateAt in Hin as [Hin|(y & Hy & ->)]; [now apply H0|].
      exact (H0 y Hy).
Qed.

Lemma review_fields_never_written_witness :
  Forall (fun p => Forall unreviewed (taskProgress p))
         (progresses (serve store0 [(env0, student20, SubmitTask 3 1 [homework]);
                                    (env0, student20, SubmitTask 3 1 [homework]);
                                    (env0, coach10, RateTask 1 20 3 (Some (JS.of_Z 4)) None)])).
Proof.
  apply Forall_forall. apply review_fields_never_written. intros p [].
Defined.

(** The average depends on the rated values only. *)
Lemma getAverageRating_rated (p q : Progress) :
  ratedValues p = ratedValues q -> getAverageRating p = getAverageRating q.
Proof.
  unfold ratedValues. intro H. unfold getAverageRating.
  rewrite (fold_left_operand JS.add ratingOperand (filter isRated (taskProgress p))).
  rewrite (fold_left_operand JS.add ratingOperand (filter isRated (taskProgress q))).
  rewrite <- (length_map ratingOperand (filter isRated (taskProgress p))).
  rewrite <- (length_map ratingOperand (filter isRated (taskProgress q))).
  now rewrite H.
Qed.

Lemma rated_of_ratings (l l' : list TaskProgress) :
  map coachRating l = map coachRating l' ->
  map ratingOperand (filter isRated l) = map ratingOperand (filter isRated l').
Proof.
  revert l'. induction l as [|x l IHl]; intros [|y l'] Hmap; try discriminate; [reflexivity|].
  cbn [map] in Hmap. injection Hmap as Hxy Hrest. cbn [filter].
  assert (Hr : isRated x = isRated y) by (unfold isRated; now rewrite Hxy).
  assert (Ho : ratingOperand x = ratingOperand y) by (unfold ratingOperand; now rewrite Hxy).
  rewrite Hr. destruct (isRated y); cbn [map]; [rewrite Ho; f_equal|]; now apply IHl.
Qed.

(** X22.  The stored average rating is never stale: if the
    [averageRating] of every record equals what [getAverageRating]
    computes from its entries, the same holds after any session of
    requests - unlike the stored task counts, which only some handlers
    refresh. *)
Theorem averageRating_in_step (db : DB) (session : list (Env * User * Request)) :
  (forall p, In p (progresses db) -> averageRating p = getAverageRating p) ->
  forall p, In p (progresses (serve db session)) -> averageRating p = getAverageRating p.
Proof.
  apply (@serve_invariant (fun p => averageRating p = getAverageRating p)).
  - reflexivity.
  - intros env p0 p' H0 Hs.
    destruct Hs as [l a b _|taskId|i f Hf|i rating text];
      cbn [averageRating setCounts setCompletedTasks setTaskProgress setAverageRating].
    + exact H0.
    + rewrite H0. apply getAverageRating_rated. unfold ratedValues.
      cbn [taskProgress setTaskProgress]. rewrite filter_app.
      cbn [filter isRated castTaskProgress coachRating]. now rewrite app_nil_r.
    + rewrite H0. apply getAverageRating_rated. unfold ratedValues.
      cbn [taskProgress setTaskProgress]. apply rated_of_ratings. symmetry.
      apply map_updateAt_same. intro tp. apply (Hf tp).
    + apply getAverageRating_rated. reflexivity.
Qed.

Lemma averageRating_in_step_witness :
  Forall (fun p => averageRating p = getAverageRating p)
         (progresses (serve store0 [(env0, student20, SubmitTask 3 1 [homework]);
                                    (env0, coach10, RateTask 1 20 3 (Some (JS.of_Z 4)) None);
                                    (env0, student20, CompleteTask 3 1)])).
Proof.
  apply Forall_forall. apply averageRating_in_step. intros p [].
Defined.

(** ** Submissions and badges, as the other routes show them *)

Lemma submitTask_frame (env : Env) (db : DB) (reqUser : User)
    (taskId courseId : ObjectId) (files : list File) :
  let db' := snd (submitTask env db reqUser taskId courseId files) in
  users db' = users db /\ courses db' = courses db.
Proof.
  cbv zeta. unfold submitTask.
  destruct (length files =? 0); [now split|].
  destruct (match findProgress db (user_id reqUser) courseId with
            | Some p => (p, false)
            | None => (newProgress env (user_id reqUser) courseId, true)
            end) as [progress isNew].
  destruct (match findTaskProgress taskId (taskProgress progress) with
            | Some (i, _) => (progress, Subdocument i)
            | None => _
            end) as [progress1 tp].
  destruct (fold_left (addFile env) files (progress1, tp)) as [progress2 tp2].
  destruct (writeTp tp2 _ _ progress2). now split.
Qed.

(** X23.  A submission reaches the coach of the course and nobody else.
    After a student's submit-task with at least one file, GET
    /progress/submissions/:courseId by the coach of the course lists the
    record the submission saved, among records of that course only; the
    same request by any other user is refused with status 403. *)
Theorem submission_reaches_coach (env : Env) (db : DB) (student reader : User)
    (taskId courseId : ObjectId) (files : list File) (course : Course) :
  files <> [] ->
  findById course_id (courses db) courseId = Some course ->
  let submitted := submitTask env db student taskId courseId files in
  (course_coach course = user_id reader ->
   exists progress found,
     fst submitted =
       reply 201 (SubmitTaskBody "Files uploaded and submitted for review." progress) /\
     fst (getSubmissions (snd submitted) reader courseId) = reply 200 (SubmissionsBody found) /\
     In progress found /\
     forall p, In p found -> progress_course p = courseId) /\
  (course_coach course <> user_id reader ->
   getSubmissions (snd submitted) reader courseId =
     (reply 403 (Message "Not authorized"), snd submitted)).
Proof.
  intros Hfiles Hcourse submitted.
  destruct (submitTask_frame env db student taskId courseId files) as [_ Hcourses].
  cbv zeta in Hcourses. fold submitted in Hcourses.
  unfold getSubmissions. rewrite Hcourses, Hcourse. split.
  - intro Hcoach. apply Nat.eqb_eq in Hcoach. rewrite Hcoach.
    destruct (@submitTask_effect env db student taskId courseId files Hfiles)
      as (progress & Hreply & Hfound & _).
    fold submitted in Hreply, Hfound.
    exists progress. eexists. split; [exact Hreply|]. split; [reflexivity|]. split.
    + apply filter_In. split.
      * unfold findProgress in Hfound. now apply find_some in Hfound.
      * apply findProgress_key in Hfound as [_ ->]. apply Nat.eqb_refl.
    + intros p Hp. apply filter_In in Hp as [_ Hp]. now apply Nat.eqb_eq.
  - intro Hother. apply Nat.eqb_neq in Hother. now rewrite Hother.
Qed.

Lemma submission_reaches_coach_witness :
  (exists progress found,
     fst (submitTask env0 store0 student20 3 1 [homework]) =
       reply 201 (SubmitTaskBody "Files uploaded and submitted for review." progress) /\
     fst (getSubmissions (snd (submitTask env0 store0 student20 3 1 [homework])) coach10 1)
       = reply 200 (SubmissionsBody found) /\
     In progress found /\
     forall p, In p found -> progress_course p = 1) /\
  getSubmissions (snd (submitTask env0 store0 student20 3 1 [homework])) student20 1 =
    (reply 403 (Message "Not authorized"),
     snd (submitTask env0 store0 student20 3 1 [homework])).
Proof.
  assert (Hfiles : [homework] <> []) by discriminate.
  split.
  - apply (proj1 (@submission_reaches_coach env0 store0 student20 coach10 3 1 [homework]
                    course1 Hfiles eq_refl)). reflexivity.
  - apply (proj2 (@submission_reaches_coach env0 store0 student20 student20 3 1 [homework]
                    course1 Hfiles eq_refl)). simpl. lia.
Defined.

(** X24.  A badge granted by complete-task shows up where badges are
    read.  With [_id] a key of the Student and of the Badge collection,
    when the response of complete-task announces a new badge, GET
    /students/:id/badges lists that badge afterwards, and did not list it
    before, for the Student document the badge block looks up: the first
    one that has the name of the caller (the profile made for the caller
    at registration when no other account has that name; the handler
    does not follow [user.studentProfile]). *)
Theorem granted_badge_is_listed (env : Env) (db : DB) (reqUser : User)
    (taskId courseId : ObjectId) (progress : Progress) (badge : Badge) :
  NoDup (map student_id (students db)) ->
  NoDup (map badge_id (badges db)) ->
  fst (completeTask env db reqUser taskId courseId) =
    reply 201 (CompleteTaskBody progress [badge]) ->
  exists holder before after,
    findStudent db reqUser = Some holder /\
    getStudentBadges db (student_id holder) = BadgeList before /\
    ~ In badge before /\
    getStudentBadges (snd (completeTask env db reqUser taskId courseId)) (student_id holder)
      = BadgeList after /\
    In badge after.
Proof.
  intros Hnds Hndb. rewrite completeTask_run. cbv zeta. cbn [fst snd].
  set (saved := setProgresses db _).
  intro Hreply. injection Hreply as _ Hnew.
  destruct (awardBadges_cases saved reqUser) as [[Hnone _]|Hgrant]; [congruence|].
  destruct Hgrant as (badge' & holder & Hfst & Hsnd & Hbadge & Hholder & _ & Hnot).
  assert (badge' = badge) by congruence. subst badge'.
  change (findBadge saved) with (findBadge db) in Hbadge.
  change (findStudent saved reqUser) with (findStudent db reqUser) in Hholder.
  assert (Hin : In holder (students db)).
  { unfold findStudent in Hholder. now apply find_some in Hholder. }
  assert (Hown : findById student_id (students db) (student_id holder) = Some holder).
  { now apply findById_own. }
  assert (Hbadge_in : In badge (badges db)).
  { unfold findBadge in Hbadge. now apply find_some in Hbadge. }
  assert (Hbadge_own : findById badge_id (badges db) (badge_id badge) = Some badge).
  { now apply findById_own. }
  exists holder. eexists. eexists. split; [exact Hholder|].
  unfold getStudentBadges. rewrite Hown, Hsnd.
  cbn [students badges setStudents setProgresses saved].
  rewrite (@findById_save_loaded _ student_id _ _ _ (pushBadge badge holder) Hown eq_refl).
  split; [reflexivity|]. split.
  - intro H. apply In_populate in H as [H _]. contradiction.
  - split; [reflexivity|]. apply In_populate. split; [|exact Hbadge_own].
    cbn [student_badges pushBadge]. apply in_or_app. right. now left.
Qed.

Lemma granted_badge_is_listed_witness :
  exists holder before after,
    findStudent store4 student20 = Some holder /\
    getStudentBadges store4 (student_id holder) = BadgeList before /\
    ~ In badge5 before /\
    getStudentBadges (snd (completeTask env0 store4 student20 7 1)) (student_id holder)
      = BadgeList after /\
    In badge5 after.
Proof.
  assert (Hnds : NoDup (map student_id (students store4))).
  { repeat constructor. simpl. tauto. }
  assert (Hndb : NoDup (map badge_id (badges store4))).
  { repeat constructor. simpl. tauto. }
  assert (Hreply : exists progress,
            fst (completeTask env0 store4 student20 7 1) =
              reply 201 (CompleteTaskBody progress [badge5])).
  { eexists. vm_compute. reflexivity. }
  destruct Hreply as [progress Hreply].
  exact (@granted_badge_is_listed env0 store4 student20 7 1 progress badge5 Hnds Hndb Hreply).
Defined.

(** ** The coach's view of a student's tasks *)

Lemma map_flat_map (A B C : Type) (f : B -> C) (g : A -> list B) (l : list A) :
  map f (flat_map g l) = flat_map (fun x => map f (g x)) l.
Proof.
  induction l as [|x l IH]; [reflexivity|].
  cbn [flat_map]. now rewrite map_app, IH.
Qed.

(** X25.  GET /progress/:courseId/student/:studentId answers any caller
    with the coach role - the handler does not check that the caller
    coaches the course.  It never writes; it sends one row per task the
    course's skills reach, in catalog order, and reports as [totalTasks]
    the number of these rows, recomputed from the catalog, but as
    [completedTasksCount] the count stored in the student's record (0
    without a record); the entry of a row, if any, is an entry of the
    student's record for the task of the row. *)
Theorem coach_task_view (db : DB) (reqUser : User) (courseId studentId : ObjectId) :
  user_role reqUser = RoleCoach ->
  exists rows completed count,
    getStudentTasks db reqUser courseId studentId =
      (reply 200 (StudentTasksBody rows completed count (length (allTasks db courseId))), db) /\
    map (fun row => task_id (fst (fst row))) rows = allTasks db courseId /\
    (forall task skill entry,
       In (task, skill, Some entry) rows ->
       tp_task entry = task_id task /\
       exists p, findProgress db studentId courseId = Some p /\ In entry (taskProgress p)) /\
    match findProgress db studentId courseId with
    | Some p => completed = completedTasks p /\ count = completedTasksCount p
    | None => completed = [] /\ count = 0
    end.
Proof.
  intro Hrole. unfold getStudentTasks, coach. rewrite Hrole.
  set (rows := flat_map (fun st => map (fun task => (task, fst st)) (snd st))
                        (skillsWithTasks db courseId)).
  assert (Hids : map (fun r : Task * Skill => task_id (fst r)) rows = allTasks db courseId).
  { unfold rows, allTasks. rewrite map_flat_map. apply flat_map_ext. intro st.
    rewrite map_map. reflexivity. }
  eexists. eexists. eexists. split; [|split; [|split]].
  - f_equal. f_equal. f_equal. rewrite <- Hids. now rewrite length_map.
  - rewrite map_map. exact Hids.
  - intros task skill entry Hin. apply in_map_iff in Hin as (r & Hr & _).
    injection Hr as <- _ Hentry.
    destruct (findProgress db studentId courseId) as [p|]; [|discriminate].
    apply find_some in Hentry as [Hin Htask]. split; [now apply Nat.eqb_eq|].
    exists p. split; [reflexivity|]. now apply in_rev.
  - destruct (findProgress db studentId courseId); now split.
Qed.

Lemma coach_task_view_witness :
  exists rows completed count,
    getStudentTasks store1 cleo 1 20 =
      (reply 200 (StudentTasksBody rows completed count (length (allTasks store1 1))), store1).
Proof.
  destruct (@coach_task_view store1 cleo 1 20 eq_refl) as (rows & completed & count & H & _).
  now exists rows, completed, count.
Defined.

(** ** Deleted tasks, as the student's read shows them *)

Lemma deleteTask_tasks (db : DB) (reqUser : User) (taskId : ObjectId) :
  status (fst (deleteTask db reqUser taskId)) = 200 ->
  tasks (snd (deleteTask db reqUser taskId)) =
    deleteOne (fun t => task_id t =? taskId) (tasks db) /\
  progresses (snd (deleteTask db reqUser taskId)) = progresses db.
Proof.
  unfold deleteTask, coach. destruct (user_role reqUser); [discriminate|].
  destruct (findById task_id (tasks db) taskId) as [task|] eqn:Htask; [|discriminate].
  pose proof (findById_id _ _ _ Htask) as Hid. rewrite Hid.
  destruct (findById skill_id (skills db) (task_skill task)); [|now split].
  destruct (findById course_id (courses db) _); [|discriminate].
  destruct (negb _); [discriminate|]. now split.
Qed.

(** X26.  A deleted task disappears from the student's progress read
    although the record keeps listing it.  After a successful
    delete-task, ids being keys of the Task collection, GET
    /progress/:courseId of a student who has a record sends completed
    tasks none of which is the deleted one and a [completedTasksCount]
    equal to their number, while the [completedTasks] of the record are
    what they were. *)
Theorem deleted_task_leaves_the_read (db : DB) (reqUser student : User)
    (taskId courseId : ObjectId) (stored : Progress) :
  status (fst (deleteTask db reqUser taskId)) = 200 ->
  NoDup (map task_id (tasks db)) ->
  findProgress db (user_id student) courseId = Some stored ->
  exists progress populated,
    fst (getProgress (snd (deleteTask db reqUser taskId)) student courseId) =
      reply 200 (ProgressBody progress populated) /\
    (forall task, In task populated -> task_id task <> taskId) /\
    completedTasksCount progress = length populated /\
    completedTasks progress = completedTasks stored.
Proof.
  intros Hok Hnd Hstored.
  destruct (deleteTask_tasks db reqUser taskId Hok) as [Htasks Hprogresses].
  unfold getProgress, findProgress. rewrite Hprogresses.
  unfold findProgress in Hstored. rewrite Hstored. cbn [fst].
  eexists. eexists. split; [reflexivity|]. split; [|split; reflexivity].
  intros task Hin Hid. apply In_populate in Hin as [_ Hfound].
  rewrite Htasks, Hid in Hfound.
  rewrite findById_deleteOne in Hfound by exact Hnd. discriminate.
Qed.

Lemma deleted_task_leaves_the_read_witness :
  exists progress,
    fst (getProgress (snd (deleteTask store1 coach10 3)) student20 1) =
      reply 200 (ProgressBody progress []) /\
    completedTasksCount progress = 0 /\
    completedTasks progress = [3].
Proof.
  assert (Hnd : NoDup (map task_id (tasks store1))).
  { repeat constructor. simpl. tauto. }
  assert (Hstored : exists stored, findProgress store1 (user_id student20) 1 = Some stored /\
                                   completedTasks stored = [3]).
  { eexists. split; [vm_compute; reflexivity|reflexivity]. }
  destruct Hstored as (stored & Hstored & Hlisted).
  destruct (@deleted_task_leaves_the_read store1 coach10 student20 3 1 stored eq_refl Hnd Hstored)
    as (progress & populated & Hreply & Hnone & Hcount & Hkept).
  assert (Hempty : populated = []).
  { vm_compute in Hreply. now injection Hreply as _ <-. }
  subst populated. exists progress. split; [exact Hreply|]. split; [exact Hcount|].
  now rewrite Hkept.
Defined.

(** ** Completing a task twice *)

Section SameDocument.
Variable D : Type.
Variable idOf : D -> ObjectId.

(** Saving a document that is found under its id as it is changes
    nothing. *)
Lemma save_same (c : list D) (d : D) :
  findById idOf c (idOf d) = Some d -> save idOf false d c = c.
Proof.
  unfold findById, save. induction c as [|x c IH]; [discriminate|].
  cbn [find updateOne]. destruct (idOf x =? idOf d).
  - intro H. now injection H as ->.
  - intro H. f_equal. now apply IH.
Qed.

End SameDocument.

(** The badge block grants nothing on a store it has just worked on. *)
Lemma awardBadges_again (db : DB) (reqUser : User) :
  awardBadges (snd (awardBadges db reqUser)) reqUser = ([], snd (awardBadges db reqUser)).
Proof.
  destruct (awardBadges_cases db reqUser) as [[Hnone Hsame]|Hgrant].
  - rewrite Hsame. rewrite (surjective_pairing (awardBadges db reqUser)).
    now rewrite Hnone, Hsame.
  - destruct Hgrant as (badge & holder & _ & -> & Hbadge & Hholder & Hcount & _).
    unfold awardBadges at 1.
    assert (Hfound : findStudent (setStudents db (save student_id false (pushBadge badge holder)
                                                       (students db))) reqUser
                     = Some (pushBadge badge holder)).
    { unfold findStudent in *. cbn [students setStudents].
      apply find_save_loaded with (d0 := holder); [exact Hholder|reflexivity|].
      apply find_some in Hholder as [_ H]. exact H. }
    rewrite Hfound.
    change (findBadge (setStudents db _)) with (findBadge db). rewrite Hbadge.
    replace (includes (badge_id badge) (student_badges (pushBadge badge holder))) with true.
    + now rewrite andb_false_r.
    + symmetry. apply includes_In. cbn [student_badges pushBadge].
      apply in_or_app. right. now left.
Qed.

(** X27.  complete-task is idempotent.  When the ids of the Progress
    records are keys after a first request, the same request sent again,
    at whatever time, answers with the same record and no new badge, and
    leaves the store as the first request left it: the task is not added
    a second time and the counts do not move. *)
Theorem completeTask_idempotent (env env' : Env) (db : DB) (reqUser : User)
    (taskId courseId : ObjectId) :
  let first := completeTask env db reqUser taskId courseId in
  NoDup (map progress_id (progresses (snd first))) ->
  exists progress newBadges,
    fst first = reply 201 (CompleteTaskBody progress newBadges) /\
    completeTask env' (snd first) reqUser taskId courseId =
      (reply 201 (CompleteTaskBody progress []), snd first).
Proof.
  cbv zeta. rewrite (completeTask_run env db). cbv zeta. cbn [fst snd].
  set (stored := findProgress db (user_id reqUser) courseId).
  set (loaded := match stored with
                 | Some p => p
                 | None => newProgress env (user_id reqUser) courseId
                 end).
  set (isNew := match stored with Some _ => false | None => true end).
  set (pushed := if includes taskId (completedTasks loaded) then loaded
                 else setCompletedTasks loaded (completedTasks loaded ++ [taskId])).
  set (progress := setCounts pushed (length (completedTasks pushed))
                             (length (allTasks db courseId))).
  set (saved := setProgresses db (save progress_id isNew progress (progresses db))).
  set (db1 := snd (awardBadges saved reqUser)).
  intro Hnd. exists progress, (fst (awardBadges saved reqUser)). split; [reflexivity|].
  destruct (awardBadges_frame saved reqUser) as (_ & _ & _ & Hskills & Htasks & Hprogresses).
  cbv zeta in Hskills, Htasks, Hprogresses. fold db1 in Hskills, Htasks, Hprogresses.
  (* the record the first request saved is the record of the caller *)
  assert (Hkey : progress_user loaded = user_id reqUser /\ progress_course loaded = courseId).
  { unfold loaded. destruct stored as [p|] eqn:E; [|now split].
    now apply findProgress_key in E. }
  assert (Hfound : findProgress db1 (user_id reqUser) courseId = Some progress).
  { unfold findProgress. rewrite Hprogresses. cbn [progresses saved setProgresses].
    assert (Hm : (progress_user progress =? user_id reqUser)
                 && (progress_course progress =? courseId) = true).
    { unfold progress, pushed. destruct Hkey as [Hu Hc].
      destruct (includes taskId (completedTasks loaded)); cbn; now rewrite Hu, Hc, !Nat.eqb_refl. }
    unfold isNew, loaded in *. destruct stored as [p|] eqn:E.
    - apply find_save_loaded with (d0 := p); [exact E| |exact Hm].
      unfold progress, pushed. now destruct (includes taskId (completedTasks p)).
    - apply find_save_new; [exact E|exact Hm]. }
  assert (Hlisted : includes taskId (completedTasks progress) = true).
  { apply includes_In. unfold progress, pushed.
    destruct (includes taskId (completedTasks loaded)) eqn:Hinc; cbn.
    - now apply includes_In.
    - apply in_or_app. right. now left. }
  rewrite (completeTask_run env' db1). cbv zeta. rewrite Hfound, Hlisted.
  rewrite (allTasks_ext saved db1 courseId Hskills Htasks).
  change (allTasks saved courseId) with (allTasks db courseId).
  assert (Hsame : setCounts progress (length (completedTasks progress))
                            (length (allTasks db courseId)) = progress).
  { unfold progress. reflexivity. }
  rewrite Hsame.
  assert (Hstore : setProgresses db1 (save progress_id false progress (progresses db1)) = db1).
  { rewrite save_same.
    - destruct db1; reflexivity.
    - apply findById_own; [exact Hnd|].
      unfold findProgress in Hfound. now apply find_some in Hfound. }
  rewrite Hstore. unfold db1. rewrite awardBadges_again. reflexivity.
Qed.

Lemma completeTask_idempotent_witness :
  exists progress newBadges,
    fst (completeTask env0 store4 student20 7 1) =
      reply 201 (CompleteTaskBody progress newBadges) /\
    completeTask env0 (snd (completeTask env0 store4 student20 7 1)) student20 7 1 =
      (reply 201 (CompleteTaskBody progress []), snd (completeTask env0 store4 student20 7 1)).
Proof.
  apply (@completeTask_idempotent env0 env0 store4 student20 7 1).
  vm_compute. repeat constructor. simpl. tauto.
Defined.
